(** * Portfolio intelligence: news filter and batched analysis

    A shallow embedding of the news filtering pipeline
    ([src/news_filter.py], [src/news_fetcher.py]) and of the batched
    summarisation driver ([src/gemini_analyzer.py]), with the configuration
    constants of [config/settings.py].

    Conventions of the embedding.
    - A Python [str] is a [string]; a character is its code point below 256.
    - A Python [int] is a [Z] where it may be negative, a [nat] where it is
      an index or a length.
    - A Python [float] holding an amount of money is the rational [Q] it
      stands for (a finite IEEE 754 binary64 number); a product of floats
      is the exact product rounded to the nearest float, ties to even
      (module [Float]).
    - A Python [dict] with a fixed set of keys is a record whose fields are
      options ([None] is an absent key or a [None] value, both read the same
      through [dict.get]).
    - Article dicts live in a store and are passed by reference, since the
      filter copies them and writes into the copies.
    - Module globals, sleeps and requests to the summarisation service are
      threaded through a state and exception monad. *)

From Stdlib Require Import List String Ascii Bool Arith ZArith QArith Lia.
From Stdlib Require Import Qpower Lqa.
From Stdlib Require Import Permutation Sorted ListSet.
Import ListNotations.

Close Scope Q_scope.
Local Open Scope string_scope.
Local Open Scope list_scope.
Local Open Scope nat_scope.

(* ================================================================== *)
(** * Python built-ins used by the program *)
(* ================================================================== *)

Module Py.

(** [str.isspace] on one character; also the class [\s] of [re]. *)
Definition is_space (c : ascii) : bool :=
  let n := nat_of_ascii c in
  ((9 <=? n) && (n <=? 13)) || ((28 <=? n) && (n <=? 32))
  || (n =? 133) || (n =? 160).

Definition is_digit (c : ascii) : bool :=
  let n := nat_of_ascii c in (48 <=? n) && (n <=? 57).

Definition lower_char (c : ascii) : ascii :=
  let n := nat_of_ascii c in
  if ((65 <=? n) && (n <=? 90))
     || ((192 <=? n) && (n <=? 222) && negb (n =? 215))
  then ascii_of_nat (n + 32) else c.

(** [s.lower()] *)
Fixpoint lower (s : string) : string :=
  match s with
  | EmptyString => EmptyString
  | String c s' => String (lower_char c) (lower s')
  end.

Definition is_empty (s : string) : bool :=
  match s with EmptyString => true | _ => false end.

(** [s.split()]: the maximal runs of characters that are not white space.
    [w] is the word being read. *)
Fixpoint split_from (w s : string) : list string :=
  match s with
  | EmptyString => if is_empty w then [] else [w]
  | String c s' =>
      if is_space c
      then (if is_empty w then split_from "" s' else w :: split_from "" s')
      else split_from (w ++ String c "") s'
  end.

Definition split (s : string) : list string := split_from "" s.

(** [sep.join(ws)] *)
Fixpoint join (sep : string) (ws : list string) : string :=
  match ws with
  | [] => ""
  | w :: rest =>
      match rest with
      | [] => w
      | _ :: _ => w ++ sep ++ join sep rest
      end
  end.

Fixpoint lstrip (s : string) : string :=
  match s with
  | EmptyString => EmptyString
  | String c s' => if is_space c then lstrip s' else s
  end.

Fixpoint rstrip (s : string) : string :=
  match s with
  | EmptyString => EmptyString
  | String c s' =>
      let r := rstrip s' in
      if is_space c && is_empty r then EmptyString else String c r
  end.

(** [s.strip()] *)
Definition strip (s : string) : string := rstrip (lstrip s).

(** [sub in s] *)
Fixpoint contains (sub s : string) : bool :=
  prefix sub s ||
  match s with
  | EmptyString => false
  | String _ s' => contains sub s'
  end.

Fixpoint drop (n : nat) (s : string) : string :=
  match n, s with
  | O, _ => s
  | S n', String _ s' => drop n' s'
  | S _, EmptyString => EmptyString
  end.

(** [s.replace(old, new)]; [k] characters of a match are still to be
    skipped. *)
Fixpoint replace_go (old new : string) (k : nat) (s : string) : string :=
  match s with
  | EmptyString => if is_empty old then new else EmptyString
  | String c s' =>
      match k with
      | S k' => replace_go old new k' s'
      | O =>
          if is_empty old then new ++ String c (replace_go old new 0 s')
          else if prefix old s
               then new ++ replace_go old new (String.length old - 1) s'
               else String c (replace_go old new 0 s')
      end
  end.

Definition replace (old new s : string) : string := replace_go old new 0 s.

(** [l[:k]] for an integer [k] of either sign *)
Definition slice_to {A} (k : Z) (l : list A) : list A :=
  if (0 <=? k)%Z then firstn (Z.to_nat k) l
  else firstn (List.length l - Z.to_nat (- k)) l.

(** [l[i:j]] for [0 <= i <= j] *)
Definition slice {A} (i j : nat) (l : list A) : list A :=
  firstn (j - i) (skipn i l).

(** [range(start, stop, step)] for a positive [step]; at most [fuel]
    elements, and [stop - start] is always enough. *)
Fixpoint range_go (fuel i stop step : nat) : list nat :=
  match fuel with
  | O => []
  | S f => if i <? stop then i :: range_go f (i + step) stop step else []
  end.

Definition range (start stop step : nat) : list nat :=
  range_go (stop - start) start stop step.

(** [range(start, 0, -step)] for a positive [step] *)
Fixpoint countdown_go (fuel : nat) (i step : Z) : list Z :=
  match fuel with
  | O => []
  | S f => if (0 <? i)%Z then i :: countdown_go f (i - step)%Z step else []
  end.

Definition countdown (start step : Z) : list Z :=
  countdown_go (Z.to_nat start) start step.

(** [sorted(l, key=key)]: the stable sort, by insertion from the right.
    [leb] is the order of the keys. *)
Section Sorted.
Context {A K : Type} (leb : K -> K -> bool) (key : A -> K).

Fixpoint insert (x : A) (l : list A) : list A :=
  match l with
  | [] => [x]
  | y :: l' => if leb (key x) (key y) then x :: l else y :: insert x l'
  end.

Fixpoint sorted (l : list A) : list A :=
  match l with
  | [] => []
  | x :: l' => insert x (sorted l')
  end.
End Sorted.

(** [l.index(x)] when [x in l] *)
Fixpoint index (x : string) (l : list string) : option nat :=
  match l with
  | [] => None
  | y :: l' => if String.eqb x y then Some 0
               else option_map S (index x l')
  end.

(** [d.get(k)] and [k in d] on a dict kept as an association list *)
Fixpoint lookup {V} (k : string) (d : list (string * V)) : option V :=
  match d with
  | [] => None
  | (k', v) :: d' => if String.eqb k k' then Some v else lookup k d'
  end.

(** [x or default] on an optional string: [None] and [""] are falsy *)
Definition truthy (o : option string) : bool :=
  match o with
  | Some s => negb (is_empty s)
  | None => false
  end.

Definition get_or (o : option string) (default : string) : string :=
  match o with Some s => s | None => default end.

(** [int(digits)] *)
Definition digit_val (c : ascii) : Z := Z.of_nat (nat_of_ascii c - 48).

Fixpoint int_of_digits (acc : Z) (s : string) : Z :=
  match s with
  | EmptyString => acc
  | String c s' => int_of_digits (10 * acc + digit_val c)%Z s'
  end.

End Py.

(* ================================================================== *)
(** * config/settings.py *)
(* ================================================================== *)

Module Settings.

Definition GEMINI_MODEL : string := "gemini-2.5-flash-lite".
Definition GEMINI_BATCH_SIZE : nat := 5.
Definition NEWS_DAYS_BACK : Z := 1.
Definition MAX_ARTICLES_PER_STOCK : Z := 5.
Definition MAX_WORDS_PER_ARTICLE : Z := 300.
Definition FUZZY_MATCH_THRESHOLD : Z := 70.

Definition TICKER_ALIASES : list (string * list string) :=
  [ ("INFY",       ["Infosys"; "Infy"]);
    ("NSE:INFY",   ["Infosys"; "Infy"]);
    ("TCS",        ["Tata Consultancy"; "TCS"]);
    ("NSE:TCS",    ["Tata Consultancy"; "TCS"]);
    ("HCLTECH",    ["HCL Technologies"; "HCL Tech"; "HCL"]);
    ("NSE:BEL",    ["Bharat Electronics"; "BEL"]);
    ("TMPV",       ["Tata Motors"; "Tata Motor"]);
    ("TATAPOWER",  ["Tata Power"]);
    ("RELIANCE",   ["Reliance Industries"; "Reliance Jio";
                    "Reliance Retail"; "RIL"]);
    ("INDIGO",     ["IndiGo"; "Interglobe Aviation"; "InterGlobe"]);
    ("NEWGEN",     ["Newgen Software"; "Newgen"]);
    ("LT",         ["Larsen & Toubro"; "L&T"; "Larsen Toubro"]);
    ("AFFLE",      ["Affle India"; "Affle"]);
    ("VBL",        ["Varun Beverages"; "Varun Bev"]);
    ("FEDERALBNK", ["Federal Bank"]);
    ("NSE:ITC",    ["ITC Limited"; "ITC"]);
    ("MAPMYINDIA", ["CE Info System"; "MapmyIndia"; "CE Info"]);
    ("IDFCFIRSTB", ["IDFC First Bank"; "IDFC First"]);
    ("KPITTECH",   ["KPIT Technologies"; "KPIT Tech"; "KPIT"]);
    ("NSE:UPL",    ["UPL Limited"; "UPL"]);
    ("DIXON",      ["Dixon Technologies"; "Dixon Tech"]);
    ("WIPRO",      ["Wipro"]);
    ("HDFCBANK",   ["HDFC Bank"; "HDFC"]);
    ("TVSSCS",     ["TVS Supply Chain"; "TVS SCS"]);
    ("SUZLON",     ["Suzlon Energy"; "Suzlon"]);
    ("ARE&M",      ["Amara Raja"; "Amara Raja Energy";
                    "Amara Raja Batteries"]);
    ("BECTORFOOD", ["Mrs Bectors Food"; "Mrs Bectors"; "Bectors"]);
    ("SBICARD",    ["SBI Cards"; "SBI Card"]);
    ("DRREDDY",    ["Dr Reddys"; "Dr. Reddy"; "Dr Reddy Labs"]);
    ("IKIO",       ["IKIO Lighting"; "IKIO"]);
    ("M&M",        ["Mahindra"; "Mahindra & Mahindra"; "M&M"]);
    ("AMZN",       ["Amazon"; "Amazon.com"]);
    ("AAPL",       ["Apple"]);
    ("GOOGL",      ["Google"; "Alphabet"]);
    ("MSFT",       ["Microsoft"]);
    ("NVDA",       ["Nvidia"; "NVIDIA"]);
    ("AMD",        ["AMD"; "Advanced Micro Devices"]);
    ("ADBE",       ["Adobe"]);
    ("QQQ",        ["Invesco QQQ"; "QQQ ETF"; "Nasdaq ETF"]);
    ("CRWD",       ["CrowdStrike"; "Crowdstrike"]);
    ("META",       ["Meta"; "Meta Platforms"; "Facebook"]);
    ("SOFI",       ["SoFi Technologies"; "SoFi"]);
    ("JNJ",        ["Johnson & Johnson"; "J&J"]);
    ("ARM",        ["Arm Holdings"; "ARM Holdings"]);
    ("SNOW",       ["Snowflake"]);
    ("PLTR",       ["Palantir"]);
    ("INTC",       ["Intel"]);
    ("NU",         ["Nu Holdings"; "Nubank"]);
    ("RDDT",       ["Reddit"]);
    ("MNDY",       ["Monday.com"]);
    ("NET",        ["Cloudflare"]);
    ("AVGO",       ["Broadcom"]);
    ("TSM",        ["TSMC"; "Taiwan Semiconductor"]);
    ("UBER",       ["Uber"]);
    ("PYPL",       ["PayPal"]);
    ("QTUM",       ["Defiance Quantum"; "QTUM ETF"]);
    ("DDOG",       ["Datadog"]);
    ("QCOM",       ["Qualcomm"]);
    ("SYM",        ["Symbotic"]);
    ("VXUS",       ["Vanguard Total International"; "VXUS ETF"]) ].

End Settings.

(* ================================================================== *)
(** * The records passed around: holdings, articles, analysis results *)
(* ================================================================== *)

Module Model.

(** A point in time, in microseconds since the epoch (UTC). *)
Definition datetime := Z.

(** [timedelta(days=d)] *)
Definition timedelta_days (d : Z) : Z := (d * 86400000000)%Z.

(** A holding, as [sheet_reader] builds it. *)
Record stock := {
  ticker       : option string;
  yahoo_ticker : option string;
  name         : option string;
  market       : option string;
  sector       : option string;
  gain_pct     : option Q;
  profit_inr   : option Q;
  invested_inr : option Q
}.

(** A news item, as [fetch_rss_feed] builds it; [body] is added by the
    scraper. *)
Record article := {
  title     : option string;
  link      : option string;
  summary   : option string;
  body      : option string;
  published : option datetime;
  source    : option string
}.

(** The empty dict. *)
Definition no_article : article :=
  {| title := None; link := None; summary := None; body := None;
     published := None; source := None |}.

Definition set_body (a : article) (v : string) : article :=
  {| title := title a; link := link a; summary := summary a;
     body := Some v; published := published a; source := source a |}.

Definition set_summary (a : article) (v : string) : article :=
  {| title := title a; link := link a; summary := Some v;
     body := body a; published := published a; source := source a |}.

(** ** The store of article dicts *)

Definition ref := nat.
Definition heap := list article.

Definition deref (h : heap) (r : ref) : article := nth r h no_article.

(** A new dict; its reference is the next free cell. *)
Definition alloc (h : heap) (a : article) : heap * ref :=
  (h ++ [a], List.length h).

(** Assignment to a key of the dict at [r]. *)
Fixpoint store (h : heap) (r : ref) (a : article) : heap :=
  match h, r with
  | [], _ => []
  | _ :: h', O => a :: h'
  | x :: h', S r' => x :: store h' r' a
  end.

End Model.

(* ================================================================== *)
(** * Python floats *)
(* ================================================================== *)

(** A Python [float] is an IEEE 754 binary64 number: [m * 2 ^ e] with
    [|m| < 2 ^ 53] and [-1074 <= e <= 971].  A finite float is kept as the
    rational it stands for.  An arithmetic operation gives the exact
    result rounded to the nearest float, ties to the even mantissa; a
    rounded result of [2 ^ 1024] or more is [inf].  Floats are only
    compared here, so [inf] is kept as [2 ^ 1024], which lies above every
    finite float as [inf] does. *)

Module Float.

Definition pow2 (e : Z) : Q :=
  if (0 <=? e)%Z then inject_Z (2 ^ e) else 1 # Z.to_pos (2 ^ (- e)).

(** [floor (log2 (n / d))] *)
Definition floor_log2 (n d : positive) : Z :=
  let k := (Z.log2 (Zpos n) - Z.log2 (Zpos d))%Z in
  let reached :=
    if (0 <=? k)%Z then (Zpos d * 2 ^ k <=? Zpos n)%Z
    else (Zpos d <=? Zpos n * 2 ^ (- k))%Z in
  if reached then k else (k - 1)%Z.

(** The integer nearest to [num / den], ties to the even one. *)
Definition nearest_even (num den : Z) : Z :=
  let q := (num / den)%Z in
  let r := (num mod den)%Z in
  if (2 * r <? den)%Z then q
  else if (den <? 2 * r)%Z then (q + 1)%Z
  else if Z.even q then q else (q + 1)%Z.

Definition inf : Q := inject_Z (2 ^ 1024).

(** The float nearest to [n / d]: the exponent [e] of the last place is
    that of a mantissa of 53 bits, and [-1074] for a subnormal. *)
Definition round_pos (n d : positive) : Q :=
  let e := Z.max (floor_log2 n d - 52) (-1074) in
  let m :=
    if (0 <=? e)%Z then nearest_even (Zpos n) (Zpos d * 2 ^ e)
    else nearest_even (Zpos n * 2 ^ (- e)) (Zpos d) in
  let v := (inject_Z m * pow2 e)%Q in
  if Qle_bool inf v then inf else v.

(** The float nearest to [q]; also [float(text)] for a decimal [q], and
    the value of a literal such as [1.1]. *)
Definition round (q : Q) : Q :=
  match Qnum q with
  | Z0 => 0%Q
  | Zpos n => round_pos n (Qden q)
  | Zneg n => (- round_pos n (Qden q))%Q
  end.

(** [a * b] on floats *)
Definition mul (a b : Q) : Q := round (a * b)%Q.


End Float.

(* ================================================================== *)
(** * rapidfuzz.fuzz *)
(* ================================================================== *)

(** The library is not part of the program.  [ratio] and
    [token_sort_ratio] follow its documented definition: the normalised
    Indel similarity, [100 * (1 - d / (len1 + len2))] with
    [d = len1 + len2 - 2 * lcs], taken as an exact rational.
    [partial_ratio] stays a parameter of the functions that call it. *)

Module Fuzz.

Definition score := Q.

(** A row of zeros, one entry per suffix of [s]. *)
Fixpoint zeros_for (s : string) : list nat :=
  0 :: match s with
       | EmptyString => []
       | String _ s' => zeros_for s'
       end.

(** From the row of [xs] (the longest common subsequence of [xs] with
    every suffix of [s2]) to the row of [String x xs]. *)
Fixpoint lcs_row (x : ascii) (s2 : string) (old : list nat) : list nat :=
  match s2 with
  | EmptyString => [0]
  | String y ys =>
      let new' := lcs_row x ys (tl old) in
      (if Ascii.eqb x y then S (hd 0 (tl old))
       else Nat.max (hd 0 old) (hd 0 new')) :: new'
  end.

Fixpoint lcs_table (s1 s2 : string) : list nat :=
  match s1 with
  | EmptyString => zeros_for s2
  | String x xs => lcs_row x s2 (lcs_table xs s2)
  end.

(** Length of a longest common subsequence. *)
Definition lcs (s1 s2 : string) : nat := hd 0 (lcs_table s1 s2).

Definition indel_distance (s1 s2 : string) : nat :=
  String.length s1 + String.length s2 - 2 * lcs s1 s2.

Definition score_of (dist maximum : nat) : score :=
  if maximum =? 0 then 100%Q
  else ((1 - inject_Z (Z.of_nat dist) / inject_Z (Z.of_nat maximum))
        * 100)%Q.

(** [fuzz.ratio(s1, s2)] *)
Definition ratio (s1 s2 : string) : score :=
  score_of (indel_distance s1 s2) (String.length s1 + String.length s2).

(** [fuzz.token_sort_ratio(s1, s2)] *)
Definition token_sort_ratio (s1 s2 : string) : score :=
  let sorted_s1 := Py.join " " (Py.sorted String.leb (fun w => w) (Py.split s1)) in
  let sorted_s2 := Py.join " " (Py.sorted String.leb (fun w => w) (Py.split s2)) in
  ratio sorted_s1 sorted_s2.

(** [score >= threshold] *)
Definition at_least (s : score) (threshold : Z) : bool :=
  Qle_bool (inject_Z threshold) s.

End Fuzz.

(* ================================================================== *)
(** * src/news_fetcher.py *)
(* ================================================================== *)

Module NewsFetcher.
Import Model.

(** [is_recent(article, days_back)], at the time [now] of the call. *)
Definition is_recent (now : datetime) (a : article) (days_back : Z) : bool :=
  match published a with
  | None => true
  | Some p =>
      let cutoff := (now - timedelta_days days_back)%Z in
      (cutoff <=? p)%Z
  end.

End NewsFetcher.

(* ================================================================== *)
(** * src/news_filter.py *)
(* ================================================================== *)

Module NewsFilter.
Import Model Settings.

(** [aliases.add(x)] on a set kept as a list without repetition.  The
    order in which Python enumerates a set is not fixed; nothing below
    depends on it. *)
Definition add (x : string) (aliases : list string) : list string :=
  set_add string_dec x aliases.

(** The body of [for key in [...]: if key in TICKER_ALIASES: ...] *)
Definition add_table_entries (key : string) (aliases : list string)
  : list string :=
  match Py.lookup key TICKER_ALIASES with
  | Some entries =>
      fold_left (fun acc alias => add (Py.lower alias) acc) entries aliases
  | None => aliases
  end.

(** [get_aliases_for_stock(stock)] *)
Definition get_aliases_for_stock (s : stock) : list string :=
  let ticker := Py.get_or (ticker s) "" in
  let name := Py.get_or (name s) "" in
  let yahoo_ticker := Py.get_or (yahoo_ticker s) ticker in
  let aliases := add (Py.lower yahoo_ticker) (add (Py.lower ticker) []) in
  let aliases :=
    fold_left (fun acc key => add_table_entries key acc)
      [ticker; yahoo_ticker;
       Py.replace "NSE:" "" ticker; Py.replace "BSE:" "" ticker]
      aliases in
  if Py.is_empty name then aliases
  else
    let aliases := add (Py.lower name) aliases in
    let words :=
      filter (fun w => 4 <=? String.length w) (Py.split name) in
    match words with
    | [] => aliases
    | w :: _ => add (Py.lower w) aliases
    end.

Section Relevance.
(** [fuzz.partial_ratio] *)
Variable partial_ratio : string -> string -> Fuzz.score.

(** The loop [for alias in aliases] of [is_article_relevant]. *)
Fixpoint any_alias_matches (text : string) (aliases : list string)
  : bool :=
  match aliases with
  | [] => false
  | alias :: rest =>
      if Py.is_empty alias || (String.length alias <? 3)
      then any_alias_matches text rest
      else if Py.contains alias text then true
      else if Fuzz.at_least (partial_ratio alias text)
                FUZZY_MATCH_THRESHOLD
           then true
           else any_alias_matches text rest
  end.

(** [is_article_relevant(article, stock, from_sector_feed)] *)
Definition is_article_relevant
  (a : article) (s : stock) (from_sector_feed : bool) : bool :=
  if negb from_sector_feed then true
  else
    let text :=
      Py.lower (Py.get_or (title a) "" ++ " "
                ++ Py.get_or (summary a) "") in
    any_alias_matches text (get_aliases_for_stock s).
End Relevance.

(** [re.sub(r"[^a-z0-9\s]", "", title)] *)
Definition keep_char (c : ascii) : bool :=
  let n := nat_of_ascii c in
  ((97 <=? n) && (n <=? 122)) || Py.is_digit c || Py.is_space c.

Fixpoint strip_punctuation (s : string) : string :=
  match s with
  | EmptyString => EmptyString
  | String c s' =>
      if keep_char c then String c (strip_punctuation s')
      else strip_punctuation s'
  end.

(** [re.sub(r"\s+", " ", title)]; [in_run] holds inside a run of white
    space that has already produced its blank. *)
Fixpoint collapse_spaces (in_run : bool) (s : string) : string :=
  match s with
  | EmptyString => EmptyString
  | String c s' =>
      if Py.is_space c
      then (if in_run then collapse_spaces true s'
            else String " " (collapse_spaces true s'))
      else String c (collapse_spaces false s')
  end.

(** [normalize_for_dedup(title)] *)
Definition normalize_for_dedup (title : string) : string :=
  let title := Py.lower title in
  let title := strip_punctuation title in
  Py.strip (collapse_spaces false title).

(** [is_duplicate_title(title, seen_titles, threshold)] *)
Definition is_duplicate_title
  (title : string) (seen_titles : list string) (threshold : Z) : bool :=
  let norm := normalize_for_dedup title in
  (fix loop (seen_titles : list string) : bool :=
     match seen_titles with
     | [] => false
     | seen :: rest =>
         if Fuzz.at_least (Fuzz.token_sort_ratio norm seen) threshold
         then true
         else loop rest
     end) seen_titles.

(** [truncate_text(text, max_words)] *)
Definition truncate_text (text : string) (max_words : Z) : string :=
  let words := Py.split text in
  if (Z.of_nat (List.length words) <=? max_words)%Z then text
  else Py.join " " (Py.slice_to max_words words) ++ "...".

(** The counters of one filter pass. *)
Record stats := {
  too_old    : nat;
  irrelevant : nat;
  duplicate  : nat;
  kept       : nat
}.

(** The variables of the loop of [filter_news_for_stock], and the store. *)
Record fstate := {
  st_heap     : heap;
  st_filtered : list ref;
  st_seen     : list string;
  st_stats    : stats
}.

Inductive flow := Continue | Break.

(** Step 4 of the loop: [article.copy()] and the two truncating
    assignments, all on the new dict. *)
Definition copy_and_truncate (h : heap) (r : ref) : heap * ref :=
  let (h1, processed) := alloc h (deref h r) in
  let h2 :=
    if Py.truthy (body (deref h1 processed))
    then store h1 processed
           (set_body (deref h1 processed)
              (truncate_text (Py.get_or (body (deref h1 processed)) "")
                 MAX_WORDS_PER_ARTICLE))
    else h1 in
  let h3 :=
    if Py.truthy (summary (deref h2 processed))
    then store h2 processed
           (set_summary (deref h2 processed)
              (truncate_text (Py.get_or (summary (deref h2 processed)) "")
                 150))
    else h2 in
  (h3, processed).

Section Filter.
Variable partial_ratio : string -> string -> Fuzz.score.
Variable now : datetime.
Variable s : stock.
Variable days_back : Z.
Variable max_articles : Z.
Variable from_sector_feed : bool.

Definition cutoff : datetime := (now - timedelta_days days_back)%Z.

(** One turn of [for article in articles]. *)
Definition filter_step (st : fstate) (r : ref) : fstate * flow :=
  let a := deref (st_heap st) r in
  let c := st_stats st in
  let stale :=
    match published a with
    | Some pub => (pub <? cutoff)%Z
    | None => false
    end in
  if stale then
    ({| st_heap := st_heap st; st_filtered := st_filtered st;
        st_seen := st_seen st;
        st_stats := {| too_old := too_old c + 1;
                       irrelevant := irrelevant c;
                       duplicate := duplicate c; kept := kept c |} |},
     Continue)
  else if negb (is_article_relevant partial_ratio a s from_sector_feed)
  then
    ({| st_heap := st_heap st; st_filtered := st_filtered st;
        st_seen := st_seen st;
        st_stats := {| too_old := too_old c;
                       irrelevant := irrelevant c + 1;
                       duplicate := duplicate c; kept := kept c |} |},
     Continue)
  else
    let title := Py.get_or (title a) "" in
    if is_duplicate_title title (st_seen st) 70
    then
      ({| st_heap := st_heap st; st_filtered := st_filtered st;
          st_seen := st_seen st;
          st_stats := {| too_old := too_old c;
                         irrelevant := irrelevant c;
                         duplicate := duplicate c + 1;
                         kept := kept c |} |},
       Continue)
    else
      let seen := st_seen st ++ [normalize_for_dedup title] in
      let (h, processed) := copy_and_truncate (st_heap st) r in
      let filtered := st_filtered st ++ [processed] in
      ({| st_heap := h; st_filtered := filtered; st_seen := seen;
          st_stats := {| too_old := too_old c;
                         irrelevant := irrelevant c;
                         duplicate := duplicate c;
                         kept := kept c + 1 |} |},
       if (max_articles <=? Z.of_nat (List.length filtered))%Z
       then Break else Continue).

Fixpoint filter_loop (articles : list ref) (st : fstate) : fstate :=
  match articles with
  | [] => st
  | r :: rest =>
      match filter_step st r with
      | (st', Break) => st'
      | (st', Continue) => filter_loop rest st'
      end
  end.

Definition initial (h : heap) : fstate :=
  {| st_heap := h; st_filtered := []; st_seen := [];
     st_stats := {| too_old := 0; irrelevant := 0;
                    duplicate := 0; kept := 0 |} |}.

(** [filter_news_for_stock(articles, stock, days_back, max_articles,
    from_sector_feed)]: the store after the call and the list
    returned. *)
Definition filter_news_for_stock (h : heap) (articles : list ref)
  : heap * list ref :=
  let st := filter_loop articles (initial h) in
  (st_heap st, st_filtered st).
End Filter.

End NewsFilter.

(* ================================================================== *)
(** * src/gemini_analyzer.py *)
(* ================================================================== *)

Module GeminiAnalyzer.
Import Model Settings.

Definition MODEL_FALLBACK_ORDER : list string :=
  ["gemini-2.0-flash"; "gemini-1.5-flash"; "gemini-1.5-flash-8b"].

Definition MAX_RETRIES : nat := 3.
Definition BATCH_DELAY : Z := 6.

(** ** The outside world *)

(** What [generate_content(prompt)] followed by [response.text] gives:
    a text, or an exception with its message. *)
Inductive outcome :=
| Response (text : string)
| Failure (error_str : string).

(** One analysis dict: the keys asked of the service, then the keys
    merged in from the holding. *)
Record result := {
  r_ticker          : option string;
  r_sentiment       : option string;
  r_summary         : option string;
  r_priority        : option string;
  r_priority_reason : option string;
  r_action_hint     : option string;
  r_thesis_status   : option string;
  r_name            : option string;
  r_market          : option string;
  r_sector          : option string;
  r_gain_pct        : option Q;
  r_profit_inr      : option Q;
  r_invested_inr    : option Q
}.

(** What [json.loads] makes of a text. *)
Inductive json :=
| JsonList (items : list result)
| JsonOther
| JsonDecodeError.

(** The collaborators of a run.  [generate_content n model prompt] is the
    answer to the [n]-th request of the run, sent to [model].  The prompt
    texts are kept as parameters. *)
Record env := {
  GEMINI_API_KEY : bool;
  generate_content : nat -> string -> string -> outcome;
  json_loads : string -> json;
  build_llm_context_for_stock : stock -> list article -> string;
  DAILY_SYSTEM_PROMPT : string;
  divider : string
}.

Inductive event :=
| Requested (model prompt : string)
| Slept (seconds : Z)
| Initialised (model : string).

(** The module globals [_active_model] and [_active_model_name] (set
    together), the number of requests sent, and what happened so far. *)
Record gstate := {
  active_model_name : option string;
  requests : nat;
  trace : list event
}.

Inductive exn :=
| ValueError (msg : string).

Inductive res (A : Type) :=
| Ret (a : A)
| Raise (e : exn).
Arguments Ret {A} a.
Arguments Raise {A} e.

(** ** State and exceptions *)

Definition M (A : Type) : Type := gstate -> res A * gstate.

Definition ret {A} (a : A) : M A := fun st => (Ret a, st).

Definition raise {A} (e : exn) : M A := fun st => (Raise e, st).

Definition bind {A B} (m : M A) (k : A -> M B) : M B :=
  fun st =>
    match m st with
    | (Ret a, st') => k a st'
    | (Raise e, st') => (Raise e, st')
    end.

Notation "x <- m ;; k" := (bind m (fun x => k))
  (at level 61, m at next level, right associativity).
Notation "m ;;; k" := (bind m (fun _ => k))
  (at level 61, right associativity).

Definition log (e : event) : M unit :=
  fun st =>
    (Ret tt, {| active_model_name := active_model_name st;
                requests := requests st;
                trace := trace st ++ [e] |}).

(** [time.sleep(seconds)] *)
Definition sleep (seconds : Z) : M unit := log (Slept seconds).

(** The message of the [AttributeError] raised on [None]. *)
Definition attribute_error : string :=
  "'NoneType' object has no attribute 'generate_content'".

(** [_active_model.generate_content(prompt)] under [try]: with no model
    the attribute access fails, and the handler sees that failure. *)
Definition request (e : env) (prompt : string) : M outcome :=
  fun st =>
    match active_model_name st with
    | None => (Ret (Failure attribute_error), st)
    | Some model =>
        (Ret (generate_content e (requests st) model prompt),
         {| active_model_name := Some model;
            requests := requests st + 1;
            trace := trace st ++ [Requested model prompt] |})
    end.

(** [init_gemini(model_name)] *)
Definition init_gemini (e : env) (model_name : option string) : M unit :=
  if negb (GEMINI_API_KEY e)
  then raise (ValueError "GEMINI_API_KEY not set in .env")
  else
    let target :=
      if Py.truthy model_name then Py.get_or model_name ""
      else GEMINI_MODEL in
    fun st =>
      (Ret tt, {| active_model_name := Some target;
                  requests := requests st;
                  trace := trace st ++ [Initialised target] |}).

(** ** get_retry_delay_from_error *)

Definition strip_prefix (p s : string) : option string :=
  if prefix p s then Some (Py.drop (String.length p) s) else None.

Fixpoint take_digits (s : string) : string :=
  match s with
  | EmptyString => EmptyString
  | String c s' =>
      if Py.is_digit c then String c (take_digits s') else EmptyString
  end.

Definition digits_at (s : string) : option Z :=
  let d := take_digits s in
  if Py.is_empty d then None else Some (Py.int_of_digits 0 d).

(** [retry_delay\s*\{\s*seconds:\s*(\d+)] matched at the start of [s] *)
Definition match_retry_delay (s : string) : option Z :=
  match strip_prefix "retry_delay" s with
  | None => None
  | Some s1 =>
      match strip_prefix "{" (Py.lstrip s1) with
      | None => None
      | Some s2 =>
          match strip_prefix "seconds:" (Py.lstrip s2) with
          | None => None
          | Some s3 => digits_at (Py.lstrip s3)
          end
      end
  end.

(** [Please retry in (\d+)] matched at the start of [s] *)
Definition match_please_retry (s : string) : option Z :=
  match strip_prefix "Please retry in " s with
  | None => None
  | Some s1 => digits_at s1
  end.

(** [re.search]: the leftmost position where the pattern matches. *)
Fixpoint re_search (pattern : string -> option Z) (s : string) : option Z :=
  match pattern s with
  | Some v => Some v
  | None =>
      match s with
      | EmptyString => None
      | String _ s' => re_search pattern s'
      end
  end.

Definition get_retry_delay_from_error (error_str : string) : Z :=
  match re_search match_retry_delay error_str with
  | Some seconds => (seconds + 2)%Z
  | None =>
      match re_search match_please_retry error_str with
      | Some seconds => (seconds + 2)%Z
      | None => 60%Z
      end
  end.

(** ** call_gemini_with_retry *)

(** The countdown [for remaining in range(retry_delay, 0, -5)]. *)
Fixpoint sleep_all (remaining : list Z) : M unit :=
  match remaining with
  | [] => ret tt
  | r :: rest => sleep (Z.min 5 r) ;;; sleep_all rest
  end.

(** The index of the tier after the active one; an active model that
    is not in the list counts as index [-1]. *)
Definition next_index (active : option string) : nat :=
  match active with
  | Some nm =>
      match Py.index nm MODEL_FALLBACK_ORDER with
      | Some current_idx => current_idx + 1
      | None => 0
      end
  | None => 0
  end.

(** The loop [for attempt in range(MAX_RETRIES)]. *)
Fixpoint retry_loop (e : env) (prompt : string) (attempts : list nat)
  : M (string * bool) :=
  match attempts with
  | [] => ret ("", false)
  | attempt :: rest =>
      o <- request e prompt ;;
      match o with
      | Response text => ret (Py.strip text, true)
      | Failure error_str =>
          if Py.contains "429" error_str then
            let retry_delay := get_retry_delay_from_error error_str in
            let daily_quota_hit :=
              Py.contains "PerDay" error_str
              || Py.contains "GenerateRequestsPerDay" error_str in
            fun st =>
              let next_idx := next_index (active_model_name st) in
              if daily_quota_hit && (attempt =? 0)
                 && (next_idx <? List.length MODEL_FALLBACK_ORDER)
              then
                (init_gemini e (nth_error MODEL_FALLBACK_ORDER next_idx) ;;;
                 retry_loop e prompt rest) st
              else if attempt <? MAX_RETRIES - 1 then
                (sleep_all (Py.countdown retry_delay 5) ;;;
                 retry_loop e prompt rest) st
              else ret ("", false) st
          else ret ("", false)
      end
  end.

Definition call_gemini_with_retry (e : env) (prompt : string)
  (tickers : list string) : M (string * bool) :=
  retry_loop e prompt (Py.range 0 MAX_RETRIES 1).

(** ** Daily analysis *)

Definition nl : string := String (ascii_of_nat 10) "".

(** [_fallback_results(tickers, reason)] *)
Definition _fallback_results (tickers : list string) (reason : string)
  : list result :=
  map (fun t =>
         {| r_ticker := Some t;
            r_sentiment := Some "neutral";
            r_summary := Some (Py.strip ("Analysis unavailable. " ++ reason));
            r_priority := Some "LOW";
            r_priority_reason := Some reason;
            r_action_hint := Some "no_news";
            r_thesis_status := Some "unclear";
            r_name := None; r_market := None; r_sector := None;
            r_gain_pct := None; r_profit_inr := None;
            r_invested_inr := None |})
      tickers.

(** [analyze_daily_batch(model, stock_contexts, tickers)] *)
Definition analyze_daily_batch (e : env) (stock_contexts : list string)
  (tickers : list string) : M (list result) :=
  let combined :=
    (nl ++ nl ++ Py.join (divider e) stock_contexts)%string in
  let prompt :=
    (DAILY_SYSTEM_PROMPT e ++ nl ++ nl ++ "Stocks to analyze:" ++ nl
     ++ combined ++ nl ++ nl
     ++ "Return JSON array with one object per stock.")%string in
  r <- call_gemini_with_retry e prompt tickers ;;
  let (raw_text, success) := r in
  if negb success || Py.is_empty raw_text
  then ret (_fallback_results tickers "API unavailable")
  else
    let raw_text :=
      Py.strip (Py.replace "```" "" (Py.replace "```json" "" raw_text)) in
    match json_loads e raw_text with
    | JsonList results => ret results
    | JsonOther => raise (ValueError "Expected list")
    | JsonDecodeError => ret (_fallback_results tickers "JSON parse error")
    end.

(** An entry of the filtered news map. *)
Record data := {
  d_stock : stock;
  d_articles : list article
}.

Definition amount (o : option Q) : Q :=
  match o with Some q => q | None => 0%Q end.

Definition is_IN (market : option string) : bool :=
  match market with
  | Some m => String.eqb m "IN"
  | None => false
  end.

(** The [sort_key] of [sort_by_investment]. *)
Definition sort_key (item : string * data) : Q :=
  let stock := d_stock (snd item) in
  let invested := amount (invested_inr stock) in
  let market_boost :=
    if is_IN (market stock) then Float.round (11 # 10) else 1%Q in
  (- Float.mul invested market_boost)%Q.

(** [sort_by_investment(stock_list)] *)
Definition sort_by_investment (stock_list : list (string * data))
  : list (string * data) :=
  Py.sorted Qle_bool sort_key stock_list.

(** [[l[i:i + batch_size] for i in range(0, len(l), batch_size)]];
    [range] refuses a zero step. *)
Definition make_batches {A} (batch_size : nat) (l : list A)
  : res (list (list A)) :=
  if batch_size =? 0
  then Raise (ValueError "range() arg 3 must not be zero")
  else Ret (map (fun i => Py.slice i (i + batch_size) l)
                (Py.range 0 (List.length l) batch_size)).

Definition lift {A} (r : res A) : M A := fun st => (r, st).

(** The merge of the holding's fields into one result. *)
Definition merge_stock (ticker_to_stock : list (string * stock))
  (r : result) : result :=
  match r_ticker r with
  | None => r
  | Some rt =>
      match Py.lookup rt ticker_to_stock with
      | None => r
      | Some s =>
          {| r_ticker := r_ticker r;
             r_sentiment := r_sentiment r;
             r_summary := r_summary r;
             r_priority := r_priority r;
             r_priority_reason := r_priority_reason r;
             r_action_hint := r_action_hint r;
             r_thesis_status := r_thesis_status r;
             r_name := Some (Py.get_or (name s) rt);
             r_market := Some (Py.get_or (market s) "");
             r_sector := Some (Py.get_or (sector s) "");
             r_gain_pct := gain_pct s;
             r_profit_inr := profit_inr s;
             r_invested_inr := invested_inr s |}
      end
  end.

(** The body of [for batch_idx, batch in enumerate(batches)]. *)
Definition process_batch (e : env) (n_batches : nat) (batch_idx : nat)
  (batch : list (string * data)) : M (list result) :=
  let tickers_in_batch := map fst batch in
  let contexts :=
    map (fun item =>
           build_llm_context_for_stock e (d_stock (snd item))
             (d_articles (snd item)))
        batch in
  batch_results <- analyze_daily_batch e contexts tickers_in_batch ;;
  (* a dict built from pairs keeps the last value of a key *)
  let ticker_to_stock :=
    rev (map (fun item => (fst item, d_stock (snd item))) batch) in
  let batch_results := map (merge_stock ticker_to_stock) batch_results in
  (if batch_idx <? n_batches - 1 then sleep BATCH_DELAY else ret tt) ;;;
  ret batch_results.

Fixpoint batch_loop (e : env) (n_batches : nat)
  (batches : list (nat * list (string * data))) (all_results : list result)
  : M (list result) :=
  match batches with
  | [] => ret all_results
  | (batch_idx, batch) :: rest =>
      batch_results <- process_batch e n_batches batch_idx batch ;;
      batch_loop e n_batches rest (all_results ++ batch_results)
  end.

Definition priority_order (p : option string) : nat :=
  match p with
  | None => 2           (* the default "LOW" *)
  | Some p =>
      if String.eqb p "HIGH" then 0
      else if String.eqb p "MEDIUM" then 1
      else 2
  end.

Definition final_key (r : result) : nat * Q :=
  (priority_order (r_priority r), (- amount (r_invested_inr r))%Q).

(** The order of Python tuples. *)
Definition tuple_leb (a b : nat * Q) : bool :=
  (fst a <? fst b) || ((fst a =? fst b) && Qle_bool (snd a) (snd b)).

Definition has_news (item : string * data) : bool :=
  match d_articles (snd item) with
  | [] => false
  | _ :: _ => true
  end.

(** [run_daily_analysis(filtered_news)]; the dict is the list of its
    items, in insertion order. *)
Definition run_daily_analysis (e : env)
  (filtered_news : list (string * data)) : M (list result) :=
  init_gemini e None ;;;
  let items_with_news := filter has_news filtered_news in
  let items_no_news := filter (fun i => negb (has_news i)) filtered_news in
  let sorted_items := sort_by_investment items_with_news in
  batches <- lift (make_batches GEMINI_BATCH_SIZE sorted_items) ;;
  all_results <-
    batch_loop e (List.length batches)
      (combine (seq 0 (List.length batches)) batches) [] ;;
  ret (Py.sorted tuple_leb final_key all_results).

(** The globals when the module is loaded. *)
Definition start : gstate :=
  {| active_model_name := None; requests := 0; trace := [] |}.

End GeminiAnalyzer.

(* ================================================================== *)
(** * Vocabulary of the statements *)
(* ================================================================== *)

Module Spec.
Import Model.

(** The number of words of a text, as [len(text.split())]. *)
Definition word_count (s : string) : nat := List.length (Py.split s).

(** The same for a key of a dict; an absent key has no words. *)
Definition field_words (o : option string) : nat :=
  match o with
  | Some s => word_count s
  | None => 0
  end.

Fixpoint no_space (s : string) : bool :=
  match s with
  | EmptyString => true
  | String c s' => negb (Py.is_space c) && no_space s'
  end.

(** A word: not empty, no white space. *)
Definition is_word (s : string) : Prop :=
  s <> "" /\ no_space s = true.

(** [ws] with [t] glued to its last element. *)
Fixpoint append_last (t : string) (ws : list string) : list string :=
  match ws with
  | [] => []
  | w :: rest =>
      match rest with
      | [] => [(w ++ t)%string]
      | _ :: _ => w :: append_last t rest
      end
  end.

(** Length of a longest common subsequence, by the textbook recursion. *)
Fixpoint lcs_spec (s1 s2 : string) : nat :=
  match s1 with
  | EmptyString => 0
  | String x xs =>
      (fix inner (s2 : string) : nat :=
         match s2 with
         | EmptyString => 0
         | String y ys =>
             if Ascii.eqb x y then S (lcs_spec xs ys)
             else Nat.max (lcs_spec xs s2) (inner ys)
         end) s2
  end.

(** The suffixes of a text, longest first, the empty one included. *)
Fixpoint suffixes (s : string) : list string :=
  s :: match s with
       | EmptyString => []
       | String _ s' => suffixes s'
       end.

(** [l1] is [l2] with some elements left out. *)
Inductive subseq {A} : list A -> list A -> Prop :=
| subseq_nil : subseq [] []
| subseq_skip x l1 l2 : subseq l1 l2 -> subseq l1 (x :: l2)
| subseq_take x l1 l2 : subseq l1 l2 -> subseq (x :: l1) (x :: l2).

(** A reference that points into the store. *)
Definition allocated (h : heap) (r : ref) : Prop := r < List.length h.

(** What the filter does to the copy of a kept article. *)
Definition truncated (a : article) : article :=
  let a1 :=
    if Py.truthy (body a)
    then set_body a (NewsFilter.truncate_text (Py.get_or (body a) "")
                       Settings.MAX_WORDS_PER_ARTICLE)
    else a in
  if Py.truthy (summary a1)
  then set_summary a1
         (NewsFilter.truncate_text (Py.get_or (summary a1) "") 150)
  else a1.

(** ** Vocabulary for the analysis driver *)

(** The service answered with a rate-limit failure. *)
Definition rate_limited (o : GeminiAnalyzer.outcome) : bool :=
  match o with
  | GeminiAnalyzer.Failure error_str => Py.contains "429" error_str
  | GeminiAnalyzer.Response _ => false
  end.

(** Every request, to every tier, is answered with a rate-limit
    failure. *)
Definition always_rate_limited (e : GeminiAnalyzer.env) : Prop :=
  forall n model prompt,
    rate_limited (GeminiAnalyzer.generate_content e n model prompt) = true.

(** The active tier is the last of the fallback list. *)
Definition no_tier_left (st : GeminiAnalyzer.gstate) : Prop :=
  List.length GeminiAnalyzer.MODEL_FALLBACK_ORDER
  <= GeminiAnalyzer.next_index (GeminiAnalyzer.active_model_name st).

(** The placeholder values of an analysis result. *)
Definition is_placeholder (r : GeminiAnalyzer.result) : Prop :=
  GeminiAnalyzer.r_sentiment r = Some "neutral"
  /\ GeminiAnalyzer.r_priority r = Some "LOW"
  /\ GeminiAnalyzer.r_action_hint r = Some "no_news"
  /\ GeminiAnalyzer.r_thesis_status r = Some "unclear".

(** The requests of a trace that went to [model]. *)
Definition requests_to (model : string) (tr : list GeminiAnalyzer.event)
  : nat :=
  List.length
    (filter (fun ev =>
               match ev with
               | GeminiAnalyzer.Requested m _ => String.eqb m model
               | _ => false
               end) tr).

(** The invested amount as the scheduler compares it: the float product
    with 1.1 for a holding of the market IN, with 1.0 for any other. *)
Definition boosted (item : string * GeminiAnalyzer.data) : Q :=
  let stock := GeminiAnalyzer.d_stock (snd item) in
  Float.mul (GeminiAnalyzer.amount (invested_inr stock))
    (if GeminiAnalyzer.is_IN (market stock)
     then Float.round (11 # 10) else 1%Q).

Definition invested (item : string * GeminiAnalyzer.data) : Q :=
  GeminiAnalyzer.amount (invested_inr (GeminiAnalyzer.d_stock (snd item))).


End Spec.

(* ================================================================== *)
(** * Sample data for the closed statements *)
(* ================================================================== *)

Module Samples.
Import Model Spec.

Definition infy : stock :=
  {| ticker := Some "NSE:INFY"; yahoo_ticker := Some "INFY";
     name := Some "Infosys Ltd"; market := Some "IN"; sector := Some "IT";
     gain_pct := None; profit_inr := None; invested_inr := None |}.

Definition undated : article :=
  {| title := Some "Infosys Q3 revenue up 12%";
     link := Some "https://example.org/1";
     summary := Some "Revenue rose  in the third quarter";
     body := None; published := None; source := Some "feed" |}.

Definition other : article :=
  {| title := Some "Rupee steady against the dollar";
     link := None; summary := None; body := Some "Little movement today";
     published := Some 1000%Z; source := None |}.

Definition no_fuzzy (a b : string) : Fuzz.score := 0%Q.

Definition sample_store : heap := [undated; other].
Definition sample_input : list ref := [0; 1; 0].

(** A holding with the fields the scheduler reads. *)
Definition holding (t mk : string) (inv : option Q) : stock :=
  {| ticker := Some t; yahoo_ticker := Some t; name := Some t;
     market := Some mk; sector := None; gain_pct := None;
     profit_inr := None; invested_inr := inv |}.

Definition with_news (t mk : string) (inv : option Q)
  : string * GeminiAnalyzer.data :=
  (t, {| GeminiAnalyzer.d_stock := holding t mk inv;
         GeminiAnalyzer.d_articles := [undated] |}).

Definition without_news (t mk : string) (inv : option Q)
  : string * GeminiAnalyzer.data :=
  (t, {| GeminiAnalyzer.d_stock := holding t mk inv;
         GeminiAnalyzer.d_articles := [] |}).

(** A service whose daily quota is exhausted on every tier. *)
Definition quota_env : GeminiAnalyzer.env :=
  {| GeminiAnalyzer.GEMINI_API_KEY := true;
     GeminiAnalyzer.generate_content := fun _ _ _ =>
       GeminiAnalyzer.Failure
         "429 Quota exceeded for metric GenerateRequestsPerDayPerProject";
     GeminiAnalyzer.json_loads := fun _ => GeminiAnalyzer.JsonDecodeError;
     GeminiAnalyzer.build_llm_context_for_stock := fun _ _ => "";
     GeminiAnalyzer.DAILY_SYSTEM_PROMPT := "";
     GeminiAnalyzer.divider := "" |}.

Definition answer_for (t : string) : GeminiAnalyzer.result :=
  {| GeminiAnalyzer.r_ticker := Some t;
     GeminiAnalyzer.r_sentiment := Some "positive";
     GeminiAnalyzer.r_summary := Some "Good quarter.";
     GeminiAnalyzer.r_priority := Some "MEDIUM";
     GeminiAnalyzer.r_priority_reason := Some "Minor news.";
     GeminiAnalyzer.r_action_hint := Some "hold";
     GeminiAnalyzer.r_thesis_status := Some "intact";
     GeminiAnalyzer.r_name := None; GeminiAnalyzer.r_market := None;
     GeminiAnalyzer.r_sector := None; GeminiAnalyzer.r_gain_pct := None;
     GeminiAnalyzer.r_profit_inr := None;
     GeminiAnalyzer.r_invested_inr := None |}.

(** A service that answers every request with a list that covers AAPL
    only. *)
Definition omitting_env : GeminiAnalyzer.env :=
  {| GeminiAnalyzer.GEMINI_API_KEY := true;
     GeminiAnalyzer.generate_content := fun _ _ _ =>
       GeminiAnalyzer.Response "[ one object ]";
     GeminiAnalyzer.json_loads := fun _ =>
       GeminiAnalyzer.JsonList [answer_for "AAPL"];
     GeminiAnalyzer.build_llm_context_for_stock := fun _ _ => "";
     GeminiAnalyzer.DAILY_SYSTEM_PROMPT := "";
     GeminiAnalyzer.divider := "" |}.

Definition on_tier (model : string) : GeminiAnalyzer.gstate :=
  {| GeminiAnalyzer.active_model_name := Some model;
     GeminiAnalyzer.requests := 0;
     GeminiAnalyzer.trace := [] |}.

End Samples.

(* ================================================================== *)
(** * src/news_fetcher.py: the fetchers *)
(* ================================================================== *)

(** The feeds are the outside world: [fetch_rss_feed url] is what the feed
    at [url] holds (the empty list when it cannot be read), and
    [fetch_article_body link] the text scraped from a page.  Every call of
    [is_recent] reads the clock anew; [clock i] is the time of the [i]-th
    call within one fetch.  The pauses between requests are left out. *)

Module Fetcher.
Import Model Settings.

Definition YAHOO_RSS_URL (ticker : string) : string :=
  "https://feeds.finance.yahoo.com/rss/2.0/headline?s=" ++ ticker
  ++ "&region=US&lang=en-US".

Definition YAHOO_NSE_SUFFIX : string := ".NS".

Definition INDIAN_SECTOR_RSS : list (string * string) :=
  [ ("IT",
     "https://economictimes.indiatimes.com/tech/information-tech/rssfeeds/13357270.cms");
    ("Financial Services",
     "https://economictimes.indiatimes.com/industry/banking/finance/rssfeeds/13357271.cms");
    ("FMCG",
     "https://economictimes.indiatimes.com/industry/cons-products/fmcg/rssfeeds/13357395.cms");
    ("Automobile",
     "https://economictimes.indiatimes.com/industry/auto/rssfeeds/13357270.cms");
    ("Energy",
     "https://economictimes.indiatimes.com/industry/energy/rssfeeds/13357397.cms");
    ("Infrastructure",
     "https://economictimes.indiatimes.com/industry/indl-goods/svs/construction/rssfeeds/13357396.cms");
    ("Healthcare",
     "https://economictimes.indiatimes.com/industry/healthcare/biotech/rssfeeds/13357399.cms");
    ("Chemicals",
     "https://economictimes.indiatimes.com/industry/indl-goods/svs/chemicals/rssfeeds/13357270.cms");
    ("Electronics",
     "https://economictimes.indiatimes.com/industry/cons-products/electronics/rssfeeds/13357270.cms");
    ("Services",
     "https://economictimes.indiatimes.com/industry/services/rssfeeds/13357270.cms");
    ("Aerospace & Defense",
     "https://economictimes.indiatimes.com/industry/indl-goods/svs/defence/rssfeeds/13357270.cms");
    ("Oil and Gas",
     "https://economictimes.indiatimes.com/industry/energy/oil-gas/rssfeeds/13357270.cms") ].

(** The [sector_etf_map] of [fetch_sector_news]. *)
Definition sector_etf_map : list (string * string) :=
  [ ("Technology", "QQQ"); ("Financial Services", "XLF");
    ("Healthcare", "XLV"); ("Consumer Discretionary", "XLY");
    ("Energy", "XLE") ].

(** A value, or the [KeyError] of a subscript on a missing key. *)
Inductive outcome (A : Type) :=
| Returned (a : A)
| KeyError (key : string).
Arguments Returned {A} a.
Arguments KeyError {A} key.

(** [s[:n]] on a text *)
Fixpoint first_chars (n : nat) (s : string) : string :=
  match n, s with
  | S n', String c s' => String c (first_chars n' s')
  | _, _ => EmptyString
  end.

(** [[a for a in articles if is_recent(a, days_back)]]; the first test is
    the [k]-th reading of the clock. *)
Fixpoint recent_only (clock : nat -> datetime) (days_back : Z) (k : nat)
  (articles : list article) : list article :=
  match articles with
  | [] => []
  | a :: rest =>
      if NewsFetcher.is_recent (clock k) a days_back
      then a :: recent_only clock days_back (S k) rest
      else recent_only clock days_back (S k) rest
  end.

(** The loop of [fetch_news_for_indian_stock] that keeps the recent
    articles with a new title key; [seen_titles] is the set of keys. *)
Fixpoint unique_recent_loop (clock : nat -> datetime) (days_back : Z)
  (k : nat) (seen_titles : list string) (articles : list article)
  : outcome (list article) :=
  match articles with
  | [] => Returned []
  | a :: rest =>
      if negb (NewsFetcher.is_recent (clock k) a days_back)
      then unique_recent_loop clock days_back (S k) seen_titles rest
      else
        match title a with
        | None => KeyError "title"
        | Some t =>
            let title_key := first_chars 60 (Py.lower t) in
            if existsb (String.eqb title_key) seen_titles
            then unique_recent_loop clock days_back (S k) seen_titles rest
            else
              match unique_recent_loop clock days_back (S k)
                      (title_key :: seen_titles) rest with
              | Returned kept => Returned (a :: kept)
              | KeyError key => KeyError key
              end
        end
  end.

(** The text the sector strategy searches: title and summary, joined
    without a blank, in lower case. *)
Definition headline (a : article) : string :=
  Py.lower (Py.get_or (title a) "" ++ Py.get_or (summary a) "").

Section Feeds.
Variable fetch_rss_feed : string -> list article.
Variable fetch_article_body : string -> string.

(** [fetch_news_for_us_stock(stock, days_back)] *)
Definition fetch_news_for_us_stock (clock : nat -> datetime) (s : stock)
  (days_back : Z) : outcome (list article) :=
  match yahoo_ticker s with
  | None => KeyError "yahoo_ticker"
  | Some ticker =>
      let articles := fetch_rss_feed (YAHOO_RSS_URL ticker) in
      let recent := recent_only clock days_back 0 articles in
      Returned (Py.slice_to MAX_ARTICLES_PER_STOCK recent)
  end.

(** The keywords of the sector strategy. *)
Definition sector_keywords (company_name ticker : string) : list string :=
  [Py.lower company_name; Py.lower ticker]
  ++ map Py.lower
       (filter (fun w => 3 <? String.length w) (Py.split company_name)).

(** The articles gathered by the three strategies, before the recency and
    title filter. *)
Definition gather_indian (s : stock) (ticker : string) : list article :=
  let company_name := Py.get_or (name s) "" in
  let sector := Py.get_or (sector s) "" in
  let all_articles :=
    fetch_rss_feed (YAHOO_RSS_URL (ticker ++ YAHOO_NSE_SUFFIX)) in
  let all_articles :=
    if List.length all_articles <? 2
    then all_articles ++ fetch_rss_feed (YAHOO_RSS_URL ticker)
    else all_articles in
  if List.length all_articles <? 2
  then
    match Py.lookup sector INDIAN_SECTOR_RSS with
    | Some sector_url =>
        let sector_articles := fetch_rss_feed sector_url in
        let keywords := sector_keywords company_name ticker in
        let relevant :=
          filter (fun a =>
                    existsb (fun kw => Py.contains kw (headline a)) keywords)
                 sector_articles in
        all_articles ++ relevant
    | None => all_articles
    end
  else all_articles.

(** [fetch_news_for_indian_stock(stock, days_back)] *)
Definition fetch_news_for_indian_stock (clock : nat -> datetime) (s : stock)
  (days_back : Z) : outcome (list article) :=
  match yahoo_ticker s with
  | None => KeyError "yahoo_ticker"
  | Some ticker =>
      match unique_recent_loop clock days_back 0 [] (gather_indian s ticker)
      with
      | Returned unique_recent =>
          Returned (Py.slice_to MAX_ARTICLES_PER_STOCK unique_recent)
      | KeyError key => KeyError key
      end
  end.

(** [fetch_sector_news(sector, market, days_back)] *)
Definition fetch_sector_news (clock : nat -> datetime) (sector market : string)
  (days_back : Z) : list article :=
  let articles :=
    if String.eqb market "IN" then
      match Py.lookup sector INDIAN_SECTOR_RSS with
      | Some url => fetch_rss_feed url
      | None =>
          (* the [elif] is not reached unless the market is not IN *)
          []
      end
    else if String.eqb market "US" then
      match Py.lookup sector sector_etf_map with
      | Some etf =>
          if Py.is_empty etf then [] else fetch_rss_feed (YAHOO_RSS_URL etf)
      | None => []
      end
    else [] in
  Py.slice_to 5 (recent_only clock days_back 0 articles).

(** The loop that scrapes the bodies: [article["body"]] is set where the
    article has a link and no body yet. *)
Definition with_body (a : article) : article :=
  if Py.truthy (link a) && negb (Py.truthy (body a))
  then set_body a (fetch_article_body (Py.get_or (link a) ""))
  else a.

(** An entry of the news map. *)
Record entry := {
  e_stock : stock;
  e_articles : list article
}.

(** [results[ticker] = value]: a key already there keeps its place. *)
Fixpoint dict_set {V} (d : list (string * V)) (k : string) (v : V)
  : list (string * V) :=
  match d with
  | [] => [(k, v)]
  | (k', v') :: d' =>
      if String.eqb k k' then (k, v) :: d' else (k', v') :: dict_set d' k v
  end.

(** The body of the loops over the holdings of one market; [fetch] is the
    fetcher of that market. *)
Definition fetch_into (fetch : stock -> outcome (list article))
  (fetch_bodies : bool) (results : list (string * entry)) (s : stock)
  : outcome (list (string * entry)) :=
  match ticker s with
  | None => KeyError "ticker"
  | Some t =>
      match fetch s with
      | Returned articles =>
          let articles :=
            if fetch_bodies then map with_body articles else articles in
          Returned (dict_set results t
                      {| e_stock := s; e_articles := articles |})
      | KeyError _ =>
          (* [except Exception]: the holding gets an empty list *)
          Returned (dict_set results t {| e_stock := s; e_articles := [] |})
      end
  end.

Fixpoint fetch_all (fetch : nat -> stock -> outcome (list article))
  (fetch_bodies : bool) (i : nat) (stocks : list stock)
  (results : list (string * entry)) : outcome (list (string * entry)) :=
  match stocks with
  | [] => Returned results
  | s :: rest =>
      match fetch_into (fetch i) fetch_bodies results s with
      | Returned results' => fetch_all fetch fetch_bodies (S i) rest results'
      | KeyError key => KeyError key
      end
  end.

(** [[s for s in portfolio if s["market"] == m]] *)
Fixpoint of_market (m : string) (portfolio : list stock)
  : outcome (list stock) :=
  match portfolio with
  | [] => Returned []
  | s :: rest =>
      match market s with
      | None => KeyError "market"
      | Some mk =>
          match of_market m rest with
          | Returned l => Returned (if String.eqb mk m then s :: l else l)
          | KeyError key => KeyError key
          end
      end
  end.

(** [fetch_news_for_portfolio(portfolio, days_back, fetch_bodies)];
    [clock i] is the clock during the fetch for the [i]-th holding
    handled. *)
Definition fetch_news_for_portfolio (clock : nat -> nat -> datetime)
  (portfolio : list stock) (days_back : Z) (fetch_bodies : bool)
  : outcome (list (string * entry)) :=
  match of_market "IN" portfolio with
  | KeyError key => KeyError key
  | Returned indian =>
      match of_market "US" portfolio with
      | KeyError key => KeyError key
      | Returned us =>
          match fetch_all
                  (fun i s => fetch_news_for_us_stock (clock i) s days_back)
                  fetch_bodies 0 us [] with
          | KeyError key => KeyError key
          | Returned results =>
              fetch_all
                (fun i s => fetch_news_for_indian_stock (clock i) s days_back)
                fetch_bodies (List.length us) indian results
          end
      end
  end.
End Feeds.

End Fetcher.

(* ================================================================== *)
(** * src/news_filter.py: the filter over the whole portfolio *)
(* ================================================================== *)

Module PortfolioFilter.
Import Model Settings NewsFilter.

(** An entry of the raw news map; the articles are references into the
    store. *)
Record raw := {
  raw_stock : stock;
  raw_articles : list ref
}.

Section Portfolio.
Variable partial_ratio : string -> string -> Fuzz.score.
(** The time at which the filter of the [i]-th holding starts. *)
Variable clock : nat -> datetime.
Variable days_back : Z.

(** The loop [for ticker, data in raw_news.items()]; the keys of a dict
    are distinct, so each assignment adds an entry. *)
Fixpoint filter_portfolio_loop (i : nat) (items : list (string * raw))
  (h : heap) : heap * list (string * raw) :=
  match items with
  | [] => (h, [])
  | (ticker, data) :: rest =>
      let (h1, filtered) :=
        filter_news_for_stock partial_ratio (clock i) (raw_stock data)
          days_back MAX_ARTICLES_PER_STOCK false h (raw_articles data) in
      let (h2, filtered_news) := filter_portfolio_loop (S i) rest h1 in
      (h2, (ticker, {| raw_stock := raw_stock data;
                       raw_articles := filtered |}) :: filtered_news)
  end.

(** [filter_portfolio_news(raw_news, days_back)] *)
Definition filter_portfolio_news (raw_news : list (string * raw)) (h : heap)
  : heap * list (string * raw) :=
  filter_portfolio_loop 0 raw_news h.
End Portfolio.

End PortfolioFilter.

(* ================================================================== *)
(** * src/gemini_analyzer.py: the weekly review *)
(* ================================================================== *)

Module Reviews.
Import Model Settings GeminiAnalyzer.

(** [WEEKLY_PROMPT.format(weekly_data=weekly_data)] *)
Definition weekly_prompt (weekly_data : string) : string :=
  "You are a portfolio analyst doing a weekly review." ++ nl
  ++ "Below are daily summaries from the past 7 days." ++ nl ++ nl
  ++ "Provide:" ++ nl
  ++ "1. Top 3 stocks needing urgent attention (with reasons)" ++ nl
  ++ "2. Top 3 stocks showing positive momentum" ++ nl
  ++ "3. Sector-level trends you notice" ++ nl
  ++ "4. Overall sentiment: bullish / bearish / mixed" ++ nl ++ nl
  ++ "Keep under 600 words. Be direct and actionable." ++ nl ++ nl
  ++ "Weekly data:" ++ nl
  ++ weekly_data ++ nl.

(** [run_weekly_analysis(weekly_log_data)] *)
Definition run_weekly_analysis (e : env) (weekly_log_data : string)
  : M string :=
  bind (init_gemini e None) (fun _ =>
  bind (call_gemini_with_retry e (weekly_prompt weekly_log_data) ["weekly"])
       (fun r =>
          let (text, success) := r in
          ret (if success then text else "Weekly analysis unavailable."))).

End Reviews.

(* ================================================================== *)
(** * Further vocabulary of the statements *)
(* ================================================================== *)

Module Vocabulary.
Import Model.

(** Every character of [s] satisfies [p]. *)
Fixpoint all_chars (p : ascii -> bool) (s : string) : bool :=
  match s with
  | EmptyString => true
  | String c s' => p c && all_chars p s'
  end.

(** A lowercase letter of [a-z] or a digit. *)
Definition alnum_lower (c : ascii) : bool :=
  let n := nat_of_ascii c in
  ((97 <=? n) && (n <=? 122)) || ((48 <=? n) && (n <=? 57)).

(** [text.lower() == text] *)
Definition is_lower (s : string) : Prop := Py.lower s = s.

(** [article.get("title", "")] *)
Definition title_of (a : article) : string := Py.get_or (title a) "".

(** The two titles are told apart by the duplicate test of the filter, in
    which [earlier] was seen first; the threshold is the default 70. *)
Definition told_apart (earlier later : article) : Prop :=
  NewsFilter.is_duplicate_title (title_of later)
    [NewsFilter.normalize_for_dedup (title_of earlier)] 70 = false.

(** The key by which [fetch_news_for_indian_stock] tells titles apart. *)
Definition title_key (a : article) : string :=
  Fetcher.first_chars 60 (Py.lower (title_of a)).

(** An article that some reading of the clock found recent. *)
Definition recent_at_some (clock : nat -> datetime) (days_back : Z)
  (a : article) : Prop :=
  exists i, NewsFetcher.is_recent (clock i) a days_back = true.

(** The seconds slept, the requests sent and the tier switches made in a
    trace. *)
Fixpoint total_sleep (tr : list GeminiAnalyzer.event) : Z :=
  match tr with
  | [] => 0%Z
  | GeminiAnalyzer.Slept seconds :: tr' => (seconds + total_sleep tr')%Z
  | _ :: tr' => total_sleep tr'
  end.

Fixpoint switches (tr : list GeminiAnalyzer.event) : nat :=
  match tr with
  | [] => 0
  | GeminiAnalyzer.Initialised _ :: tr' => S (switches tr')
  | _ :: tr' => switches tr'
  end.

(** Every request, to every tier, fails. *)
Definition always_fails (e : GeminiAnalyzer.env) : Prop :=
  forall n model prompt,
    exists error_str,
      GeminiAnalyzer.generate_content e n model prompt
      = GeminiAnalyzer.Failure error_str.

(** Every request fails on the per-minute limit: a 429 that does not name
    the daily quota. *)
Definition per_minute_limited (e : GeminiAnalyzer.env) : Prop :=
  forall n model prompt,
    exists error_str,
      GeminiAnalyzer.generate_content e n model prompt
      = GeminiAnalyzer.Failure error_str
      /\ Py.contains "429" error_str = true
      /\ Py.contains "PerDay" error_str = false.

(** Every request is answered with the same text. *)
Definition always_answers (e : GeminiAnalyzer.env) (text : string) : Prop :=
  forall n model prompt,
    GeminiAnalyzer.generate_content e n model prompt
    = GeminiAnalyzer.Response text.

(** The text that reaches [json.loads]. *)
Definition cleaned (text : string) : string :=
  Py.strip (Py.replace "```" "" (Py.replace "```json" "" (Py.strip text))).

(** The market of a holding is one of the two the fetcher serves. *)
Definition served (s : stock) : Prop :=
  market s = Some "IN" \/ market s = Some "US".

(** The articles a pass of the filter has counted. *)
Definition total (c : NewsFilter.stats) : nat :=
  NewsFilter.too_old c + NewsFilter.irrelevant c + NewsFilter.duplicate c
  + NewsFilter.kept c.

(** The articles a pass of the filter looks at: the turns its loop takes,
    up to and including the one that ends it at the cap. *)
Fixpoint looked_at (partial_ratio : string -> string -> Fuzz.score)
  (now : datetime) (s : stock) (days_back max_articles : Z)
  (from_sector_feed : bool) (articles : list ref) (st : NewsFilter.fstate)
  : nat :=
  match articles with
  | [] => 0
  | r :: rest =>
      match NewsFilter.filter_step partial_ratio now s days_back
              max_articles from_sector_feed st r with
      | (st', NewsFilter.Break) => 1
      | (st', NewsFilter.Continue) =>
          S (looked_at partial_ratio now s days_back max_articles
               from_sector_feed rest st')
      end
  end.

(** One of the four counters went up by one, the others stayed. *)
Definition counted_once (c c' : NewsFilter.stats) : Prop :=
  total c' = total c + 1
  /\ NewsFilter.too_old c <= NewsFilter.too_old c'
  /\ NewsFilter.irrelevant c <= NewsFilter.irrelevant c'
  /\ NewsFilter.duplicate c <= NewsFilter.duplicate c'
  /\ NewsFilter.kept c <= NewsFilter.kept c'.

(** The filter list holds the new cells of the store, the seen list holds
    the normal forms of the titles of the kept articles, in order, and no
    entry is a duplicate of an earlier one. *)
Definition seen_invariant (h0 : heap) (st : NewsFilter.fstate) : Prop :=
  exists outs,
    NewsFilter.st_heap st = h0 ++ outs
    /\ NewsFilter.st_filtered st = seq (List.length h0) (List.length outs)
    /\ NewsFilter.st_seen st
       = map (fun a => NewsFilter.normalize_for_dedup (title_of a)) outs
    /\ ForallOrdPairs
         (fun earlier later =>
            Fuzz.at_least (Fuzz.token_sort_ratio later earlier) 70 = false)
         (NewsFilter.st_seen st).

(** The order in which the daily results are presented: by priority
    tier, and within a tier the larger invested amount first. *)
Definition presented_before (a b : GeminiAnalyzer.result) : Prop :=
  GeminiAnalyzer.priority_order (GeminiAnalyzer.r_priority a)
  < GeminiAnalyzer.priority_order (GeminiAnalyzer.r_priority b)
  \/ (GeminiAnalyzer.priority_order (GeminiAnalyzer.r_priority a)
      = GeminiAnalyzer.priority_order (GeminiAnalyzer.r_priority b)
      /\ (GeminiAnalyzer.amount (GeminiAnalyzer.r_invested_inr b)
          <= GeminiAnalyzer.amount (GeminiAnalyzer.r_invested_inr a))%Q).

(** The tickers of the holdings that have news. *)
Definition tickers_with_news
  (filtered_news : list (string * GeminiAnalyzer.data))
  : list (option string) :=
  map (fun item => Some (fst item))
      (filter GeminiAnalyzer.has_news filtered_news).

(** An entry of the news map with at most five articles. *)
Definition short_list (item : string * Fetcher.entry) : Prop :=
  List.length (Fetcher.e_articles (snd item)) <= 5.

End Vocabulary.

(* ================================================================== *)
(** * Further sample data *)
(* ================================================================== *)

Module MoreSamples.
Import Model Spec Samples Vocabulary.

Definition long_text : string := "one two  three four five six".

Definition titled (t : string) (at_time : option datetime) : article :=
  {| title := Some t; link := None; summary := None; body := None;
     published := at_time; source := None |}.

(** A feed that holds the same three articles at every address. *)
Definition three_feed (url : string) : list article :=
  [titled "Infosys wins deal" None;
   titled "INFOSYS WINS DEAL" None;
   titled "Rupee steady" (Some 5%Z)].

Definition empty_feed (url : string) : list article := [].

Definition no_body (link : string) : string := "".

Definition fixed_clock (i : nat) : datetime := 1000%Z.

(** A service that fails every request on the per-minute limit. *)
Definition minute_env : GeminiAnalyzer.env :=
  {| GeminiAnalyzer.GEMINI_API_KEY := true;
     GeminiAnalyzer.generate_content := fun _ _ _ =>
       GeminiAnalyzer.Failure "429 Please retry in 7s";
     GeminiAnalyzer.json_loads := fun _ => GeminiAnalyzer.JsonDecodeError;
     GeminiAnalyzer.build_llm_context_for_stock := fun _ _ => "";
     GeminiAnalyzer.DAILY_SYSTEM_PROMPT := "";
     GeminiAnalyzer.divider := "" |}.

(** A service that is down: every request fails, not on a rate limit. *)
Definition down_env : GeminiAnalyzer.env :=
  {| GeminiAnalyzer.GEMINI_API_KEY := true;
     GeminiAnalyzer.generate_content := fun _ _ _ =>
       GeminiAnalyzer.Failure "503 Service Unavailable";
     GeminiAnalyzer.json_loads := fun _ => GeminiAnalyzer.JsonDecodeError;
     GeminiAnalyzer.build_llm_context_for_stock := fun _ _ => "";
     GeminiAnalyzer.DAILY_SYSTEM_PROMPT := "";
     GeminiAnalyzer.divider := "" |}.

(** A service that answers with a JSON object where a list is asked. *)
Definition object_env : GeminiAnalyzer.env :=
  {| GeminiAnalyzer.GEMINI_API_KEY := true;
     GeminiAnalyzer.generate_content := fun _ _ _ =>
       GeminiAnalyzer.Response "{ }";
     GeminiAnalyzer.json_loads := fun _ => GeminiAnalyzer.JsonOther;
     GeminiAnalyzer.build_llm_context_for_stock := fun _ _ => "";
     GeminiAnalyzer.DAILY_SYSTEM_PROMPT := "";
     GeminiAnalyzer.divider := "" |}.

(** A service whose answers cannot be parsed. *)
Definition garbled_env : GeminiAnalyzer.env :=
  {| GeminiAnalyzer.GEMINI_API_KEY := true;
     GeminiAnalyzer.generate_content := fun _ _ _ =>
       GeminiAnalyzer.Response "Sorry, I cannot help with that.";
     GeminiAnalyzer.json_loads := fun _ => GeminiAnalyzer.JsonDecodeError;
     GeminiAnalyzer.build_llm_context_for_stock := fun _ _ => "";
     GeminiAnalyzer.DAILY_SYSTEM_PROMPT := "";
     GeminiAnalyzer.divider := "" |}.

End MoreSamples.

(* ================================================================== *)
(** * Facts about the built-ins *)
(* ================================================================== *)

Module PyFacts.
Import Spec.

Lemma append_nil_r (s : string) : (s ++ "")%string = s.
Proof. induction s; simpl; congruence. Qed.

Lemma append_assoc (a b c : string) :
  ((a ++ b) ++ c)%string = (a ++ (b ++ c))%string.
Proof. induction a; simpl; congruence. Qed.

Lemma is_empty_true (s : string) : Py.is_empty s = true <-> s = "".
Proof. destruct s; simpl; split; congruence. Qed.

Lemma is_empty_false (s : string) : Py.is_empty s = false <-> s <> "".
Proof. destruct s; simpl; split; congruence. Qed.

Lemma is_empty_append (a b : string) :
  Py.is_empty (a ++ b) = Py.is_empty a && Py.is_empty b.
Proof. destruct a; reflexivity. Qed.

Lemma no_space_append (a b : string) :
  no_space (a ++ b) = no_space a && no_space b.
Proof.
  induction a as [|c a IH]; simpl; [reflexivity|].
  rewrite IH. now rewrite andb_assoc.
Qed.

(** Reading a run of characters that are not white space only extends the
    word being read. *)
Lemma split_from_run (u : string) :
  forall w s, no_space u = true ->
    Py.split_from w (u ++ s) = Py.split_from (w ++ u) s.
Proof.
  induction u as [|c u IH]; intros w s Hu; simpl in *.
  - now rewrite append_nil_r.
  - apply andb_prop in Hu as [Hc Hu].
    apply negb_true_iff in Hc. rewrite Hc.
    rewrite IH by assumption.
    now rewrite append_assoc.
Qed.

Lemma split_from_blank (w s : string) :
  w <> "" ->
  Py.split_from w (String " " s) = w :: Py.split_from "" s.
Proof.
  intros Hw. simpl.
  apply is_empty_false in Hw. now rewrite Hw.
Qed.

(** [" ".join(ws).split() == ws] for a list of words. *)
Lemma split_join (ws : list string) :
  Forall is_word ws -> Py.split (Py.join " " ws) = ws.
Proof.
  unfold Py.split.
  induction 1 as [|w rest [Hne Hns] Hrest IH]; [reflexivity|].
  simpl. destruct rest as [|w' rest'].
  - rewrite <- (append_nil_r w) at 1.
    rewrite split_from_run by assumption. simpl.
    apply is_empty_false in Hne. now rewrite Hne.
  - rewrite split_from_run by assumption. simpl (_ ++ w)%string.
    rewrite split_from_blank by assumption.
    now rewrite IH.
Qed.

(** Every element of [s.split()] is a word. *)
Lemma split_from_words (s : string) :
  forall w, no_space w = true -> Forall is_word (Py.split_from w s).
Proof.
  induction s as [|c s IH]; intros w Hw; simpl.
  - destruct (Py.is_empty w) eqn:E; constructor; [|constructor].
    split; [now apply is_empty_false|assumption].
  - destruct (Py.is_space c) eqn:Hc.
    + destruct (Py.is_empty w) eqn:E.
      * now apply IH.
      * constructor; [|now apply IH].
        split; [now apply is_empty_false|assumption].
    + apply IH. rewrite no_space_append, Hw. simpl. now rewrite Hc.
Qed.

Lemma split_words (s : string) : Forall is_word (Py.split s).
Proof. now apply split_from_words. Qed.

Lemma join_append_last (sep t : string) (ws : list string) :
  ws <> [] ->
  (Py.join sep ws ++ t)%string = Py.join sep (append_last t ws).
Proof.
  induction ws as [|w rest IH]; intros Hne; [congruence|].
  destruct rest as [|w' rest']; [reflexivity|].
  change (Py.join sep (w :: w' :: rest'))
    with (w ++ sep ++ Py.join sep (w' :: rest'))%string.
  rewrite !append_assoc, IH by discriminate.
  simpl. now destruct rest'.
Qed.

Lemma length_append_last (t : string) (ws : list string) :
  List.length (append_last t ws) = List.length ws.
Proof.
  induction ws as [|w rest IH]; [reflexivity|].
  destruct rest; [reflexivity|]. simpl in *. now rewrite IH.
Qed.

Lemma append_last_words (t : string) (ws : list string) :
  no_space t = true -> Forall is_word ws ->
  Forall is_word (append_last t ws).
Proof.
  intros Ht. induction 1 as [|w rest [Hne Hns] Hrest IH]; [constructor|].
  destruct rest as [|w' rest'].
  - constructor; [|constructor]. split.
    + destruct w; [congruence|discriminate].
    + now rewrite no_space_append, Hns, Ht.
  - constructor; [split; assumption|exact IH].
Qed.

Lemma Forall_firstn {A} (P : A -> Prop) (n : nat) :
  forall l, Forall P l -> Forall P (firstn n l).
Proof.
  induction n as [|n IH]; intros l H; simpl; [constructor|].
  destruct H; constructor; auto.
Qed.

Lemma slice_to_words {A} (P : A -> Prop) (k : Z) (l : list A) :
  Forall P l -> Forall P (Py.slice_to k l).
Proof.
  intros H. unfold Py.slice_to.
  destruct (0 <=? k)%Z; now apply Forall_firstn.
Qed.

Lemma length_slice_to {A} (k : Z) (l : list A) :
  (0 <= k)%Z -> List.length (Py.slice_to k l) <= Z.to_nat k.
Proof.
  intros Hk. unfold Py.slice_to.
  destruct (Z.leb_spec 0 k); [|lia].
  rewrite length_firstn. lia.
Qed.

End PyFacts.

(* ================================================================== *)
(** * The news filter *)
(* ================================================================== *)

Module FilterFacts.
Import Model Settings Spec NewsFilter PyFacts.

(** ** Truncation *)

Lemma word_count_append_dots (ws : list string) :
  ws <> [] -> Forall is_word ws ->
  word_count (Py.join " " ws ++ "...") = List.length ws.
Proof.
  intros Hne Hws. unfold word_count.
  rewrite join_append_last by assumption.
  rewrite split_join by (apply append_last_words; [reflexivity|assumption]).
  apply length_append_last.
Qed.

(** A truncated text has at most [max_words] words, for a cap of one word
    or more. *)
Lemma truncate_text_words (text : string) (max_words : Z) :
  (1 <= max_words)%Z ->
  (Z.of_nat (word_count (truncate_text text max_words)) <= max_words)%Z.
Proof.
  intros Hmax. unfold truncate_text.
  destruct (Z.leb_spec (Z.of_nat (List.length (Py.split text))) max_words)
    as [Hle|Hgt]; [exact Hle|].
  rewrite word_count_append_dots.
  - pose proof (length_slice_to max_words (Py.split text)). lia.
  - unfold Py.slice_to. destruct (Z.leb_spec 0 max_words); [|lia].
    intros E. apply (f_equal (@List.length string)) in E.
    rewrite length_firstn in E. simpl in E. lia.
  - apply slice_to_words, split_words.
Qed.

Lemma field_words_falsy (o : option string) :
  Py.truthy o = false -> field_words o = 0.
Proof.
  destruct o as [[|c s]|]; simpl; intros H; try reflexivity.
  discriminate.
Qed.

Lemma truncated_summary_words (a : article) :
  field_words (summary (truncated a)) <= 150.
Proof.
  unfold truncated.
  set (a1 := if Py.truthy (body a) then _ else a).
  destruct (Py.truthy (summary a1)) eqn:E; simpl.
  - pose proof (truncate_text_words (Py.get_or (summary a1) "") 150). lia.
  - rewrite field_words_falsy by assumption. lia.
Qed.

Lemma truncated_body_words (a : article) :
  (Z.of_nat (field_words (body (truncated a))) <= MAX_WORDS_PER_ARTICLE)%Z.
Proof.
  unfold truncated.
  assert (Hb : (Z.of_nat (field_words
                 (body (if Py.truthy (body a)
                        then set_body a (truncate_text (Py.get_or (body a) "")
                                           MAX_WORDS_PER_ARTICLE)
                        else a))) <= MAX_WORDS_PER_ARTICLE)%Z).
  { destruct (Py.truthy (body a)) eqn:E; simpl.
    - apply truncate_text_words. unfold MAX_WORDS_PER_ARTICLE. lia.
    - rewrite field_words_falsy by assumption.
      unfold MAX_WORDS_PER_ARTICLE. lia. }
  set (a1 := if Py.truthy (body a) then _ else a) in *.
  destruct (Py.truthy (summary a1)); simpl; exact Hb.
Qed.

(** Truncation touches the summary and the body only. *)
Lemma truncated_other_fields (a : article) :
  title (truncated a) = title a /\ link (truncated a) = link a
  /\ published (truncated a) = published a
  /\ source (truncated a) = source a.
Proof.
  unfold truncated.
  destruct (Py.truthy (body a));
    destruct (Py.truthy (summary _)); repeat split.
Qed.

(** ** The store *)

Lemma deref_old (h outs : heap) (r : ref) :
  allocated h r -> deref (h ++ outs) r = deref h r.
Proof. intros H. unfold deref. now apply app_nth1. Qed.

Lemma deref_new (h : heap) (a : article) :
  deref (h ++ [a]) (List.length h) = a.
Proof.
  unfold deref. rewrite app_nth2 by lia.
  now rewrite Nat.sub_diag.
Qed.

Lemma store_new (h : heap) (a b : article) :
  store (h ++ [a]) (List.length h) b = h ++ [b].
Proof. induction h as [|x h IH]; simpl; [reflexivity|now rewrite IH]. Qed.

(** The copy is a new cell holding the truncated article; the cells that
    were there are not written. *)
Lemma copy_and_truncate_eq (h : heap) (r : ref) :
  copy_and_truncate h r = (h ++ [truncated (deref h r)], List.length h).
Proof.
  unfold copy_and_truncate, alloc, truncated.
  rewrite deref_new.
  destruct (Py.truthy (body (deref h r))) eqn:Eb.
  - rewrite store_new, deref_new.
    destruct (Py.truthy (summary (set_body _ _))) eqn:Es.
    + now rewrite store_new.
    + reflexivity.
  - rewrite deref_new.
    destruct (Py.truthy (summary (deref h r))) eqn:Es.
    + now rewrite store_new.
    + reflexivity.
Qed.

Lemma nth_map_any {A B} (f : A -> B) (l : list A) (i : nat) (d : A)
  (d' : B) :
  i < List.length l -> nth i (map f l) d' = f (nth i l d).
Proof.
  intros Hi. rewrite (nth_indep _ d' (f d)) by now rewrite length_map.
  apply map_nth.
Qed.

Lemma subseq_nil_l {A} (l : list A) : subseq [] l.
Proof. induction l; constructor; assumption. Qed.

(** ** The loop *)

Section Loop.
Variable partial_ratio : string -> string -> Fuzz.score.
Variable now : datetime.
Variable s : stock.
Variable days_back : Z.
Variable max_articles : Z.
Variable from_sector_feed : bool.

Local Abbreviation step :=
  (filter_step partial_ratio now s days_back max_articles from_sector_feed).
Local Abbreviation loop :=
  (filter_loop partial_ratio now s days_back max_articles from_sector_feed).

(** A turn of the loop either drops the article and leaves store and
    list alone, or appends a truncated copy to both. *)
Lemma filter_step_cases (st st' : fstate) (r : ref) (fl : flow) :
  step st r = (st', fl) ->
  (st_heap st' = st_heap st /\ st_filtered st' = st_filtered st
   /\ fl = Continue)
  \/
  (st_heap st' = st_heap st ++ [truncated (deref (st_heap st) r)]
   /\ st_filtered st' = st_filtered st ++ [List.length (st_heap st)]
   /\ fl = if (max_articles <=? Z.of_nat (List.length (st_filtered st')))%Z
           then Break else Continue).
Proof.
  unfold filter_step.
  destruct (match published (deref (st_heap st) r) with
            | Some pub => _ | None => false end).
  { intros E; inversion E; subst; simpl; auto. }
  destruct (negb (is_article_relevant _ _ _ _)).
  { intros E; inversion E; subst; simpl; auto. }
  destruct (is_duplicate_title _ _ _).
  { intros E; inversion E; subst; simpl; auto. }
  rewrite copy_and_truncate_eq.
  intros E; inversion E; subst; simpl; auto.
Qed.

(** The store only grows, by the truncated copies of a subsequence of
    the input, and the list returned is the list of those new cells. *)
Lemma filter_loop_shape (h0 : heap) :
  forall (articles : list ref) (st : fstate) (outs : heap),
    Forall (allocated h0) articles ->
    st_heap st = h0 ++ outs ->
    exists sub,
      subseq sub articles
      /\ st_heap (loop articles st)
         = st_heap st ++ map (fun r => truncated (deref h0 r)) sub
      /\ st_filtered (loop articles st)
         = st_filtered st
           ++ seq (List.length (st_heap st)) (List.length sub).
Proof.
  induction articles as [|r rest IH]; intros st outs Hall Hheap.
  - exists []. simpl. rewrite !app_nil_r. repeat split. constructor.
  - inversion Hall as [|? ? Hr Hrest]; subst.
    simpl. destruct (step st r) as [st' fl] eqn:E.
    apply filter_step_cases in E as [(Hh & Hf & ->)|(Hh & Hf & Hfl)].
    + destruct (IH st' outs Hrest) as (sub & Hsub & Hh' & Hf').
      { now rewrite Hh. }
      exists sub. rewrite Hh', Hf', Hh, Hf.
      repeat split. now constructor.
    + rewrite Hheap, deref_old in Hh by assumption.
      destruct fl.
      * destruct (IH st' (outs ++ [truncated (deref h0 r)]) Hrest)
          as (sub & Hsub & Hh' & Hf').
        { now rewrite Hh, app_assoc. }
        exists (r :: sub). rewrite Hh', Hf', Hh, Hf, <- Hheap.
        repeat split.
        -- now constructor.
        -- simpl. now rewrite <- app_assoc.
        -- rewrite length_app, Nat.add_1_r. simpl.
           now rewrite <- app_assoc.
      * exists [r]. rewrite Hh, Hf, <- Hheap. simpl.
        repeat split. apply subseq_take, subseq_nil_l.
Qed.

(** Below the cap on entry, at most at the cap on exit. *)
Lemma filter_loop_cap :
  forall (articles : list ref) (st : fstate),
    (Z.of_nat (List.length (st_filtered st)) < max_articles)%Z ->
    (Z.of_nat (List.length (st_filtered (loop articles st)))
     <= max_articles)%Z.
Proof.
  induction articles as [|r rest IH]; intros st Hlt.
  - simpl. lia.
  - simpl. destruct (step st r) as [st' fl] eqn:E.
    apply filter_step_cases in E as [(Hh & Hf & ->)|(Hh & Hf & Hfl)].
    + apply IH. now rewrite Hf.
    + destruct (Z.leb_spec max_articles
                  (Z.of_nat (List.length (st_filtered st')))); subst fl.
      * rewrite Hf, length_app. simpl. lia.
      * now apply IH.
Qed.

(** Articles without a time stamp leave the counter of stale articles
    alone, through the whole loop. *)
Lemma filter_loop_too_old (h0 : heap) :
  forall (articles : list ref) (st : fstate) (outs : heap),
    Forall (allocated h0) articles ->
    Forall (fun r => published (deref h0 r) = None) articles ->
    st_heap st = h0 ++ outs ->
    too_old (st_stats (loop articles st)) = too_old (st_stats st).
Proof.
  induction articles as [|r rest IH]; intros st outs Hall Hnone Hheap;
    [reflexivity|].
  inversion Hall as [|? ? Hr Hrest]; subst.
  inversion Hnone as [|? ? Hp Hnrest]; subst.
  simpl. destruct (step st r) as [st' fl] eqn:E.
  assert (Hstat : too_old (st_stats st') = too_old (st_stats st)).
  { revert E. unfold filter_step.
    rewrite Hheap, deref_old, Hp by assumption.
    destruct (negb (is_article_relevant _ _ _ _)).
    { intros E; inversion E; reflexivity. }
    destruct (is_duplicate_title _ _ _).
    { intros E; inversion E; reflexivity. }
    destruct (copy_and_truncate _ _).
    intros E; inversion E; reflexivity. }
  apply filter_step_cases in E as [(Hh & Hf & ->)|(Hh & Hf & Hfl)].
  - rewrite (IH st' outs); try assumption. now rewrite Hh.
  - destruct fl; [|assumption].
    rewrite (IH st' (outs ++ [truncated (deref (st_heap st) r)]));
      try assumption.
    now rewrite Hh, Hheap, app_assoc.
Qed.
End Loop.

End FilterFacts.

(* ================================================================== *)
(** * The similarity score *)
(* ================================================================== *)

Module FuzzFacts.
Import Spec Fuzz.

Lemma lcs_spec_nil_r (s : string) : lcs_spec s "" = 0.
Proof. destruct s; reflexivity. Qed.

Lemma lcs_spec_cons (x y : ascii) (xs ys : string) :
  lcs_spec (String x xs) (String y ys)
  = if Ascii.eqb x y then S (lcs_spec xs ys)
    else Nat.max (lcs_spec xs (String y ys)) (lcs_spec (String x xs) ys).
Proof. reflexivity. Qed.

(** The longest common subsequence does not depend on the order of the
    two texts. *)
Lemma lcs_spec_sym : forall s1 s2, lcs_spec s1 s2 = lcs_spec s2 s1.
Proof.
  induction s1 as [|x xs IH1]; intros s2.
  - now rewrite lcs_spec_nil_r.
  - induction s2 as [|y ys IH2]; [reflexivity|].
    rewrite !lcs_spec_cons, Ascii.eqb_sym.
    rewrite (IH1 ys), (IH1 (String y ys)), IH2.
    now rewrite Nat.max_comm.
Qed.

Lemma zeros_for_spec (s2 : string) :
  zeros_for s2 = map (lcs_spec "") (suffixes s2).
Proof. induction s2 as [|y ys IH]; simpl; [reflexivity|now rewrite IH]. Qed.

Lemma hd_suffixes (f : string -> nat) (s : string) :
  hd 0 (map f (suffixes s)) = f s.
Proof. destruct s; reflexivity. Qed.

Lemma lcs_row_spec (x : ascii) (xs : string) :
  forall s2,
    lcs_row x s2 (map (lcs_spec xs) (suffixes s2))
    = map (lcs_spec (String x xs)) (suffixes s2).
Proof.
  induction s2 as [|y ys IH]; [reflexivity|].
  cbn [suffixes map lcs_row tl]. fold (suffixes ys).
  rewrite IH, !hd_suffixes.
  cbn [hd]. now rewrite lcs_spec_cons.
Qed.

(** The table computes the recursion, row by row. *)
Lemma lcs_table_spec :
  forall s1 s2, lcs_table s1 s2 = map (lcs_spec s1) (suffixes s2).
Proof.
  induction s1 as [|x xs IH]; intros s2; simpl.
  - apply zeros_for_spec.
  - rewrite IH. apply lcs_row_spec.
Qed.

Lemma lcs_is_spec (s1 s2 : string) : lcs s1 s2 = lcs_spec s1 s2.
Proof. unfold lcs. now rewrite lcs_table_spec, hd_suffixes. Qed.

Lemma lcs_sym (s1 s2 : string) : lcs s1 s2 = lcs s2 s1.
Proof. rewrite !lcs_is_spec. apply lcs_spec_sym. Qed.

Lemma ratio_sym (s1 s2 : string) : ratio s1 s2 = ratio s2 s1.
Proof.
  unfold ratio, indel_distance.
  now rewrite lcs_sym, (Nat.add_comm (String.length s1)).
Qed.

Lemma token_sort_ratio_sym (s1 s2 : string) :
  token_sort_ratio s1 s2 = token_sort_ratio s2 s1.
Proof. unfold token_sort_ratio. apply ratio_sym. Qed.

End FuzzFacts.

(* ================================================================== *)
(** * Properties of the per-holding filter *)
(* ================================================================== *)

Module FilterProperties.
Import Model Settings Spec Samples NewsFilter PyFacts FilterFacts.

(** C8.  An article from a trusted per-holding source, that is one for
    which [from_sector_feed] is false, passes the relevance check whatever
    its title and summary, whatever the holding and its aliases, and
    whatever the fuzzy matcher would say. *)
Theorem trusted_source_is_relevant
  (partial_ratio : string -> string -> Fuzz.score)
  (a : article) (s : stock) :
  is_article_relevant partial_ratio a s false = true.
Proof. reflexivity. Qed.

(** C7.  For an article without a publication time stamp, [is_recent] is
    true at every time and for every window; and the turn of the filter
    loop that handles such an article never counts it as stale, so a
    whole pass over articles without time stamps drops none of them as
    too old. *)
Theorem undated_article_is_never_stale (a : article) :
  published a = None ->
  (forall now days_back, NewsFetcher.is_recent now a days_back = true)
  /\ (forall partial_ratio now s days_back max_articles from_sector_feed
             st r,
        deref (st_heap st) r = a ->
        too_old (st_stats (fst (filter_step partial_ratio now s days_back
                                  max_articles from_sector_feed st r)))
        = too_old (st_stats st))
  /\ (forall partial_ratio now s days_back max_articles from_sector_feed
             h articles,
        Forall (allocated h) articles ->
        Forall (fun r => published (deref h r) = None) articles ->
        too_old (st_stats (filter_loop partial_ratio now s days_back
                             max_articles from_sector_feed articles
                             (initial h)))
        = 0).
Proof.
  intros Hp. split; [|split].
  - intros now days_back. unfold NewsFetcher.is_recent. now rewrite Hp.
  - intros pr now s days_back max_articles fsf st r Hr.
    unfold filter_step. rewrite Hr, Hp.
    destruct (negb (is_article_relevant _ _ _ _)); [reflexivity|].
    destruct (is_duplicate_title _ _ _); [reflexivity|].
    now destruct (copy_and_truncate _ _).
  - intros pr now s days_back max_articles fsf h articles Hall Hnone.
    rewrite (filter_loop_too_old pr now s days_back max_articles fsf
               h articles (initial h) []); try assumption.
    + reflexivity.
    + simpl. now rewrite app_nil_r.
Qed.

Lemma undated_article_is_never_stale_witness :
  published undated = None
  /\ NewsFetcher.is_recent 86400000000%Z undated 0%Z = true.
Proof.
  split; [reflexivity|].
  apply (undated_article_is_never_stale undated); reflexivity.
Defined.

(** C9.  Duplicate detection is symmetric: if title [A] is a duplicate
    against the seen list that holds only the normal form of [B], then
    [B] is a duplicate against the seen list that holds only the normal
    form of [A], at every threshold. *)
Theorem duplicate_detection_symmetric (A B : string) (threshold : Z) :
  is_duplicate_title A [normalize_for_dedup B] threshold = true ->
  is_duplicate_title B [normalize_for_dedup A] threshold = true.
Proof.
  unfold is_duplicate_title.
  now rewrite FuzzFacts.token_sort_ratio_sym.
Qed.

Lemma duplicate_detection_symmetric_witness :
  is_duplicate_title "Company X Q3 beats estimates"
    [normalize_for_dedup "Q3 estimates beaten by Company X"] 70 = true
  /\ is_duplicate_title "Q3 estimates beaten by Company X"
       [normalize_for_dedup "Company X Q3 beats estimates"] 70 = true.
Proof.
  split; [vm_compute; reflexivity|].
  apply (duplicate_detection_symmetric
           "Company X Q3 beats estimates"
           "Q3 estimates beaten by Company X" 70).
  vm_compute; reflexivity.
Defined.

(** The cells returned by a pass hold truncated articles. *)
Lemma returned_cells (h : heap) (sub : list ref) (P : article -> Prop) :
  (forall a, P (truncated a)) ->
  Forall (fun r => P (deref (h ++ map (fun r => truncated (deref h r)) sub)
                        r))
         (seq (List.length h) (List.length sub)).
Proof.
  intros HP. apply Forall_forall. intros r Hr.
  apply in_seq in Hr. unfold deref.
  rewrite app_nth2 by lia.
  set (i := r - List.length h).
  assert (Hi : i < List.length sub) by (unfold i; lia).
  rewrite (nth_map_any _ sub i 0) by assumption.
  apply HP.
Qed.

(** C3 as amended.  For a cap [max_articles] of at least one, the filter
    returns at most [max_articles] articles; and for every cap, the
    summary of each returned article has at most 150 words and its body
    at most [MAX_WORDS_PER_ARTICLE] (300) words. *)
Theorem filter_respects_caps
  (partial_ratio : string -> string -> Fuzz.score) (now : datetime)
  (s : stock) (days_back max_articles : Z) (from_sector_feed : bool)
  (h : heap) (articles : list ref) :
  Forall (allocated h) articles ->
  let (h', out) :=
    filter_news_for_stock partial_ratio now s days_back max_articles
      from_sector_feed h articles in
  ((1 <= max_articles)%Z ->
   (Z.of_nat (List.length out) <= max_articles)%Z)
  /\ Forall (fun r =>
               field_words (summary (deref h' r)) <= 150
               /\ (Z.of_nat (field_words (body (deref h' r)))
                   <= MAX_WORDS_PER_ARTICLE)%Z)
            out.
Proof.
  intros Hall. unfold filter_news_for_stock. split.
  - intros Hmax. apply filter_loop_cap. simpl. lia.
  - destruct (filter_loop_shape partial_ratio now s days_back max_articles
                from_sector_feed h articles (initial h) [] Hall)
      as (sub & _ & Hh & Hf).
    { simpl. now rewrite app_nil_r. }
    rewrite Hh, Hf. simpl.
    apply (returned_cells h sub
             (fun a => field_words (summary a) <= 150
                       /\ (Z.of_nat (field_words (body a))
                           <= MAX_WORDS_PER_ARTICLE)%Z)).
    intros a. split.
    + apply truncated_summary_words.
    + apply truncated_body_words.
Qed.

Lemma filter_respects_caps_witness :
  Forall (allocated sample_store) sample_input
  /\ (Z.of_nat (List.length
                  (snd (filter_news_for_stock no_fuzzy 2000%Z infy 0%Z 2%Z false
                          sample_store sample_input)))
      <= 2)%Z.
Proof.
  assert (Hall : Forall (allocated sample_store) sample_input).
  { repeat constructor; unfold allocated; simpl; lia. }
  split; [exact Hall|].
  pose proof (filter_respects_caps no_fuzzy 2000%Z infy 0%Z 2%Z false
                sample_store sample_input Hall) as H.
  destruct (filter_news_for_stock no_fuzzy 2000%Z infy 0%Z 2%Z false
              sample_store sample_input) as [h' out].
  destruct H as [Hcap _]. simpl. apply Hcap. lia.
Defined.

(** C3 as stated fails for a cap of zero: the cap is tested after the
    article has been appended, so one article is returned. *)
Lemma cap_zero_is_exceeded :
  let out :=
    snd (filter_news_for_stock no_fuzzy 2000%Z infy 1%Z 0%Z false
           [undated] [0]) in
  out = [1] /\ ~ (Z.of_nat (List.length out) <= 0)%Z.
Proof. split; [reflexivity|]. simpl. lia. Qed.

(** C10.  The filter does not write into the dicts it is given: every
    cell of the store that existed before the call holds the same dict
    after it.  The dicts it returns are new cells, and they are, in
    order, the truncated copies of a subsequence of the input list. *)
Theorem filter_leaves_input_unchanged
  (partial_ratio : string -> string -> Fuzz.score) (now : datetime)
  (s : stock) (days_back max_articles : Z) (from_sector_feed : bool)
  (h : heap) (articles : list ref) :
  Forall (allocated h) articles ->
  let (h', out) :=
    filter_news_for_stock partial_ratio now s days_back max_articles
      from_sector_feed h articles in
  (forall r, allocated h r -> deref h' r = deref h r)
  /\ firstn (List.length h) h' = h
  /\ Forall (fun r => ~ allocated h r) out
  /\ exists sub,
       subseq sub articles
       /\ map (deref h') out = map (fun r => truncated (deref h r)) sub.
Proof.
  intros Hall. unfold filter_news_for_stock.
  destruct (filter_loop_shape partial_ratio now s days_back max_articles
              from_sector_feed h articles (initial h) [] Hall)
    as (sub & Hsub & Hh & Hf).
  { simpl. now rewrite app_nil_r. }
  rewrite Hh, Hf. simpl. repeat split.
  - intros r Hr. now apply deref_old.
  - rewrite firstn_app, Nat.sub_diag, firstn_all. simpl.
    now rewrite app_nil_r.
  - apply Forall_forall. intros r Hr. apply in_seq in Hr.
    unfold allocated. lia.
  - exists sub. split; [assumption|].
    apply (nth_ext _ _ no_article no_article).
    + now rewrite !length_map, length_seq.
    + intros i Hi. rewrite length_map, length_seq in Hi.
      rewrite (nth_map_any _ _ i 0) by now rewrite length_seq.
      rewrite (nth_map_any _ sub i 0), seq_nth by assumption.
      unfold deref at 1. rewrite app_nth2 by lia.
      replace (List.length h + i - List.length h) with i by lia.
      now apply (nth_map_any (fun r => truncated (deref h r)) sub i 0).
Qed.

Lemma filter_leaves_input_unchanged_witness :
  Forall (allocated sample_store) sample_input
  /\ firstn 2 (fst (filter_news_for_stock no_fuzzy 2000%Z infy 0%Z 5%Z false
                      sample_store sample_input))
     = sample_store.
Proof.
  assert (Hall : Forall (allocated sample_store) sample_input).
  { repeat constructor; unfold allocated; simpl; lia. }
  split; [exact Hall|].
  pose proof (filter_leaves_input_unchanged no_fuzzy 2000%Z infy 0%Z 5%Z false
                sample_store sample_input Hall) as H.
  destruct (filter_news_for_stock no_fuzzy 2000%Z infy 0%Z 5%Z false
              sample_store sample_input) as [h' out].
  destruct H as (_ & Hfirst & _). exact Hfirst.
Defined.

(** An article from a sector feed that names the company passes the
    relevance check through the alias table, by plain containment. *)
Example infosys_matches_by_alias :
  is_article_relevant no_fuzzy undated infy true = true.
Proof. reflexivity. Qed.

Example unrelated_article_is_dropped :
  is_article_relevant no_fuzzy other infy true = false.
Proof. reflexivity. Qed.

(** A pass over the sample store: the second reference is stale, the third
    repeats the first title. *)
Example sample_pass :
  filter_news_for_stock no_fuzzy 86400000000%Z infy 0%Z 5%Z false
    sample_store sample_input
  = (sample_store ++ [undated], [2]).
Proof. reflexivity. Qed.

End FilterProperties.

(* ================================================================== *)
(** * Facts on float products *)
(* ================================================================== *)

Module FloatFacts.











End FloatFacts.

(* ================================================================== *)
(** * Sorting and batching *)
(* ================================================================== *)

Module SchedulerFacts.
Import Model Settings Spec GeminiAnalyzer.

Section StableSort.
Context {A K : Type} (leb : K -> K -> bool) (key : A -> K).
Hypothesis leb_total : forall a b, leb a b = true \/ leb b a = true.
Hypothesis leb_trans :
  forall a b c, leb a b = true -> leb b c = true -> leb a c = true.

Lemma insert_perm (x : A) (l : list A) :
  Permutation (Py.insert leb key x l) (x :: l).
Proof.
  induction l as [|y l IH]; simpl; [reflexivity|].
  destruct (leb (key x) (key y)); [reflexivity|].
  rewrite IH. apply perm_swap.
Qed.

Lemma sorted_perm (l : list A) : Permutation (Py.sorted leb key l) l.
Proof.
  induction l as [|x l IH]; simpl; [reflexivity|].
  rewrite insert_perm. now constructor.
Qed.

Lemma insert_sorted (x : A) (l : list A) :
  StronglySorted (fun a b => leb (key a) (key b) = true) l ->
  StronglySorted (fun a b => leb (key a) (key b) = true)
    (Py.insert leb key x l).
Proof.
  induction 1 as [|y l Hl IH Hy]; simpl.
  - repeat constructor.
  - destruct (leb (key x) (key y)) eqn:E.
    + constructor; [now constructor|].
      constructor; [assumption|].
      eapply Forall_impl; [|exact Hy].
      intros z Hz. simpl in Hz. eapply leb_trans; eassumption.
    + constructor; [assumption|].
      assert (Hyx : leb (key y) (key x) = true).
      { destruct (leb_total (key x) (key y)); congruence. }
      eapply Permutation_Forall.
      * symmetry. apply insert_perm.
      * now constructor.
Qed.

Lemma sorted_sorted (l : list A) :
  StronglySorted (fun a b => leb (key a) (key b) = true)
    (Py.sorted leb key l).
Proof.
  induction l as [|x l IH]; simpl; [constructor|].
  now apply insert_sorted.
Qed.

End StableSort.

(** ** Float products *)



Lemma Qle_bool_total (a b : Q) : Qle_bool a b = true \/ Qle_bool b a = true.
Proof.
  destruct (Qlt_le_dec a b) as [H|H].
  - left. apply Qle_bool_iff. now apply Qlt_le_weak.
  - right. now apply Qle_bool_iff.
Qed.




(** ** Batches *)

Lemma concat_slices {A} (step : nat) (l : list A) :
  0 < step ->
  forall fuel i,
    List.length l - i <= fuel ->
    List.concat (map (fun j => Py.slice j (j + step) l)
                     (Py.range_go fuel i (List.length l) step))
    = skipn i l.
Proof.
  intros Hstep. induction fuel as [|f IH]; intros i Hfuel; simpl.
  - symmetry. apply skipn_all2. lia.
  - destruct (Nat.ltb_spec i (List.length l)) as [Hlt|Hge].
    + simpl. rewrite IH by lia.
      unfold Py.slice.
      replace (i + step - i) with step by lia.
      rewrite (Nat.add_comm i step), <- skipn_skipn.
      apply firstn_skipn.
    + symmetry. apply skipn_all2. lia.
Qed.

Lemma slices_sizes {A} (step : nat) (l : list A) :
  0 < step ->
  forall fuel i,
    Forall (fun b : list A => 1 <= List.length b <= step)
      (map (fun j => Py.slice j (j + step) l)
           (Py.range_go fuel i (List.length l) step)).
Proof.
  intros Hstep. induction fuel as [|f IH]; intros i; simpl;
    [constructor|].
  destruct (Nat.ltb_spec i (List.length l)) as [Hlt|Hge];
    [|constructor].
  simpl. constructor; [|apply IH].
  unfold Py.slice. rewrite length_firstn, length_skipn. lia.
Qed.

End SchedulerFacts.

(* ================================================================== *)
(** * Properties of the batch scheduler *)
(* ================================================================== *)

Module SchedulerProperties.
Import Model Settings Spec Samples GeminiAnalyzer FloatFacts SchedulerFacts.

(** C5.  For a positive batch size the scheduler produces its batches
    (it does not fail), the batches laid end to end are the sorted list
    itself, so they are contiguous and every holding is in exactly one of
    them, every batch has at most [batch_size] holdings, and none is
    empty; for an empty list there is no batch at all. *)
Theorem batches_partition {A} (batch_size : nat) (l : list A) :
  0 < batch_size ->
  exists batches,
    make_batches batch_size l = Ret batches
    /\ List.concat batches = l
    /\ Forall (fun b => 1 <= List.length b <= batch_size) batches
    /\ (l = [] -> batches = []).
Proof.
  intros Hpos. unfold make_batches.
  destruct (Nat.eqb_spec batch_size 0) as [->|_]; [lia|].
  eexists. split; [reflexivity|]. unfold Py.range.
  split; [|split].
  - rewrite concat_slices by lia. reflexivity.
  - now apply slices_sizes.
  - intros ->. reflexivity.
Qed.

Lemma batches_partition_witness :
  0 < 5
  /\ exists batches,
       make_batches 5 (seq 1 12) = Ret batches
       /\ List.concat batches = seq 1 12
       /\ Forall (fun b => 1 <= List.length b <= 5) batches
       /\ (seq 1 12 = [] -> batches = []).
Proof.
  split; [lia|]. apply (batches_partition 5 (seq 1 12)). lia.
Defined.

(** Twelve holdings in batches of five: sizes 5, 5 and 2. *)
Example twelve_in_batches_of_five :
  make_batches 5 (seq 1 12)
  = Ret [[1; 2; 3; 4; 5]; [6; 7; 8; 9; 10]; [11; 12]].
Proof. reflexivity. Qed.

Lemma StronglySorted_impl {A} (R R' : A -> A -> Prop) (l : list A) :
  (forall a b, R a b -> R' a b) ->
  StronglySorted R l -> StronglySorted R' l.
Proof.
  intros HR. induction 1 as [|x l Hl IH Hx]; constructor.
  - assumption.
  - eapply Forall_impl; [|exact Hx]. intros b. apply HR.
Qed.




(** The product is a float product.  [15.1 * 1.1] is the float [16.61],
    though the exact product of the two factors is above it: the keys
    tie and the holding of the other market stays ahead. *)
Example rounded_product_ties :
  let us := with_news "AAPL" "US" (Some (Float.round (1661 # 100))) in
  let ind := with_news "INFY" "IN" (Some (Float.round (151 # 10))) in
  (invested us < invested ind * Float.round (11 # 10))%Q
  /\ boosted ind = boosted us
  /\ sort_by_investment [us; ind] = [us; ind].
Proof. repeat split; vm_compute; reflexivity. Qed.

(** The boost does not move the smallest float: [2 ^ -1074] times 1.1 is
    [2 ^ -1074] again, so equal amounts of that size tie. *)
Example smallest_float_is_not_raised :
  Float.mul (Float.pow2 (-1074)) (Float.round (11 # 10))
  = Float.pow2 (-1074).
Proof. vm_compute. reflexivity. Qed.

(** [100 * 1.1] is the float above [110]: the boost puts the IN holding
    of 100 ahead of another holding of 110. *)
Example rounded_product_separates :
  let us := with_news "AAPL" "US" (Some 110%Q) in
  let ind := with_news "INFY" "IN" (Some 100%Q) in
  (invested us < boosted ind)%Q
  /\ sort_by_investment [us; ind] = [ind; us].
Proof. repeat split; vm_compute; reflexivity. Qed.

End SchedulerProperties.

(* ================================================================== *)
(** * The retry and fallback controller *)
(* ================================================================== *)

Module ControllerFacts.
Import Model Settings Spec GeminiAnalyzer.

Lemma gstate_eta (st : gstate) :
  {| active_model_name := active_model_name st;
     requests := requests st; trace := trace st |} = st.
Proof. now destruct st. Qed.

(** Sleeping only adds to the trace. *)
Lemma sleep_all_run (l : list Z) :
  forall st, exists evs,
    sleep_all l st
    = (Ret tt, {| active_model_name := active_model_name st;
                  requests := requests st;
                  trace := trace st ++ evs |}).
Proof.
  induction l as [|r l IH]; intros st.
  - exists []. simpl. unfold ret. now rewrite app_nil_r, gstate_eta.
  - simpl. unfold bind, sleep, log.
    destruct (IH {| active_model_name := active_model_name st;
                    requests := requests st;
                    trace := trace st ++ [Slept (Z.min 5 r)] |})
      as (evs & ->). simpl.
    exists (Slept (Z.min 5 r) :: evs). now rewrite <- app_assoc.
Qed.

Lemma rate_limited_inv (o : outcome) :
  rate_limited o = true ->
  exists error_str, o = Failure error_str
                    /\ Py.contains "429" error_str = true.
Proof.
  destruct o as [text|error_str]; simpl; [discriminate|].
  intros H. now exists error_str.
Qed.

Lemma no_tier_left_active (st : gstate) :
  no_tier_left st -> exists model, active_model_name st = Some model.
Proof.
  unfold no_tier_left. destruct (active_model_name st) as [m|].
  - now exists m.
  - simpl. lia.
Qed.

(** One turn of the retry loop when the service is rate limited and no
    tier is left: a request, then either a wait and the next turn, or
    failure on the last attempt. *)
Lemma retry_turn_exhausted (e : env) (prompt : string) (attempt : nat)
  (rest : list nat) (st : gstate) :
  always_rate_limited e -> no_tier_left st ->
  exists st1,
    no_tier_left st1
    /\ requests st1 = requests st + 1
    /\ retry_loop e prompt (attempt :: rest) st
       = if attempt <? MAX_RETRIES - 1
         then retry_loop e prompt rest st1
         else (Ret ("", false), st1).
Proof.
  intros Hlim Hlast.
  destruct (no_tier_left_active st Hlast) as (model & Hm).
  destruct (rate_limited_inv _ (Hlim (requests st) model prompt))
    as (error_str & Ho & H429).
  assert (Hidx : (next_index (Some model)
                  <? List.length MODEL_FALLBACK_ORDER) = false).
  { apply Nat.ltb_ge. unfold no_tier_left in Hlast.
    now rewrite Hm in Hlast. }
  cbn [retry_loop]. unfold bind at 1, request. rewrite Hm, Ho, H429.
  cbn [active_model_name]. rewrite Hidx, andb_false_r.
  set (st1 := {| active_model_name := Some model;
                 requests := requests st + 1;
                 trace := trace st ++ [Requested model prompt] |}).
  destruct (attempt <? MAX_RETRIES - 1).
  - unfold bind.
    destruct (sleep_all_run
                (Py.countdown (get_retry_delay_from_error error_str) 5)
                st1) as (evs & ->).
    eexists. split; [|split; [|reflexivity]].
    + unfold no_tier_left in *. simpl. now rewrite Hm in Hlast.
    + reflexivity.
  - exists st1. split; [|split; reflexivity].
    unfold no_tier_left in *. simpl. now rewrite Hm in Hlast.
Qed.

(** With the service rate limited throughout and no tier left, the
    controller spends its three attempts and reports failure. *)
Lemma call_exhausted (e : env) (prompt : string) (tickers : list string)
  (st : gstate) :
  always_rate_limited e -> no_tier_left st ->
  exists st',
    requests st' = requests st + MAX_RETRIES
    /\ call_gemini_with_retry e prompt tickers st = (Ret ("", false), st').
Proof.
  intros Hlim Hlast. unfold call_gemini_with_retry.
  change (Py.range 0 MAX_RETRIES 1) with [0; 1; 2].
  destruct (retry_turn_exhausted e prompt 0 [1; 2] st Hlim Hlast)
    as (st1 & Hlast1 & Hreq1 & ->).
  destruct (retry_turn_exhausted e prompt 1 [2] st1 Hlim Hlast1)
    as (st2 & Hlast2 & Hreq2 & ->).
  destruct (retry_turn_exhausted e prompt 2 [] st2 Hlim Hlast2)
    as (st3 & Hlast3 & Hreq3 & ->).
  exists st3. split; [|reflexivity].
  unfold MAX_RETRIES. lia.
Qed.

(** Whatever the service does, a call sends at most one request per
    attempt, and only adds to the trace. *)
Lemma retry_loop_bound (e : env) (prompt : string) :
  forall attempts st r st',
    retry_loop e prompt attempts st = (r, st') ->
    requests st' <= requests st + List.length attempts
    /\ exists evs, trace st' = trace st ++ evs.
Proof.
  induction attempts as [|attempt rest IH]; intros st r st' E.
  - inversion E; subst. simpl. split; [lia|].
    exists []. now rewrite app_nil_r.
  - cbn [retry_loop] in E. unfold bind at 1, request in E.
    destruct (active_model_name st) as [model|] eqn:Hm.
    2:{ replace (Py.contains "429" attribute_error) with false in E
          by reflexivity.
        inversion E; subst. simpl. split; [lia|].
        exists []. now rewrite app_nil_r. }
    set (st1 := {| active_model_name := Some model;
                   requests := requests st + 1;
                   trace := trace st ++ [Requested model prompt] |}) in E.
    assert (Hst1 : requests st1 <= requests st + List.length (attempt :: rest)
                   /\ exists evs, trace st1 = trace st ++ evs).
    { simpl. split; [lia|]. now eexists. }
    destruct (generate_content e (requests st) model prompt)
      as [text|error_str]; [inversion E; subst; exact Hst1|].
    destruct (Py.contains "429" error_str);
      [|inversion E; subst; exact Hst1].
    destruct (_ && _ && _).
    + unfold bind, init_gemini in E.
      destruct (negb (GEMINI_API_KEY e));
        [inversion E; subst; exact Hst1|].
      apply IH in E as (Hr & evs & Ht).
      simpl in *. split; [lia|].
      rewrite Ht. rewrite <- !app_assoc. now eexists.
    + destruct (attempt <? MAX_RETRIES - 1);
        [|inversion E; subst; exact Hst1].
      unfold bind in E.
      destruct (sleep_all_run
                  (Py.countdown (get_retry_delay_from_error error_str) 5)
                  st1) as (evs1 & Hs).
      rewrite Hs in E.
      apply IH in E as (Hr & evs & Ht).
      simpl in *. split; [lia|].
      rewrite Ht. rewrite <- !app_assoc. now eexists.
Qed.

(** With a model active, the first thing a call does is to send it the
    prompt. *)
Lemma retry_loop_first (e : env) (prompt : string) (attempt : nat)
  (rest : list nat) (st : gstate) (model : string) r st' :
  active_model_name st = Some model ->
  retry_loop e prompt (attempt :: rest) st = (r, st') ->
  exists evs, trace st' = trace st ++ Requested model prompt :: evs.
Proof.
  intros Hm E.
  cbn [retry_loop] in E. unfold bind at 1, request in E. rewrite Hm in E.
  set (st1 := {| active_model_name := Some model;
                 requests := requests st + 1;
                 trace := trace st ++ [Requested model prompt] |}) in E.
  assert (Hst1 : exists evs,
             trace st1 = trace st ++ Requested model prompt :: evs)
    by now exists [].
  destruct (generate_content e (requests st) model prompt)
    as [text|error_str]; [inversion E; subst; exact Hst1|].
  destruct (Py.contains "429" error_str);
    [|inversion E; subst; exact Hst1].
  destruct (_ && _ && _).
  - unfold bind, init_gemini in E.
    destruct (negb (GEMINI_API_KEY e));
      [inversion E; subst; exact Hst1|].
    apply retry_loop_bound in E as (_ & evs & Ht).
    simpl in Ht. rewrite Ht, <- !app_assoc. now eexists.
  - destruct (attempt <? MAX_RETRIES - 1);
      [|inversion E; subst; exact Hst1].
    unfold bind in E.
    destruct (sleep_all_run
                (Py.countdown (get_retry_delay_from_error error_str) 5)
                st1) as (evs1 & Hs).
    rewrite Hs in E.
    apply retry_loop_bound in E as (_ & evs & Ht).
    simpl in Ht. rewrite Ht, <- !app_assoc. now eexists.
Qed.

Lemma fallback_tickers (tickers : list string) (reason : string) :
  map r_ticker (_fallback_results tickers reason) = map Some tickers.
Proof. unfold _fallback_results. rewrite map_map. reflexivity. Qed.

Lemma fallback_placeholders (tickers : list string) (reason : string) :
  Forall is_placeholder (_fallback_results tickers reason).
Proof.
  unfold _fallback_results. apply Forall_forall. intros r Hr.
  apply in_map_iff in Hr as (t & <- & _).
  repeat split.
Qed.

End ControllerFacts.

(* ================================================================== *)
(** * Properties of the analysis driver *)
(* ================================================================== *)

Module AnalysisProperties.
Import Model Settings Spec Samples GeminiAnalyzer ControllerFacts.

(** C4.  If every request is answered with a rate-limit failure and no
    fallback tier is left, the analysis of a batch spends the three
    attempts and returns one result per ticker of the batch, in order,
    each with sentiment neutral, priority LOW, action hint no_news and
    thesis status unclear. *)
Theorem exhausted_batch_gets_placeholders
  (e : env) (stock_contexts tickers : list string) (st : gstate) :
  always_rate_limited e -> no_tier_left st ->
  exists results st',
    analyze_daily_batch e stock_contexts tickers st = (Ret results, st')
    /\ requests st' = requests st + MAX_RETRIES
    /\ map r_ticker results = map Some tickers
    /\ Forall is_placeholder results.
Proof.
  intros Hlim Hlast. unfold analyze_daily_batch, bind.
  match goal with
  | |- context [call_gemini_with_retry e ?p tickers st] =>
      destruct (call_exhausted e p tickers st Hlim Hlast)
        as (st' & Hreq & ->)
  end.
  simpl. unfold ret.
  exists (_fallback_results tickers "API unavailable"), st'.
  repeat split.
  - exact Hreq.
  - apply fallback_tickers.
  - apply fallback_placeholders.
Qed.

Lemma exhausted_batch_gets_placeholders_witness :
  always_rate_limited quota_env
  /\ no_tier_left (on_tier "gemini-1.5-flash-8b")
  /\ exists results st',
       analyze_daily_batch quota_env ["ctx 1"; "ctx 2"] ["AAPL"; "INFY"]
         (on_tier "gemini-1.5-flash-8b") = (Ret results, st')
       /\ requests st'
          = requests (on_tier "gemini-1.5-flash-8b") + MAX_RETRIES
       /\ map r_ticker results = map Some ["AAPL"; "INFY"]
       /\ Forall is_placeholder results.
Proof.
  assert (H1 : always_rate_limited quota_env)
    by (intros n model prompt; reflexivity).
  assert (H2 : no_tier_left (on_tier "gemini-1.5-flash-8b"))
    by (unfold no_tier_left; simpl; lia).
  split; [exact H1|]. split; [exact H2|].
  apply (exhausted_batch_gets_placeholders quota_env ["ctx 1"; "ctx 2"]
           ["AAPL"; "INFY"] (on_tier "gemini-1.5-flash-8b") H1 H2).
Defined.

(** C2 as amended.  When the first attempt for a batch meets a rate-limit
    failure that names the daily quota, and a next tier exists, the
    controller switches to that tier and sends the prompt to it at once,
    with no wait in between.  The switch uses up the first attempt: the
    whole call sends at most [MAX_RETRIES] requests, the failed one
    included, so at most [MAX_RETRIES - 1] go to the new tier. *)
Theorem tier_switch_uses_first_attempt
  (e : env) (prompt : string) (tickers : list string) (st : gstate)
  (model error_str new_model : string) :
  GEMINI_API_KEY e = true ->
  active_model_name st = Some model ->
  generate_content e (requests st) model prompt = Failure error_str ->
  Py.contains "429" error_str = true ->
  Py.contains "PerDay" error_str = true ->
  nth_error MODEL_FALLBACK_ORDER (next_index (Some model))
  = Some new_model ->
  exists r st' evs,
    call_gemini_with_retry e prompt tickers st = (r, st')
    /\ trace st'
       = trace st ++ Requested model prompt :: Initialised new_model
                     :: Requested new_model prompt :: evs
    /\ requests st' <= requests st + 1 + (MAX_RETRIES - 1).
Proof.
  intros Hkey Hm Hgen H429 Hday Hnth.
  assert (Hidx : (next_index (Some model)
                  <? List.length MODEL_FALLBACK_ORDER) = true).
  { apply Nat.ltb_lt. apply nth_error_Some. now rewrite Hnth. }
  assert (Htarget : Py.truthy (Some new_model) = true).
  { clear Hidx.
    destruct (next_index (Some model)) as [|[|[|k]]]; simpl in Hnth;
      [| | |destruct k; discriminate];
      inversion Hnth; reflexivity. }
  unfold call_gemini_with_retry.
  change (Py.range 0 MAX_RETRIES 1) with [0; 1; 2].
  remember [1; 2] as rest eqn:Hrest.
  cbn [retry_loop]. unfold bind at 1, request.
  rewrite Hm, Hgen, H429, Hday.
  cbn [active_model_name]. rewrite Hidx, Hnth.
  unfold bind, init_gemini. rewrite Hkey, Htarget.
  cbn [negb orb andb Nat.eqb Py.get_or requests trace active_model_name].
  match goal with
  | |- context [retry_loop e prompt rest ?s] =>
      destruct (retry_loop e prompt rest s) as [r st'] eqn:E
  end.
  subst rest. pose proof E as E'.
  apply retry_loop_bound in E as (Hreq & _).
  apply (retry_loop_first e prompt 1 [2] _ new_model) in E'
    as (evs & Ht); [|reflexivity].
  exists r, st', evs. simpl in *. repeat split.
  - rewrite Ht, <- !app_assoc. reflexivity.
  - unfold MAX_RETRIES. lia.
Qed.

Lemma tier_switch_uses_first_attempt_witness :
  GEMINI_API_KEY quota_env = true
  /\ nth_error MODEL_FALLBACK_ORDER (next_index (Some "gemini-2.0-flash"))
     = Some "gemini-1.5-flash"
  /\ exists r st' evs,
       call_gemini_with_retry quota_env "prompt" ["AAPL"]
         (on_tier "gemini-2.0-flash") = (r, st')
       /\ trace st'
          = trace (on_tier "gemini-2.0-flash")
            ++ Requested "gemini-2.0-flash" "prompt"
               :: Initialised "gemini-1.5-flash"
               :: Requested "gemini-1.5-flash" "prompt" :: evs
       /\ requests st'
          <= requests (on_tier "gemini-2.0-flash") + 1 + (MAX_RETRIES - 1).
Proof.
  split; [reflexivity|]. split; [reflexivity|].
  apply (tier_switch_uses_first_attempt quota_env "prompt" ["AAPL"]
           (on_tier "gemini-2.0-flash") "gemini-2.0-flash"
           "429 Quota exceeded for metric GenerateRequestsPerDayPerProject"
           "gemini-1.5-flash");
    reflexivity.
Defined.

(** C2 as stated fails: with the daily quota exhausted on every tier, the
    call that starts on the first tier switches once and then sends the
    second tier two requests, not [MAX_RETRIES], before it gives up. *)
Lemma switch_leaves_two_attempts :
  let run :=
    call_gemini_with_retry quota_env "prompt" ["AAPL"]
      (on_tier "gemini-2.0-flash") in
  fst run = Ret ("", false)
  /\ active_model_name (snd run) = Some "gemini-1.5-flash"
  /\ requests_to "gemini-2.0-flash" (trace (snd run)) = 1
  /\ requests_to "gemini-1.5-flash" (trace (snd run)) = 2
  /\ ~ (MAX_RETRIES <= requests_to "gemini-1.5-flash" (trace (snd run))).
Proof.
  cbv zeta. repeat split; try (vm_compute; reflexivity).
  intros H. vm_compute in H. lia.
Qed.

(** C1 fails on the code: a holding whose list of kept articles is empty
    is set aside before batching and never added to the results, whatever
    the service and the parser do.  Here the only holding of the run has
    no news and the run returns no result at all. *)
Theorem holding_without_news_gets_no_result
  (service : nat -> string -> string -> outcome)
  (loads : string -> json)
  (context : stock -> list article -> string)
  (system_prompt div : string) :
  fst (run_daily_analysis
         {| GEMINI_API_KEY := true; generate_content := service;
            json_loads := loads;
            build_llm_context_for_stock := context;
            DAILY_SYSTEM_PROMPT := system_prompt; divider := div |}
         [without_news "AAPL" "US" (Some 65000%Q)] start)
  = Ret [].
Proof. reflexivity. Qed.

(** The other half of C1: a holding that the answer of the service leaves
    out gets no placeholder either. *)
Example omitted_holding_gets_no_placeholder :
  option_map (map r_ticker)
    (match fst (run_daily_analysis omitting_env
                  [with_news "AAPL" "US" (Some 65000%Q);
                   with_news "INFY" "IN" (Some 26080%Q)] start) with
     | Ret results => Some results
     | Raise _ => None
     end)
  = Some [Some "AAPL"].
Proof. reflexivity. Qed.

End AnalysisProperties.

(* ================================================================== *)
(** * More on truncation and on the normal form of titles *)
(* ================================================================== *)

Module TextProperties.
Import Model Settings Spec Samples Vocabulary MoreSamples NewsFilter.
Import PyFacts FilterFacts.

(** X1.  For a cap of one word or more, truncating twice is truncating
    once, and the result never has more words than the cap. *)
Theorem truncate_text_idempotent (text : string) (max_words : Z) :
  (1 <= max_words)%Z ->
  truncate_text (truncate_text text max_words) max_words
  = truncate_text text max_words
  /\ (Z.of_nat (word_count (truncate_text text max_words)) <= max_words)%Z.
Proof.
  intros Hmax.
  pose proof (truncate_text_words text max_words Hmax) as Hw.
  split; [|exact Hw].
  unfold truncate_text at 1. fold (word_count (truncate_text text max_words)).
  destruct (Z.leb_spec (Z.of_nat (word_count (truncate_text text max_words)))
              max_words); [reflexivity|lia].
Qed.

Lemma truncate_text_idempotent_witness :
  (1 <= 3)%Z
  /\ truncate_text (truncate_text long_text 3) 3 = truncate_text long_text 3.
Proof.
  split; [lia|]. apply (truncate_text_idempotent long_text 3). lia.
Defined.

(** X2.  A text within the cap is returned as it is, white space included.
    A text over the cap (of one word or more) is cut to its first
    [max_words] words, in order, with three dots glued to the last one. *)
Theorem truncate_text_shape (text : string) (max_words : Z) :
  (1 <= max_words)%Z ->
  ((Z.of_nat (word_count text) <= max_words)%Z ->
   truncate_text text max_words = text)
  /\ ((max_words < Z.of_nat (word_count text))%Z ->
      Py.split (truncate_text text max_words)
      = append_last "..." (firstn (Z.to_nat max_words) (Py.split text))).
Proof.
  intros Hmax. unfold truncate_text, word_count. split; intros H.
  - destruct (Z.leb_spec (Z.of_nat (List.length (Py.split text))) max_words);
      [reflexivity|lia].
  - destruct (Z.leb_spec (Z.of_nat (List.length (Py.split text))) max_words);
      [lia|].
    unfold Py.slice_to. destruct (Z.leb_spec 0 max_words); [|lia].
    rewrite join_append_last.
    + apply split_join. apply append_last_words; [reflexivity|].
      apply Forall_firstn, split_words.
    + intros E. apply (f_equal (@List.length string)) in E.
      rewrite length_firstn in E. simpl in E. lia.
Qed.

Lemma truncate_text_shape_witness :
  (1 <= 3)%Z /\ (3 < Z.of_nat (word_count long_text))%Z
  /\ Py.split (truncate_text long_text 3) = ["one"; "two"; "three..."].
Proof.
  split; [lia|]. split; [vm_compute; reflexivity|].
  destruct (truncate_text_shape long_text 3) as [_ H]; [lia|].
  apply H. vm_compute. reflexivity.
Defined.

(** ** Collapsing white space *)

Lemma rstrip_nonspace (c : ascii) (s : string) :
  Py.is_space c = false -> Py.rstrip (String c s) = String c (Py.rstrip s).
Proof. intros H. simpl. now rewrite H. Qed.

Lemma lstrip_nonspace (c : ascii) (s : string) :
  Py.is_space c = false -> Py.lstrip (String c s) = String c s.
Proof. intros H. simpl. now rewrite H. Qed.

Lemma collapse_nonspace (b : bool) (c : ascii) (s : string) :
  Py.is_space c = false ->
  collapse_spaces b (String c s) = String c (collapse_spaces false s).
Proof. intros H. simpl. now rewrite H. Qed.

Lemma join_is_empty (ws : list string) :
  Forall is_word ws ->
  Py.is_empty (Py.join " " ws) = match ws with [] => true | _ => false end.
Proof.
  intros H. destruct H as [|w rest [Hne _] _]; [reflexivity|].
  destruct w; [congruence|]. now destruct rest.
Qed.

Lemma no_space_snoc (w : string) (c : ascii) :
  no_space w = true -> Py.is_space c = false ->
  no_space (w ++ String c "") = true.
Proof.
  intros Hw Hc. rewrite no_space_append, Hw. simpl. now rewrite Hc.
Qed.

Lemma snoc_not_empty (w : string) (c : ascii) :
  (w ++ String c "")%string <> "".
Proof. destruct w; discriminate. Qed.

(** Reading on after a word [w]: the stripped, collapsed rest, put after
    [w], is the join of the words.  And with no word begun, and the blank
    of the run already written, the same without [w]. *)
Lemma collapse_join (s : string) :
  (forall w, w <> "" -> no_space w = true ->
     (w ++ Py.rstrip (collapse_spaces false s))%string
     = Py.join " " (Py.split_from w s))
  /\ Py.rstrip (collapse_spaces true s) = Py.join " " (Py.split_from "" s).
Proof.
  induction s as [|c s [IHw IHe]].
  - split; [|reflexivity]. intros w Hne _. simpl.
    apply is_empty_false in Hne. rewrite Hne. simpl. apply append_nil_r.
  - assert (Hnonspace : Py.is_space c = false ->
              forall w, no_space w = true ->
                (w ++ Py.rstrip (collapse_spaces false (String c s)))%string
                = Py.join " " (Py.split_from w (String c s))).
    { intros Hc w Hw. simpl. rewrite Hc. simpl. rewrite Hc. simpl.
      rewrite <- IHw.
      - now rewrite append_assoc.
      - apply snoc_not_empty.
      - now apply no_space_snoc. }
    split.
    + intros w Hne Hw. destruct (Py.is_space c) eqn:Hc.
      * simpl. rewrite Hc. simpl. rewrite IHe.
        apply is_empty_false in Hne. rewrite Hne.
        pose proof (split_from_words s "" eq_refl) as Hws.
        rewrite (join_is_empty _ Hws).
        destruct (Py.split_from "" s) as [|w' rest] eqn:E.
        -- simpl. apply append_nil_r.
        -- reflexivity.
      * now apply Hnonspace.
    + destruct (Py.is_space c) eqn:Hc.
      * simpl. rewrite Hc. exact IHe.
      * rewrite <- (Hnonspace eq_refl "" eq_refl).
        simpl. rewrite Hc. reflexivity.
Qed.

Lemma lstrip_collapse_true (s : string) :
  Py.lstrip (collapse_spaces true s) = collapse_spaces true s.
Proof.
  induction s as [|c s IH]; [reflexivity|].
  simpl. destruct (Py.is_space c) eqn:Hc; [exact IH|].
  simpl. now rewrite Hc.
Qed.

(** Collapsing the runs of white space and stripping both ends gives the
    words of the text joined by single blanks. *)
Lemma strip_collapse (s : string) :
  Py.strip (collapse_spaces false s) = Py.join " " (Py.split s).
Proof.
  unfold Py.strip, Py.split. destruct s as [|c s]; [reflexivity|].
  destruct (collapse_join (String c s)) as [_ He].
  destruct (Py.is_space c) eqn:Hc.
  - simpl. rewrite Hc. simpl.
    rewrite lstrip_collapse_true.
    simpl in He. rewrite Hc in He. exact He.
  - rewrite <- He.
    rewrite !collapse_nonspace, lstrip_nonspace by assumption.
    reflexivity.
Qed.

(** ** The normal form of a title *)

Ltac by_all_characters c :=
  destruct c as [[] [] [] [] [] [] [] []];
  vm_compute; try reflexivity; try discriminate.

Lemma alnum_not_space (c : ascii) :
  alnum_lower c = true -> Py.is_space c = false.
Proof. by_all_characters c. Qed.

Lemma alnum_kept (c : ascii) : alnum_lower c = true -> keep_char c = true.
Proof. by_all_characters c. Qed.

Lemma alnum_is_lower (c : ascii) :
  alnum_lower c = true -> Py.lower_char c = c.
Proof. by_all_characters c. Qed.

Lemma kept_nonspace_alnum (c : ascii) :
  keep_char c = true -> Py.is_space c = false -> alnum_lower c = true.
Proof. by_all_characters c. Qed.

Lemma all_chars_append (p : ascii -> bool) (a b : string) :
  all_chars p (a ++ b) = all_chars p a && all_chars p b.
Proof.
  induction a as [|c a IH]; simpl; [reflexivity|].
  now rewrite IH, andb_assoc.
Qed.

Lemma strip_punctuation_kept (s : string) :
  all_chars keep_char (strip_punctuation s) = true.
Proof.
  induction s as [|c s IH]; simpl; [reflexivity|].
  destruct (keep_char c) eqn:E; simpl; [now rewrite E|exact IH].
Qed.

Lemma strip_punctuation_id (s : string) :
  all_chars keep_char s = true -> strip_punctuation s = s.
Proof.
  induction s as [|c s IH]; simpl; [reflexivity|].
  intros H. apply andb_prop in H as [Hc Hs].
  now rewrite Hc, IH.
Qed.

(** The words of a text of kept characters are made of lowercase letters
    and digits. *)
Lemma split_from_alnum (s : string) :
  forall w,
    all_chars alnum_lower w = true -> all_chars keep_char s = true ->
    Forall (fun w => all_chars alnum_lower w = true) (Py.split_from w s).
Proof.
  induction s as [|c s IH]; intros w Hw Hs; simpl.
  - destruct (Py.is_empty w); repeat constructor. exact Hw.
  - simpl in Hs. apply andb_prop in Hs as [Hc Hs].
    destruct (Py.is_space c) eqn:Esp.
    + destruct (Py.is_empty w).
      * now apply IH.
      * constructor; [exact Hw|now apply IH].
    + apply IH; [|exact Hs].
      rewrite all_chars_append, Hw. simpl.
      now rewrite kept_nonspace_alnum.
Qed.

Lemma alnum_no_space (w : string) :
  all_chars alnum_lower w = true -> no_space w = true.
Proof.
  induction w as [|c w IH]; simpl; [reflexivity|].
  intros H. apply andb_prop in H as [Hc Hw].
  now rewrite (alnum_not_space c Hc), IH.
Qed.

Lemma alnum_lower_id (w : string) :
  all_chars alnum_lower w = true -> Py.lower w = w.
Proof.
  induction w as [|c w IH]; simpl; [reflexivity|].
  intros H. apply andb_prop in H as [Hc Hw].
  now rewrite (alnum_is_lower c Hc), IH.
Qed.

Lemma alnum_kept_all (w : string) :
  all_chars alnum_lower w = true -> all_chars keep_char w = true.
Proof.
  induction w as [|c w IH]; simpl; [reflexivity|].
  intros H. apply andb_prop in H as [Hc Hw].
  now rewrite (alnum_kept c Hc), IH.
Qed.

Lemma lower_append (a b : string) :
  Py.lower (a ++ b) = (Py.lower a ++ Py.lower b)%string.
Proof. induction a as [|c a IH]; simpl; [reflexivity|now rewrite IH]. Qed.

Lemma join_lower_id (ws : list string) :
  Forall (fun w => all_chars alnum_lower w = true) ws ->
  Py.lower (Py.join " " ws) = Py.join " " ws.
Proof.
  induction 1 as [|w rest Hw Hrest IH]; [reflexivity|].
  destruct rest as [|w' rest']; [now apply alnum_lower_id|].
  change (Py.join " " (w :: w' :: rest'))
    with (w ++ " " ++ Py.join " " (w' :: rest'))%string.
  rewrite !lower_append, IH, (alnum_lower_id w Hw). reflexivity.
Qed.

Lemma join_kept (ws : list string) :
  Forall (fun w => all_chars alnum_lower w = true) ws ->
  all_chars keep_char (Py.join " " ws) = true.
Proof.
  induction 1 as [|w rest Hw Hrest IH]; [reflexivity|].
  destruct rest as [|w' rest']; [now apply alnum_kept_all|].
  change (Py.join " " (w :: w' :: rest'))
    with (w ++ " " ++ Py.join " " (w' :: rest'))%string.
  rewrite !all_chars_append, IH, (alnum_kept_all w Hw). reflexivity.
Qed.

Lemma normalize_as_join (title : string) :
  normalize_for_dedup title
  = Py.join " " (Py.split (strip_punctuation (Py.lower title))).
Proof. unfold normalize_for_dedup. apply strip_collapse. Qed.

Lemma normal_words (title : string) :
  Forall (fun w => all_chars alnum_lower w = true)
    (Py.split (strip_punctuation (Py.lower title))).
Proof.
  apply split_from_alnum; [reflexivity|apply strip_punctuation_kept].
Qed.

(** X3.  The normal form of a title is a list of words joined by single
    blanks, with no blank at either end; every word is not empty and made
    of the letters a to z and the digits only. *)
Theorem normalize_for_dedup_shape (title : string) :
  exists ws,
    normalize_for_dedup title = Py.join " " ws
    /\ Py.split (normalize_for_dedup title) = ws
    /\ Forall (fun w => w <> "" /\ all_chars alnum_lower w = true) ws.
Proof.
  exists (Py.split (strip_punctuation (Py.lower title))).
  rewrite normalize_as_join.
  pose proof (normal_words title) as Hal.
  pose proof (split_words (strip_punctuation (Py.lower title))) as Hws.
  split; [reflexivity|]. split.
  - now apply split_join.
  - rewrite Forall_forall in *. intros w Hw. split.
    + now apply Hws.
    + now apply Hal.
Qed.

(** X4.  Normalising is idempotent: a normal form is its own normal form,
    so the entries of the seen list compare as they were stored. *)
Theorem normalize_for_dedup_idempotent (title : string) :
  normalize_for_dedup (normalize_for_dedup title)
  = normalize_for_dedup title.
Proof.
  pose proof (normal_words title) as Hal.
  pose proof (split_words (strip_punctuation (Py.lower title))) as Hws.
  rewrite (normalize_as_join title).
  rewrite normalize_as_join.
  rewrite join_lower_id by exact Hal.
  rewrite strip_punctuation_id by now apply join_kept.
  now rewrite split_join.
Qed.

End TextProperties.

(* ================================================================== *)
(** * More on duplicate titles and on the filter loop *)
(* ================================================================== *)

Module FilterInvariants.
Import Model Settings Spec Samples Vocabulary MoreSamples NewsFilter.
Import PyFacts FilterFacts FuzzFacts.

(** ** The duplicate test *)

Lemma duplicate_as_existsb (title : string) (seen : list string)
  (threshold : Z) :
  is_duplicate_title title seen threshold
  = existsb (fun s =>
               Fuzz.at_least
                 (Fuzz.token_sort_ratio (normalize_for_dedup title) s)
                 threshold)
            seen.
Proof.
  unfold is_duplicate_title.
  induction seen as [|s rest IH]; [reflexivity|].
  simpl. rewrite IH. now destruct (Fuzz.at_least _ _).
Qed.

Lemma at_least_monotone (s : Fuzz.score) (t t' : Z) :
  (t' <= t)%Z -> Fuzz.at_least s t = true -> Fuzz.at_least s t' = true.
Proof.
  unfold Fuzz.at_least. rewrite !Qle_bool_iff. intros Ht H.
  eapply Qle_trans; [|exact H]. now rewrite <- Zle_Qle.
Qed.

(** X5.  The duplicate test is monotone: what is a duplicate against a
    seen list at a threshold stays one against any list that holds the
    same entries, in any order, and at any lower threshold. *)
Theorem duplicate_monotone (title : string) (seen seen' : list string)
  (threshold threshold' : Z) :
  incl seen seen' -> (threshold' <= threshold)%Z ->
  is_duplicate_title title seen threshold = true ->
  is_duplicate_title title seen' threshold' = true.
Proof.
  intros Hincl Ht. rewrite !duplicate_as_existsb, !existsb_exists.
  intros (s & Hin & Hs). exists s. split; [now apply Hincl|].
  now apply (at_least_monotone _ threshold).
Qed.

Lemma duplicate_monotone_witness :
  incl [normalize_for_dedup "Q3 estimates beaten by Company X"]
       ["rupee steady"; normalize_for_dedup "Q3 estimates beaten by Company X"]
  /\ (50 <= 70)%Z
  /\ is_duplicate_title "Company X Q3 beats estimates"
       ["rupee steady"; normalize_for_dedup "Q3 estimates beaten by Company X"]
       50 = true.
Proof.
  assert (Hincl :
    incl [normalize_for_dedup "Q3 estimates beaten by Company X"]
         ["rupee steady";
          normalize_for_dedup "Q3 estimates beaten by Company X"]).
  { intros x [<-|[]]. right. now left. }
  split; [exact Hincl|]. split; [lia|].
  apply (duplicate_monotone "Company X Q3 beats estimates" _ _ 70 50 Hincl).
  - lia.
  - vm_compute. reflexivity.
Defined.






(** ** Invariants of the filter loop *)

Lemma title_of_truncated (a : article) :
  title_of (truncated a) = title_of a.
Proof.
  unfold title_of. now destruct (truncated_other_fields a) as [-> _].
Qed.

Lemma ForallOrdPairs_snoc {A} (R : A -> A -> Prop) (l : list A) (x : A) :
  ForallOrdPairs R l -> Forall (fun y => R y x) l ->
  ForallOrdPairs R (l ++ [x]).
Proof.
  induction 1 as [|y l Hy Hl IH]; intros Hx; simpl.
  - repeat constructor.
  - inversion Hx; subst. constructor.
    + apply Forall_app. split; [assumption|]. now constructor.
    + now apply IH.
Qed.

Lemma ForallOrdPairs_impl_pairs {A} (R R' : A -> A -> Prop) (l : list A) :
  (forall a b, R a b -> R' a b) ->
  ForallOrdPairs R l -> ForallOrdPairs R' l.
Proof.
  intros HR. induction 1 as [|x l Hx Hl IH]; constructor.
  - eapply Forall_impl; [|exact Hx]. intros b. apply HR.
  - exact IH.
Qed.

Lemma ForallOrdPairs_map {A B} (f : A -> B) (R : B -> B -> Prop)
  (l : list A) :
  ForallOrdPairs R (map f l) ->
  ForallOrdPairs (fun a b => R (f a) (f b)) l.
Proof.
  induction l as [|x l IH]; intros H; [constructor|].
  inversion H; subst. constructor.
  - now apply Forall_map.
  - now apply IH.
Qed.

Section Loop.
Variable partial_ratio : string -> string -> Fuzz.score.
Variable now : datetime.
Variable s : stock.
Variable days_back : Z.
Variable max_articles : Z.
Variable from_sector_feed : bool.

Local Abbreviation step :=
  (filter_step partial_ratio now s days_back max_articles from_sector_feed).
Local Abbreviation loop :=
  (filter_loop partial_ratio now s days_back max_articles from_sector_feed).

Lemma not_duplicate_inv (title : string) (seen : list string) :
  is_duplicate_title title seen 70 = false ->
  Forall (fun earlier =>
            Fuzz.at_least
              (Fuzz.token_sort_ratio (normalize_for_dedup title) earlier) 70
            = false) seen.
Proof.
  rewrite duplicate_as_existsb. intros H. apply Forall_forall. intros x Hx.
  destruct (Fuzz.at_least _ _) eqn:E; [|reflexivity].
  assert (existsb (fun s0 =>
                     Fuzz.at_least
                       (Fuzz.token_sort_ratio (normalize_for_dedup title) s0)
                       70) seen = true)
    by (apply existsb_exists; now exists x).
  congruence.
Qed.

Lemma step_keeps_seen_invariant (h0 : heap) (st : fstate) (r : ref) :
  allocated h0 r -> seen_invariant h0 st ->
  seen_invariant h0 (fst (step st r)).
Proof.
  intros Hr (outs & Hh & Hf & Hs & Hp).
  unfold filter_step.
  destruct (match published (deref (st_heap st) r) with
            | Some pub => _ | None => false end);
    [now exists outs|].
  destruct (negb (is_article_relevant _ _ _ _)); [now exists outs|].
  destruct (is_duplicate_title _ _ _) eqn:Edup; [now exists outs|].
  rewrite copy_and_truncate_eq. simpl.
  rewrite Hh, deref_old in * by assumption.
  exists (outs ++ [truncated (deref h0 r)]). repeat split.
  - now rewrite app_assoc.
  - rewrite Hf, !length_app. simpl.
    rewrite Nat.add_1_r, seq_S. reflexivity.
  - rewrite Hs, map_app. simpl. now rewrite title_of_truncated.
  - apply ForallOrdPairs_snoc; [exact Hp|].
    now apply not_duplicate_inv.
Qed.

Lemma loop_keeps_seen_invariant (h0 : heap) :
  forall articles st,
    Forall (allocated h0) articles -> seen_invariant h0 st ->
    seen_invariant h0 (loop articles st).
Proof.
  induction articles as [|r rest IH]; intros st Hall Hinv; [exact Hinv|].
  inversion Hall; subst. simpl.
  pose proof (step_keeps_seen_invariant h0 st r) as Hstep.
  destruct (step st r) as [st' fl]. simpl in Hstep.
  destruct fl; [apply IH|]; auto.
Qed.

(** Every turn of the loop counts its article once, and the counter of
    kept articles follows the list. *)
Lemma step_counts (st : fstate) (r : ref) :
  total (st_stats (fst (step st r))) = total (st_stats st) + 1
  /\ kept (st_stats (fst (step st r))) + List.length (st_filtered st)
     = kept (st_stats st) + List.length (st_filtered (fst (step st r)))
  /\ (snd (step st r) = Break ->
      (max_articles
       <= Z.of_nat (List.length (st_filtered (fst (step st r)))))%Z).
Proof.
  unfold filter_step, total.
  destruct (match published (deref (st_heap st) r) with
            | Some pub => _ | None => false end);
    [simpl; repeat split; try lia; discriminate|].
  destruct (negb (is_article_relevant _ _ _ _));
    [simpl; repeat split; try lia; discriminate|].
  destruct (is_duplicate_title _ _ _);
    [simpl; repeat split; try lia; discriminate|].
  rewrite copy_and_truncate_eq. simpl. rewrite length_app. simpl.
  repeat split; try lia.
  destruct (Z.leb_spec max_articles
              (Z.of_nat (List.length (st_filtered st) + 1)));
    [lia|discriminate].
Qed.

Lemma loop_counts :
  forall articles st,
    total (st_stats (loop articles st))
    <= total (st_stats st) + List.length articles
    /\ kept (st_stats (loop articles st)) + List.length (st_filtered st)
       = kept (st_stats st) + List.length (st_filtered (loop articles st))
    /\ ((Z.of_nat (List.length (st_filtered (loop articles st)))
         < max_articles)%Z ->
        total (st_stats (loop articles st))
        = total (st_stats st) + List.length articles).
Proof.
  induction articles as [|r rest IH]; intros st.
  - simpl. repeat split; lia.
  - simpl. destruct (step_counts st r) as (Ht & Hk & Hb).
    destruct (step st r) as [st' fl]. simpl in *.
    destruct fl.
    + destruct (IH st') as (IHt & IHk & IHe).
      repeat split; try lia.
      all: intros Hlt; specialize (IHe Hlt); lia.
    + repeat split; try lia.
      all: intros Hlt; specialize (Hb eq_refl); lia.
Qed.

Lemma step_counted_once (st : fstate) (r : ref) :
  counted_once (st_stats st) (st_stats (fst (step st r))).
Proof.
  unfold filter_step, counted_once, total.
  destruct (match published (deref (st_heap st) r) with
            | Some pub => _ | None => false end);
    [simpl; repeat split; lia|].
  destruct (negb (is_article_relevant _ _ _ _));
    [simpl; repeat split; lia|].
  destruct (is_duplicate_title _ _ _);
    [simpl; repeat split; lia|].
  destruct (copy_and_truncate _ _). simpl. repeat split; lia.
Qed.

(** The counters count the turns of the loop, and the loop reads no
    further than the articles it looks at. *)
Lemma loop_looked_at :
  forall articles st,
    let n := looked_at partial_ratio now s days_back max_articles
               from_sector_feed articles st in
    total (st_stats (loop articles st)) = total (st_stats st) + n
    /\ n <= List.length articles
    /\ loop (firstn n articles) st = loop articles st
    /\ ((Z.of_nat (List.length (st_filtered (loop articles st)))
         < max_articles)%Z -> n = List.length articles)
    /\ (n < List.length articles ->
        (max_articles
         <= Z.of_nat (List.length (st_filtered (loop articles st))))%Z).
Proof.
  induction articles as [|r rest IH]; intros st; cbv zeta.
  - simpl. repeat split; lia.
  - cbn [filter_loop looked_at].
    destruct (step_counts st r) as (Ht & _ & Hb).
    destruct (step st r) as [st' fl] eqn:E. cbn [fst snd] in Ht, Hb.
    destruct fl.
    + destruct (IH st') as (H1 & H2 & H3 & H4 & H5).
      cbn [firstn filter_loop List.length]. rewrite E.
      repeat split; try lia; try exact H3; intros Hlt;
        first [specialize (H4 Hlt); lia | apply H5; lia].
    + specialize (Hb eq_refl).
      cbn [firstn filter_loop List.length]. rewrite E.
      repeat split; try lia.
Qed.

Lemma loop_trusted :
  from_sector_feed = false ->
  forall articles st,
    irrelevant (st_stats (loop articles st)) = irrelevant (st_stats st).
Proof.
  intros Hfeed. induction articles as [|r rest IH]; intros st;
    [reflexivity|].
  simpl.
  assert (Hstep : irrelevant (st_stats (fst (step st r)))
                  = irrelevant (st_stats st)).
  { unfold filter_step.
    destruct (match published (deref (st_heap st) r) with
              | Some pub => _ | None => false end); [reflexivity|].
    unfold is_article_relevant. rewrite Hfeed. cbn [negb].
    destruct (is_duplicate_title _ _ _); [reflexivity|].
    now destruct (copy_and_truncate _ _). }
  destruct (step st r) as [st' fl]. simpl in Hstep.
  destruct fl; [rewrite IH|]; exact Hstep.
Qed.

(** Once the cap is reached the loop has stopped: what follows in the
    input is not looked at. *)
Lemma loop_stops_at_cap :
  forall articles more st,
    (Z.of_nat (List.length (st_filtered st)) < max_articles)%Z ->
    (max_articles
     <= Z.of_nat (List.length (st_filtered (loop articles st))))%Z ->
    loop (articles ++ more) st = loop articles st.
Proof.
  induction articles as [|r rest IH]; intros more st Hlt Hcap.
  - simpl in Hcap. lia.
  - simpl in *.
    pose proof (filter_step_cases partial_ratio now s days_back max_articles
                  from_sector_feed st (fst (step st r)) r (snd (step st r)))
      as Hcases.
    destruct (step st r) as [st' fl]. simpl in Hcases.
    destruct fl; [|reflexivity].
    apply IH; [|exact Hcap].
    destruct (Hcases eq_refl) as [(_ & Hf & _)|(_ & _ & Hfl)].
    + now rewrite Hf.
    + destruct (Z.leb_spec max_articles
                  (Z.of_nat (List.length (st_filtered st'))));
        [discriminate|assumption].
Qed.
End Loop.

End FilterInvariants.

(* ================================================================== *)
(** * More properties of the per-holding filter *)
(* ================================================================== *)

Module FilterMoreProperties.
Import Model Settings Spec Samples Vocabulary MoreSamples NewsFilter.
Import PyFacts FilterFacts FuzzFacts FilterInvariants.

(** X7.  No two articles returned by the filter have duplicate titles: a
    returned article is never a duplicate, at the threshold 70 of the
    filter, of one returned before it. *)
Theorem kept_titles_are_told_apart
  (partial_ratio : string -> string -> Fuzz.score) (now : datetime)
  (s : stock) (days_back max_articles : Z) (from_sector_feed : bool)
  (h : heap) (articles : list ref) :
  Forall (allocated h) articles ->
  let (h', out) :=
    filter_news_for_stock partial_ratio now s days_back max_articles
      from_sector_feed h articles in
  ForallOrdPairs told_apart (map (deref h') out).
Proof.
  intros Hall. unfold filter_news_for_stock.
  destruct (loop_keeps_seen_invariant partial_ratio now s days_back
              max_articles from_sector_feed h articles (initial h) Hall)
    as (outs & Hh & Hf & Hs & Hp).
  { exists []. simpl. rewrite app_nil_r. repeat split. constructor. }
  rewrite Hh, Hf.
  assert (Hout : map (deref (h ++ outs))
                   (seq (List.length h) (List.length outs)) = outs).
  { apply (nth_ext _ _ no_article no_article).
    - now rewrite length_map, length_seq.
    - intros i Hi. rewrite length_map, length_seq in Hi.
      rewrite (nth_map_any _ _ i 0) by now rewrite length_seq.
      rewrite seq_nth by assumption. unfold deref.
      rewrite app_nth2 by lia. f_equal. lia. }
  rewrite Hout. rewrite Hs in Hp.
  apply ForallOrdPairs_map in Hp.
  eapply ForallOrdPairs_impl_pairs; [|exact Hp].
  intros a b Hab. unfold told_apart.
  rewrite duplicate_as_existsb. simpl. now rewrite Hab.
Qed.

Lemma kept_titles_are_told_apart_witness :
  Forall (allocated sample_store) sample_input
  /\ ForallOrdPairs told_apart
       (map (deref (fst (filter_news_for_stock no_fuzzy 2000%Z infy 0%Z 5%Z
                           false sample_store sample_input)))
            (snd (filter_news_for_stock no_fuzzy 2000%Z infy 0%Z 5%Z
                    false sample_store sample_input))).
Proof.
  assert (Hall : Forall (allocated sample_store) sample_input).
  { repeat constructor; unfold allocated; simpl; lia. }
  split; [exact Hall|].
  pose proof (kept_titles_are_told_apart no_fuzzy 2000%Z infy 0%Z 5%Z false
                sample_store sample_input Hall) as H.
  destruct (filter_news_for_stock no_fuzzy 2000%Z infy 0%Z 5%Z false
              sample_store sample_input) as [h' out].
  exact H.
Defined.

(** X8.  The counters of a pass add up.  Every turn of the loop raises
    exactly one of the four counters by one; so after a pass their sum is
    the number of articles looked at, and the counter of kept articles is
    the length of the list returned.  The pass reads no article beyond
    those: it looks at the whole input when it ends below the cap, and
    stops short of it only with the cap reached. *)
Theorem filter_counters_add_up
  (partial_ratio : string -> string -> Fuzz.score) (now : datetime)
  (s : stock) (days_back max_articles : Z) (from_sector_feed : bool)
  (h : heap) (articles : list ref) :
  let pass :=
    filter_loop partial_ratio now s days_back max_articles
      from_sector_feed in
  let n :=
    looked_at partial_ratio now s days_back max_articles from_sector_feed
      articles (initial h) in
  let st := pass articles (initial h) in
  (forall st0 r,
      counted_once (st_stats st0)
        (st_stats (fst (filter_step partial_ratio now s days_back
                          max_articles from_sector_feed st0 r))))
  /\ total (st_stats st) = n
  /\ kept (st_stats st) = List.length (st_filtered st)
  /\ n <= List.length articles
  /\ pass (firstn n articles) (initial h) = st
  /\ ((Z.of_nat (List.length (st_filtered st)) < max_articles)%Z ->
      n = List.length articles)
  /\ (n < List.length articles ->
      (max_articles <= Z.of_nat (List.length (st_filtered st)))%Z).
Proof.
  cbv zeta.
  destruct (loop_counts partial_ratio now s days_back max_articles
              from_sector_feed articles (initial h)) as (_ & Hk & _).
  destruct (loop_looked_at partial_ratio now s days_back max_articles
              from_sector_feed articles (initial h))
    as (Ht & Hn & Hf & He & Hc).
  split; [intros st0 r; apply step_counted_once|].
  simpl in Ht, Hk. repeat split; auto; lia.
Qed.

Lemma filter_counters_add_up_witness :
  let pass := filter_loop no_fuzzy 2000%Z infy 0%Z in
  let n_all := looked_at no_fuzzy 2000%Z infy 0%Z 5%Z false sample_input
                 (initial sample_store) in
  let n_one := looked_at no_fuzzy 2000%Z infy 0%Z 1%Z false sample_input
                 (initial sample_store) in
  ((Z.of_nat (List.length
                (st_filtered (pass 5%Z false sample_input
                                (initial sample_store)))) < 5)%Z
   /\ n_all = List.length sample_input)
  /\ (n_one < List.length sample_input
      /\ (1 <= Z.of_nat (List.length
                           (st_filtered (pass 1%Z false sample_input
                                           (initial sample_store)))))%Z).
Proof.
  cbv zeta. split.
  - assert (Hlt : (Z.of_nat
                     (List.length
                        (st_filtered
                           (filter_loop no_fuzzy 2000%Z infy 0%Z 5%Z false
                              sample_input (initial sample_store)))) < 5)%Z)
      by (vm_compute; reflexivity).
    split; [exact Hlt|].
    destruct (filter_counters_add_up no_fuzzy 2000%Z infy 0%Z 5%Z false
                sample_store sample_input) as (_ & _ & _ & _ & _ & H & _).
    exact (H Hlt).
  - assert (Hlt : looked_at no_fuzzy 2000%Z infy 0%Z 1%Z false sample_input
                    (initial sample_store) < List.length sample_input)
      by (vm_compute; lia).
    split; [exact Hlt|].
    destruct (filter_counters_add_up no_fuzzy 2000%Z infy 0%Z 1%Z false
                sample_store sample_input) as (_ & _ & _ & _ & _ & _ & H).
    exact (H Hlt).
Defined.

(** X9.  For a trusted per-holding source ([from_sector_feed] false) the
    filter drops no article as irrelevant: the counter stays at zero,
    whatever the articles, the holding and the fuzzy matcher. *)
Theorem trusted_source_never_dropped_as_irrelevant
  (partial_ratio : string -> string -> Fuzz.score) (now : datetime)
  (s : stock) (days_back max_articles : Z) (h : heap)
  (articles : list ref) :
  irrelevant
    (st_stats (filter_loop partial_ratio now s days_back max_articles false
                 articles (initial h)))
  = 0.
Proof.
  now rewrite (loop_trusted partial_ratio now s days_back max_articles
                 false eq_refl articles (initial h)).
Qed.

(** X10.  Once the cap is reached the filter stops: when a pass over
    [articles] returns as many articles as the cap (of one or more), a
    pass over [articles] followed by anything else returns the same list
    and leaves the same store. *)
Theorem filter_ignores_input_after_cap
  (partial_ratio : string -> string -> Fuzz.score) (now : datetime)
  (s : stock) (days_back max_articles : Z) (from_sector_feed : bool)
  (h : heap) (articles more : list ref) :
  (1 <= max_articles)%Z ->
  (max_articles
   <= Z.of_nat (List.length
                  (snd (filter_news_for_stock partial_ratio now s days_back
                          max_articles from_sector_feed h articles))))%Z ->
  filter_news_for_stock partial_ratio now s days_back max_articles
    from_sector_feed h (articles ++ more)
  = filter_news_for_stock partial_ratio now s days_back max_articles
      from_sector_feed h articles.
Proof.
  intros Hmax Hcap. unfold filter_news_for_stock in *. simpl in Hcap.
  rewrite loop_stops_at_cap; [reflexivity| |exact Hcap].
  simpl. lia.
Qed.

Lemma filter_ignores_input_after_cap_witness :
  (1 <= 1)%Z
  /\ filter_news_for_stock no_fuzzy 2000%Z infy 0%Z 1%Z false sample_store
       (sample_input ++ [1; 1; 0])
     = filter_news_for_stock no_fuzzy 2000%Z infy 0%Z 1%Z false sample_store
         sample_input.
Proof.
  split; [lia|].
  apply (filter_ignores_input_after_cap no_fuzzy 2000%Z infy 0%Z 1%Z false
           sample_store sample_input [1; 1; 0]).
  - lia.
  - vm_compute. discriminate.
Defined.

(** X11.  The staleness test of the filter and [is_recent] of the fetcher
    agree: at the same time and for the same window, a turn of the filter
    loop counts an article as stale exactly when [is_recent] is false for
    it. *)
Theorem staleness_agrees_with_is_recent
  (partial_ratio : string -> string -> Fuzz.score) (now : datetime)
  (s : stock) (days_back max_articles : Z) (from_sector_feed : bool)
  (st : fstate) (r : ref) :
  too_old (st_stats (fst (filter_step partial_ratio now s days_back
                            max_articles from_sector_feed st r)))
  = too_old (st_stats st)
    + (if NewsFetcher.is_recent now (deref (st_heap st) r) days_back
       then 0 else 1).
Proof.
  unfold filter_step, NewsFetcher.is_recent, cutoff.
  destruct (published (deref (st_heap st) r)) as [pub|].
  - rewrite Z.ltb_antisym.
    destruct (now - timedelta_days days_back <=? pub)%Z; cbn [negb].
    + destruct (is_article_relevant _ _ _ _); cbn [negb]; [|simpl; lia].
      destruct (is_duplicate_title _ _ _); [simpl; lia|].
      destruct (copy_and_truncate _ _). simpl. lia.
    + reflexivity.
  - destruct (is_article_relevant _ _ _ _); cbn [negb]; [|simpl; lia].
    destruct (is_duplicate_title _ _ _); [simpl; lia|].
    destruct (copy_and_truncate _ _). simpl. lia.
Qed.

End FilterMoreProperties.

(* ================================================================== *)
(** * Aliases, relevance and the filter over the portfolio *)
(* ================================================================== *)

Module AliasProperties.
Import Model Settings Spec Samples Vocabulary MoreSamples NewsFilter.
Import PyFacts FilterFacts TextProperties.

Lemma any_alias_as_existsb
  (partial_ratio : string -> string -> Fuzz.score) (text : string)
  (aliases : list string) :
  any_alias_matches partial_ratio text aliases
  = existsb (fun alias =>
               (3 <=? String.length alias)
               && (Py.contains alias text
                   || Fuzz.at_least (partial_ratio alias text)
                        FUZZY_MATCH_THRESHOLD))
            aliases.
Proof.
  induction aliases as [|alias rest IH]; [reflexivity|].
  cbn [any_alias_matches existsb]. rewrite IH.
  assert (Hempty : Py.is_empty alias = true -> String.length alias < 3).
  { destruct alias; simpl; [lia|discriminate]. }
  destruct (Nat.ltb_spec (String.length alias) 3);
    destruct (Nat.leb_spec 3 (String.length alias)); try lia.
  - rewrite orb_true_r. reflexivity.
  - destruct (Py.is_empty alias); [specialize (Hempty eq_refl); lia|].
    cbn [andb orb].
    destruct (Py.contains _ _); [reflexivity|].
    now destruct (Fuzz.at_least _ _).
Qed.

(** X12.  The relevance check over the aliases holds exactly when some
    alias of three characters or more is contained in the text or scores
    at least the threshold against it; so it does not depend on the order
    in which the set of aliases is enumerated. *)
Theorem relevance_ignores_alias_order
  (partial_ratio : string -> string -> Fuzz.score) (text : string)
  (aliases aliases' : list string) :
  (any_alias_matches partial_ratio text aliases = true <->
   exists alias,
     In alias aliases /\ 3 <= String.length alias
     /\ (Py.contains alias text = true
         \/ Fuzz.at_least (partial_ratio alias text) FUZZY_MATCH_THRESHOLD
            = true))
  /\ (Permutation aliases aliases' ->
      any_alias_matches partial_ratio text aliases
      = any_alias_matches partial_ratio text aliases').
Proof.
  assert (Hiff : forall l,
             any_alias_matches partial_ratio text l = true <->
             exists alias,
               In alias l /\ 3 <= String.length alias
               /\ (Py.contains alias text = true
                   \/ Fuzz.at_least (partial_ratio alias text)
                        FUZZY_MATCH_THRESHOLD = true)).
  { intros l. rewrite any_alias_as_existsb, existsb_exists.
    split; intros (alias & Hin & H); exists alias; (split; [exact Hin|]).
    - apply andb_prop in H as [Hlen Hm]. apply Nat.leb_le in Hlen.
      apply orb_prop in Hm. now split.
    - destruct H as [Hlen Hm]. apply andb_true_intro. split.
      + now apply Nat.leb_le.
      + destruct Hm as [-> | ->]; [reflexivity|apply orb_true_r]. }
  split; [apply Hiff|].
  intros Hperm.
  destruct (any_alias_matches partial_ratio text aliases) eqn:E.
  - symmetry. apply Hiff. apply Hiff in E as (alias & Hin & H).
    exists alias. split; [|exact H]. now apply (Permutation_in _ Hperm).
  - destruct (any_alias_matches partial_ratio text aliases') eqn:E';
      [|reflexivity].
    apply Hiff in E' as (alias & Hin & H).
    assert (any_alias_matches partial_ratio text aliases = true).
    { apply Hiff. exists alias. split; [|exact H].
      apply (Permutation_in _ (Permutation_sym Hperm)). exact Hin. }
    congruence.
Qed.

Lemma relevance_ignores_alias_order_witness :
  Permutation ["nse:infy"; "infy"; "infosys"] ["infosys"; "nse:infy"; "infy"]
  /\ any_alias_matches no_fuzzy "infosys q3 revenue up 12%"
       ["nse:infy"; "infy"; "infosys"]
     = any_alias_matches no_fuzzy "infosys q3 revenue up 12%"
         ["infosys"; "nse:infy"; "infy"].
Proof.
  assert (Hperm : Permutation ["nse:infy"; "infy"; "infosys"]
                              ["infosys"; "nse:infy"; "infy"]).
  { apply Permutation_sym.
    apply (Permutation_cons_app ["nse:infy"; "infy"] [] "infosys").
    rewrite app_nil_r. apply Permutation_refl. }
  split; [exact Hperm|].
  destruct (relevance_ignores_alias_order no_fuzzy
              "infosys q3 revenue up 12%"
              ["nse:infy"; "infy"; "infosys"]
              ["infosys"; "nse:infy"; "infy"]) as [_ H].
  exact (H Hperm).
Defined.

(** ** The alias set *)

Lemma lower_char_idempotent (c : ascii) :
  Py.lower_char (Py.lower_char c) = Py.lower_char c.
Proof. by_all_characters c. Qed.

Lemma lower_idempotent (s : string) : Py.lower (Py.lower s) = Py.lower s.
Proof.
  induction s as [|c s IH]; simpl; [reflexivity|].
  now rewrite lower_char_idempotent, IH.
Qed.

Lemma add_spec (x : string) (l : list string) :
  (NoDup l /\ Forall is_lower l) -> is_lower x ->
  (NoDup (add x l) /\ Forall is_lower (add x l))
  /\ incl l (add x l) /\ In x (add x l).
Proof.
  intros [Hnd Hlow] Hx. unfold add. repeat split.
  - now apply set_add_nodup.
  - apply Forall_forall. intros y Hy.
    apply set_add_elim in Hy as [->|Hy]; [exact Hx|].
    rewrite Forall_forall in Hlow. now apply Hlow.
  - intros y Hy. now apply set_add_intro1.
  - now apply set_add_intro2.
Qed.

Lemma fold_add_spec (xs : list string) :
  forall l,
    (NoDup l /\ Forall is_lower l) ->
    let l' := fold_left (fun acc alias => add (Py.lower alias) acc) xs l in
    (NoDup l' /\ Forall is_lower l')
    /\ incl l l'
    /\ (forall alias, In alias xs -> In (Py.lower alias) l').
Proof.
  induction xs as [|x xs IH]; intros l Hl; simpl.
  - repeat split; try apply Hl. + apply incl_refl. + intros ? [].
  - destruct (add_spec (Py.lower x) l Hl (lower_idempotent x))
      as (Hl1 & Hincl1 & Hin1).
    destruct (IH _ Hl1) as (Hl' & Hincl' & Hin').
    repeat split; try apply Hl'.
    + eapply incl_tran; eassumption.
    + intros alias [<-|Hin]; [now apply Hincl'|now apply Hin'].
Qed.

Lemma add_table_entries_spec (key : string) (l : list string) :
  (NoDup l /\ Forall is_lower l) ->
  (NoDup (add_table_entries key l)
   /\ Forall is_lower (add_table_entries key l))
  /\ incl l (add_table_entries key l)
  /\ (forall entries alias,
        Py.lookup key TICKER_ALIASES = Some entries -> In alias entries ->
        In (Py.lower alias) (add_table_entries key l)).
Proof.
  intros Hl. unfold add_table_entries.
  destruct (Py.lookup key TICKER_ALIASES) as [entries|].
  - destruct (fold_add_spec entries l Hl) as (Hl' & Hincl & Hin).
    repeat split; try apply Hl'; [exact Hincl|].
    intros entries' alias E. inversion E; subst. apply Hin.
  - repeat split; try apply Hl; [apply incl_refl|]. discriminate.
Qed.

(** X13.  The aliases of a holding form a set of lowercase texts: no alias
    occurs twice and each is its own lower case.  The set holds the lower
    case of the ticker, of the company name when there is one, and of
    every entry the alias table has for the ticker. *)
Theorem aliases_are_a_lowercase_set (s : stock) :
  let aliases := get_aliases_for_stock s in
  let t := Py.get_or (ticker s) "" in
  NoDup aliases
  /\ Forall is_lower aliases
  /\ In (Py.lower t) aliases
  /\ (forall n, name s = Some n -> n <> "" -> In (Py.lower n) aliases)
  /\ (forall entries alias,
        Py.lookup t TICKER_ALIASES = Some entries -> In alias entries ->
        In (Py.lower alias) aliases).
Proof.
  intros aliases t. subst aliases. unfold get_aliases_for_stock. fold t.
  set (tk := t) at 1 2 3 4 5.
  set (yt := Py.get_or (yahoo_ticker s) tk).
  set (nm := Py.get_or (name s) "").
  assert (H0 : NoDup (@nil string) /\ Forall is_lower (@nil string)).
  { split; constructor. }
  destruct (add_spec (Py.lower tk) [] H0 (lower_idempotent tk))
    as (H1 & _ & Hin1).
  destruct (add_spec (Py.lower yt) _ H1 (lower_idempotent yt))
    as (H2 & Hincl2 & _).
  cbn [fold_left].
  destruct (add_table_entries_spec tk _ H2) as (H3 & Hincl3 & Htab3).
  destruct (add_table_entries_spec yt _ H3) as (H4 & Hincl4 & _).
  destruct (add_table_entries_spec (Py.replace "NSE:" "" tk) _ H4)
    as (H5 & Hincl5 & _).
  destruct (add_table_entries_spec (Py.replace "BSE:" "" tk) _ H5)
    as (H6 & Hincl6 & _).
  set (a6 := add_table_entries (Py.replace "BSE:" "" tk) _) in *.
  assert (Hticker : In (Py.lower tk) a6).
  { apply Hincl6, Hincl5, Hincl4, Hincl3, Hincl2, Hin1. }
  assert (Htable : forall entries alias,
             Py.lookup tk TICKER_ALIASES = Some entries -> In alias entries ->
             In (Py.lower alias) a6).
  { intros entries alias E Hin.
    apply Hincl6, Hincl5, Hincl4. now apply (Htab3 entries). }
  destruct (Py.is_empty nm) eqn:Enm.
  - repeat split; try apply H6; try assumption.
    intros n Hn Hne. unfold nm in Enm. rewrite Hn in Enm. simpl in Enm.
    apply is_empty_true in Enm. congruence.
  - destruct (add_spec (Py.lower nm) a6 H6 (lower_idempotent nm))
      as (H7 & Hincl7 & Hin7).
    assert (Hname : forall n, name s = Some n -> In (Py.lower n)
                                                    (add (Py.lower nm) a6)).
    { intros n Hn. unfold nm. rewrite Hn. simpl.
      unfold nm in Hin7. rewrite Hn in Hin7. exact Hin7. }
    destruct (filter _ (Py.split nm)) as [|w ws].
    + repeat split; try apply H7; auto.
      intros entries alias E Hin. apply Hincl7. now apply (Htable entries).
    + destruct (add_spec (Py.lower w) _ H7 (lower_idempotent w))
        as (H8 & Hincl8 & _).
      repeat split; try apply H8; auto.
      intros entries alias E Hin.
      apply Hincl8, Hincl7. now apply (Htable entries).
Qed.

Lemma aliases_are_a_lowercase_set_witness :
  name infy = Some "Infosys Ltd" /\ "Infosys Ltd" <> ""
  /\ In (Py.lower "Infosys Ltd") (get_aliases_for_stock infy)
  /\ Py.lookup "NSE:INFY" TICKER_ALIASES = Some ["Infosys"; "Infy"]
  /\ In "Infy" ["Infosys"; "Infy"]
  /\ In (Py.lower "Infy") (get_aliases_for_stock infy).
Proof.
  destruct (aliases_are_a_lowercase_set infy) as (_ & _ & _ & Hn & Ht).
  assert (H1 : name infy = Some "Infosys Ltd") by reflexivity.
  assert (H2 : "Infosys Ltd" <> "") by discriminate.
  assert (H3 : Py.lookup "NSE:INFY" TICKER_ALIASES
               = Some ["Infosys"; "Infy"]) by reflexivity.
  assert (H4 : In "Infy" ["Infosys"; "Infy"]) by (right; now left).
  repeat split; try assumption.
  - exact (Hn _ H1 H2).
  - exact (Ht _ _ H3 H4).
Defined.

End AliasProperties.

(* ================================================================== *)
(** * The filter over the portfolio *)
(* ================================================================== *)

Module PortfolioProperties.
Import Model Settings Spec Samples Vocabulary MoreSamples NewsFilter.
Import PortfolioFilter PyFacts FilterFacts.

Lemma allocated_grows (h more : heap) (r : ref) :
  allocated h r -> allocated (h ++ more) r.
Proof. unfold allocated. rewrite length_app. lia. Qed.

Lemma portfolio_loop_spec
  (partial_ratio : string -> string -> Fuzz.score) (clock : nat -> datetime)
  (days_back : Z) :
  forall items i h,
    Forall (fun item => Forall (allocated h) (raw_articles (snd item)))
           items ->
    exists more out,
      filter_portfolio_loop partial_ratio clock days_back i items h
      = (h ++ more, out)
      /\ map fst out = map fst items
      /\ map (fun item => raw_stock (snd item)) out
         = map (fun item => raw_stock (snd item)) items
      /\ Forall (fun item =>
                   (Z.of_nat (List.length (raw_articles (snd item)))
                    <= MAX_ARTICLES_PER_STOCK)%Z) out.
Proof.
  induction items as [|[ticker data] rest IH]; intros i h Hall.
  - exists [], []. simpl. rewrite app_nil_r. repeat split. constructor.
  - inversion Hall as [|? ? Hdata Hrest]; subst. simpl in Hdata.
    cbn [filter_portfolio_loop]. unfold filter_news_for_stock.
    destruct (filter_loop_shape partial_ratio (clock i) (raw_stock data)
                days_back MAX_ARTICLES_PER_STOCK false h (raw_articles data)
                (initial h) [] Hdata) as (sub & _ & Hh & _).
    { simpl. now rewrite app_nil_r. }
    pose proof (filter_loop_cap partial_ratio (clock i) (raw_stock data)
                  days_back MAX_ARTICLES_PER_STOCK false (raw_articles data)
                  (initial h)) as Hcap.
    simpl in Hh. rewrite Hh.
    set (m1 := map (fun r => truncated (deref h r)) sub) in *.
    destruct (IH (S i) (h ++ m1)) as (more & out & Heq & Hk & Hs & Hl).
    { eapply Forall_impl; [|exact Hrest]. intros item Hitem.
      eapply Forall_impl; [|exact Hitem]. intros r. apply allocated_grows. }
    rewrite Heq.
    exists (m1 ++ more). eexists. split; [now rewrite app_assoc|].
    simpl. repeat split; try congruence.
    constructor; [|exact Hl]. simpl. apply Hcap.
    unfold MAX_ARTICLES_PER_STOCK. simpl. lia.
Qed.

(** X14.  The filter over the portfolio keeps every holding: the filtered
    map has the same tickers, in the same order, with the same holding
    records; each list of kept articles has at most
    [MAX_ARTICLES_PER_STOCK] (5) entries; and no dict that was in the store
    before the call is changed. *)
Theorem filter_portfolio_keeps_every_holding
  (partial_ratio : string -> string -> Fuzz.score) (clock : nat -> datetime)
  (days_back : Z) (raw_news : list (string * raw)) (h : heap) :
  Forall (fun item => Forall (allocated h) (raw_articles (snd item)))
         raw_news ->
  let (h', filtered_news) :=
    filter_portfolio_news partial_ratio clock days_back raw_news h in
  map fst filtered_news = map fst raw_news
  /\ map (fun item => raw_stock (snd item)) filtered_news
     = map (fun item => raw_stock (snd item)) raw_news
  /\ Forall (fun item =>
               (Z.of_nat (List.length (raw_articles (snd item))) <= 5)%Z)
            filtered_news
  /\ (forall r, allocated h r -> deref h' r = deref h r).
Proof.
  intros Hall. unfold filter_portfolio_news.
  destruct (portfolio_loop_spec partial_ratio clock days_back raw_news 0 h
              Hall) as (more & out & -> & Hk & Hs & Hl).
  repeat split; try assumption.
  intros r Hr. now apply deref_old.
Qed.

Lemma filter_portfolio_keeps_every_holding_witness :
  let raw_news :=
    [("INFY", {| raw_stock := infy; raw_articles := sample_input |});
     ("AAPL", {| raw_stock := holding "AAPL" "US" None;
                 raw_articles := [] |})] in
  Forall (fun item => Forall (allocated sample_store)
                        (raw_articles (snd item))) raw_news
  /\ map fst (snd (filter_portfolio_news no_fuzzy fixed_clock 0%Z raw_news
                     sample_store))
     = ["INFY"; "AAPL"].
Proof.
  intros raw_news.
  assert (Hall : Forall (fun item => Forall (allocated sample_store)
                                       (raw_articles (snd item))) raw_news).
  { repeat constructor; unfold allocated; simpl; lia. }
  split; [exact Hall|].
  pose proof (filter_portfolio_keeps_every_holding no_fuzzy fixed_clock 0%Z
                raw_news sample_store Hall) as H.
  destruct (filter_portfolio_news no_fuzzy fixed_clock 0%Z raw_news
              sample_store) as [h' out].
  destruct H as (Hk & _). exact Hk.
Defined.

End PortfolioProperties.

(* ================================================================== *)
(** * The fetchers *)
(* ================================================================== *)

Module FetcherFacts.
Import Model Settings Spec Samples Vocabulary MoreSamples Fetcher.
Import PyFacts FilterFacts.

Lemma subseq_refl {A} (l : list A) : subseq l l.
Proof. induction l; constructor; assumption. Qed.

Lemma subseq_trans {A} (l1 l2 l3 : list A) :
  subseq l1 l2 -> subseq l2 l3 -> subseq l1 l3.
Proof.
  intros H12 H23. revert l1 H12.
  induction H23 as [|x l2 l3 H IH|x l2 l3 H IH]; intros l1 H12.
  - exact H12.
  - constructor. now apply IH.
  - inversion H12; subst.
    + constructor. now apply IH.
    + apply subseq_take. now apply IH.
Qed.

Lemma subseq_firstn {A} (n : nat) (l : list A) : subseq (firstn n l) l.
Proof.
  revert l. induction n as [|n IH]; intros l; simpl.
  - apply subseq_nil_l.
  - destruct l; [constructor|]. apply subseq_take, IH.
Qed.

Lemma subseq_In {A} (l1 l2 : list A) (x : A) :
  subseq l1 l2 -> In x l1 -> In x l2.
Proof.
  induction 1 as [|y l1 l2 H IH|y l1 l2 H IH]; intros Hin.
  - exact Hin.
  - right. now apply IH.
  - destruct Hin as [->|Hin]; [now left|right; now apply IH].
Qed.

Lemma subseq_Forall {A} (P : A -> Prop) (l1 l2 : list A) :
  subseq l1 l2 -> Forall P l2 -> Forall P l1.
Proof.
  intros Hs H. rewrite Forall_forall in *. intros x Hx.
  apply H. eapply subseq_In; eassumption.
Qed.

Lemma subseq_map {A B} (f : A -> B) (l1 l2 : list A) :
  subseq l1 l2 -> subseq (map f l1) (map f l2).
Proof. induction 1; simpl; constructor; assumption. Qed.

Lemma subseq_NoDup {A} (l1 l2 : list A) :
  subseq l1 l2 -> NoDup l2 -> NoDup l1.
Proof.
  induction 1 as [|y l1 l2 H IH|y l1 l2 H IH]; intros Hnd.
  - exact Hnd.
  - inversion Hnd; subst. now apply IH.
  - inversion Hnd; subst. constructor; [|now apply IH].
    intros Hin. eapply subseq_In in Hin; eauto.
Qed.

Lemma subseq_slice_to {A} (k : Z) (l : list A) : subseq (Py.slice_to k l) l.
Proof.
  unfold Py.slice_to. destruct (0 <=? k)%Z; apply subseq_firstn.
Qed.

Lemma length_slice_to_5 {A} (l : list A) :
  List.length (Py.slice_to MAX_ARTICLES_PER_STOCK l) <= 5.
Proof.
  pose proof (length_slice_to MAX_ARTICLES_PER_STOCK l) as H.
  unfold MAX_ARTICLES_PER_STOCK in *. simpl in H. lia.
Qed.

(** ** The recency filters *)

Lemma recent_only_spec (clock : nat -> datetime) (days_back : Z) :
  forall articles k,
    subseq (recent_only clock days_back k articles) articles
    /\ Forall (recent_at_some clock days_back)
         (recent_only clock days_back k articles).
Proof.
  induction articles as [|a rest IH]; intros k; simpl.
  - split; constructor.
  - destruct (IH (S k)) as [Hs Hr].
    destruct (NewsFetcher.is_recent (clock k) a days_back) eqn:E.
    + split; [now apply subseq_take|].
      constructor; [now exists k|exact Hr].
    + split; [now constructor|exact Hr].
Qed.

Lemma existsb_eqb_false (x : string) (l : list string) :
  existsb (String.eqb x) l = false -> ~ In x l.
Proof.
  intros H Hin.
  assert (existsb (String.eqb x) l = true).
  { apply existsb_exists. exists x. split; [exact Hin|apply String.eqb_refl]. }
  congruence.
Qed.

Lemma unique_recent_loop_spec (clock : nat -> datetime) (days_back : Z) :
  forall articles k seen kept,
    unique_recent_loop clock days_back k seen articles = Returned kept ->
    subseq kept articles
    /\ Forall (recent_at_some clock days_back) kept
    /\ NoDup (map title_key kept)
    /\ Forall (fun a => ~ In (title_key a) seen) kept.
Proof.
  induction articles as [|a rest IH]; intros k seen kept E;
    cbn [unique_recent_loop] in E; cbv zeta in E.
  - inversion E; subst. repeat split; constructor.
  - destruct (NewsFetcher.is_recent (clock k) a days_back) eqn:Erec;
      cbn [negb] in E.
    2:{ apply IH in E as (Hs & Hr & Hn & Hf).
        repeat split; try assumption. now constructor. }
    destruct (title a) as [t|] eqn:Et; [|discriminate].
    assert (Hkey : title_key a = first_chars 60 (Py.lower t)).
    { unfold title_key, title_of. now rewrite Et. }
    destruct (existsb _ seen) eqn:Eseen.
    + apply IH in E as (Hs & Hr & Hn & Hf).
      repeat split; try assumption. now constructor.
    + destruct (unique_recent_loop clock days_back (S k) _ rest)
        as [kept'|key] eqn:E'; [|discriminate].
      inversion E; subst.
      apply IH in E' as (Hs & Hr & Hn & Hf).
      rewrite <- Hkey in *.
      repeat split.
      * now apply subseq_take.
      * constructor; [now exists k|exact Hr].
      * simpl. constructor; [|exact Hn].
        intros Hin. apply in_map_iff in Hin as (b & Hb & Hbin).
        rewrite Forall_forall in Hf. apply (Hf b Hbin).
        left. now symmetry.
      * constructor.
        -- now apply existsb_eqb_false.
        -- eapply Forall_impl; [|exact Hf].
           intros b Hb Hin. apply Hb. now right.
Qed.

Lemma us_fetch_spec (fetch_rss_feed : string -> list article)
  (clock : nat -> datetime) (s : stock) (days_back : Z) (t : string) :
  yahoo_ticker s = Some t ->
  exists l,
    fetch_news_for_us_stock fetch_rss_feed clock s days_back = Returned l
    /\ List.length l <= 5
    /\ subseq l (fetch_rss_feed (YAHOO_RSS_URL t))
    /\ Forall (recent_at_some clock days_back) l.
Proof.
  intros Ht. unfold fetch_news_for_us_stock. rewrite Ht.
  destruct (recent_only_spec clock days_back
              (fetch_rss_feed (YAHOO_RSS_URL t)) 0) as [Hs Hr].
  eexists. split; [reflexivity|]. repeat split.
  - apply length_slice_to_5.
  - eapply subseq_trans; [apply subseq_slice_to|exact Hs].
  - eapply subseq_Forall; [apply subseq_slice_to|exact Hr].
Qed.

Lemma us_fetch_returns_recent_feed_articles_helper
  (fetch_rss_feed : string -> list article) (clock : nat -> datetime)
  (s : stock) (days_back : Z) (l : list article) :
  fetch_news_for_us_stock fetch_rss_feed clock s days_back = Returned l ->
  List.length l <= 5.
Proof.
  unfold fetch_news_for_us_stock.
  destruct (yahoo_ticker s); [|discriminate].
  intros E. inversion E; subst. apply length_slice_to_5.
Qed.

Lemma indian_fetch_spec (fetch_rss_feed : string -> list article)
  (clock : nat -> datetime) (s : stock) (days_back : Z)
  (l : list article) :
  fetch_news_for_indian_stock fetch_rss_feed clock s days_back = Returned l ->
  List.length l <= 5
  /\ NoDup (map title_key l)
  /\ Forall (recent_at_some clock days_back) l
  /\ exists t, yahoo_ticker s = Some t
               /\ subseq l (gather_indian fetch_rss_feed s t).
Proof.
  unfold fetch_news_for_indian_stock.
  destruct (yahoo_ticker s) as [t|]; [|discriminate].
  destruct (unique_recent_loop clock days_back 0 [] _) as [kept|key] eqn:E;
    [|discriminate].
  intros H. inversion H; subst.
  apply unique_recent_loop_spec in E as (Hs & Hr & Hn & _).
  repeat split.
  - apply length_slice_to_5.
  - eapply subseq_NoDup; [|exact Hn]. apply subseq_map, subseq_slice_to.
  - eapply subseq_Forall; [apply subseq_slice_to|exact Hr].
  - exists t. split; [reflexivity|].
    eapply subseq_trans; [apply subseq_slice_to|exact Hs].
Qed.

(** ** The news map *)

Lemma dict_set_keys {V} (d : list (string * V)) (k : string) (v : V)
  (k' : string) :
  In k' (map fst (dict_set d k v)) <-> k' = k \/ In k' (map fst d).
Proof.
  induction d as [|[k0 v0] d IH]; simpl.
  - intuition.
  - destruct (String.eqb_spec k k0) as [->|Hne]; simpl.
    + intuition.
    + rewrite IH. intuition.
Qed.

Lemma dict_set_Forall {V} (P : string * V -> Prop) (d : list (string * V))
  (k : string) (v : V) :
  Forall P d -> P (k, v) -> Forall P (dict_set d k v).
Proof.
  intros Hd Hv. induction Hd as [|[k0 v0] d H0 Hd IH]; simpl.
  - now constructor.
  - destruct (String.eqb k k0); constructor; assumption.
Qed.

Lemma of_market_spec (m : string) (portfolio : list stock) :
  Forall (fun s => market s <> None) portfolio ->
  exists l,
    of_market m portfolio = Returned l
    /\ forall s, In s l <-> In s portfolio /\ market s = Some m.
Proof.
  induction 1 as [|s rest Hs Hrest (l & IHeq & IHin)]; simpl.
  - exists []. split; [reflexivity|]. simpl. intuition.
  - destruct (market s) as [mk|] eqn:Em; [|congruence].
    rewrite IHeq. eexists. split; [reflexivity|].
    intros s'. destruct (String.eqb_spec mk m) as [->|Hne]; simpl;
      rewrite IHin.
    + split.
      * intros [<-|[Hin Hm]]; auto.
      * intros [[<-|Hin] Hm]; auto.
    + split.
      * intros [Hin Hm]; auto.
      * intros [[<-|Hin] Hm]; [congruence|auto].
Qed.

Lemma fetch_all_spec (fetch_article_body : string -> string)
  (fetch : nat -> stock -> outcome (list article)) (fetch_bodies : bool) :
  (forall i s l, fetch i s = Returned l -> List.length l <= 5) ->
  forall stocks i results,
    Forall (fun s => ticker s <> None) stocks ->
    Forall short_list results ->
    exists results',
      fetch_all fetch_article_body fetch fetch_bodies i stocks results
      = Returned results'
      /\ Forall short_list results'
      /\ forall t,
           In t (map fst results') <->
           In t (map fst results)
           \/ exists s, In s stocks /\ ticker s = Some t.
Proof.
  intros Hfetch. induction stocks as [|s rest IH]; intros i results Hall Hres.
  - exists results. simpl. repeat split; try assumption.
    + now left.
    + intros [H|(s & [] & _)]. exact H.
  - inversion Hall as [|? ? Hs Hrest]; subst.
    cbn [fetch_all]. unfold fetch_into.
    destruct (ticker s) as [t0|] eqn:Et; [|congruence].
    assert (Hnext : exists results1,
              match fetch i s with
              | Returned articles =>
                  Returned (dict_set results t0
                    {| e_stock := s;
                       e_articles :=
                         if fetch_bodies
                         then map (with_body fetch_article_body) articles
                         else articles |})
              | KeyError _ =>
                  Returned (dict_set results t0
                              {| e_stock := s; e_articles := [] |})
              end = Returned results1
              /\ Forall short_list results1
              /\ forall t, In t (map fst results1) <->
                           t = t0 \/ In t (map fst results)).
    { destruct (fetch i s) as [articles|key] eqn:Ef.
      - eexists. split; [reflexivity|]. split.
        + apply dict_set_Forall; [exact Hres|].
          unfold short_list. simpl.
          destruct fetch_bodies; [rewrite length_map|]; eauto.
        + intros t. apply dict_set_keys.
      - eexists. split; [reflexivity|]. split.
        + apply dict_set_Forall; [exact Hres|].
          unfold short_list. simpl. lia.
        + intros t. apply dict_set_keys. }
    destruct Hnext as (results1 & -> & Hshort1 & Hkeys1).
    destruct (IH (S i) results1 Hrest Hshort1) as (results' & -> & Hs' & Hk').
    exists results'. repeat split; try assumption.
    + intros Hin. apply Hk' in Hin as [Hin|(s' & Hin & Ht)].
      * apply Hkeys1 in Hin as [->|Hin]; [|now left].
        right. exists s. split; [now left|exact Et].
      * right. exists s'. split; [now right|exact Ht].
    + intros [Hin|(s' & [<-|Hin] & Ht)]; apply Hk'.
      * left. apply Hkeys1. now right.
      * left. apply Hkeys1. left. congruence.
      * right. now exists s'.
Qed.

End FetcherFacts.

Module FetcherProperties.
Import Model Settings Spec Samples Vocabulary MoreSamples Fetcher.
Import PyFacts FilterFacts FetcherFacts.

(** X15.  The fetcher for a US holding fails with a [KeyError] when the
    holding has no Yahoo ticker.  Otherwise it returns at most 5 articles,
    all taken from the feed of that ticker in the order of the feed, and
    each found recent when it was tested. *)
Theorem us_fetch_returns_recent_feed_articles
  (fetch_rss_feed : string -> list article) (clock : nat -> datetime)
  (s : stock) (days_back : Z) :
  match fetch_news_for_us_stock fetch_rss_feed clock s days_back with
  | KeyError key => yahoo_ticker s = None /\ key = "yahoo_ticker"
  | Returned l =>
      exists t,
        yahoo_ticker s = Some t
        /\ List.length l <= 5
        /\ subseq l (fetch_rss_feed (YAHOO_RSS_URL t))
        /\ Forall (recent_at_some clock days_back) l
  end.
Proof.
  destruct (yahoo_ticker s) as [t|] eqn:Et.
  - destruct (us_fetch_spec fetch_rss_feed clock s days_back t Et)
      as (l & -> & H).
    now exists t.
  - unfold fetch_news_for_us_stock. rewrite Et. now split.
Qed.

(** X16.  What the fetcher for an Indian holding returns has at most 5
    articles, each found recent when it was tested, taken in order from
    the gathered feeds, and no two of them share a title key (the first 60
    characters of the title in lower case). *)
Theorem indian_fetch_returns_distinct_recent_articles
  (fetch_rss_feed : string -> list article) (clock : nat -> datetime)
  (s : stock) (days_back : Z) (l : list article) :
  fetch_news_for_indian_stock fetch_rss_feed clock s days_back = Returned l ->
  List.length l <= 5
  /\ NoDup (map title_key l)
  /\ Forall (recent_at_some clock days_back) l
  /\ exists t, yahoo_ticker s = Some t
               /\ subseq l (gather_indian fetch_rss_feed s t).
Proof. apply indian_fetch_spec. Qed.

Lemma indian_fetch_returns_distinct_recent_articles_witness :
  fetch_news_for_indian_stock three_feed fixed_clock infy 0%Z
  = Returned [titled "Infosys wins deal" None]
  /\ NoDup (map title_key [titled "Infosys wins deal" None]).
Proof.
  assert (H : fetch_news_for_indian_stock three_feed fixed_clock infy 0%Z
              = Returned [titled "Infosys wins deal" None])
    by (vm_compute; reflexivity).
  split; [exact H|].
  apply (indian_fetch_returns_distinct_recent_articles three_feed fixed_clock
           infy 0%Z _ H).
Defined.

(** X17.  When the Yahoo feed with the NSE suffix holds two articles or
    more, the fetcher for an Indian holding uses nothing else: two worlds
    that agree on that one feed give the same result, whatever the plain
    ticker feed and the sector feed hold. *)
Theorem indian_fetch_prefers_the_suffixed_feed
  (feed feed' : string -> list article) (clock : nat -> datetime)
  (s : stock) (days_back : Z) (t : string) :
  yahoo_ticker s = Some t ->
  feed (YAHOO_RSS_URL (t ++ YAHOO_NSE_SUFFIX))
  = feed' (YAHOO_RSS_URL (t ++ YAHOO_NSE_SUFFIX)) ->
  2 <= List.length (feed (YAHOO_RSS_URL (t ++ YAHOO_NSE_SUFFIX))) ->
  fetch_news_for_indian_stock feed clock s days_back
  = fetch_news_for_indian_stock feed' clock s days_back.
Proof.
  intros Ht Hsame Hlen. unfold fetch_news_for_indian_stock. rewrite Ht.
  assert (Hg : gather_indian feed s t = gather_indian feed' s t).
  { unfold gather_indian. rewrite <- Hsame.
    destruct (Nat.ltb_spec
                (List.length (feed (YAHOO_RSS_URL (t ++ YAHOO_NSE_SUFFIX))))
                2) as [Hlt|_]; [lia|].
    destruct (Nat.ltb_spec
                (List.length (feed (YAHOO_RSS_URL (t ++ YAHOO_NSE_SUFFIX))))
                2) as [Hlt|_]; [lia|reflexivity]. }
  now rewrite Hg.
Qed.

Lemma indian_fetch_prefers_the_suffixed_feed_witness :
  yahoo_ticker infy = Some "INFY"
  /\ 2 <= List.length (three_feed (YAHOO_RSS_URL ("INFY" ++ YAHOO_NSE_SUFFIX)))
  /\ fetch_news_for_indian_stock three_feed fixed_clock infy 1%Z
     = fetch_news_for_indian_stock
         (fun url =>
            if String.eqb url (YAHOO_RSS_URL ("INFY" ++ YAHOO_NSE_SUFFIX))
            then three_feed url else [])
         fixed_clock infy 1%Z.
Proof.
  split; [reflexivity|]. split; [simpl; lia|].
  apply (indian_fetch_prefers_the_suffixed_feed three_feed _ fixed_clock
           infy 1%Z "INFY").
  - reflexivity.
  - reflexivity.
  - simpl. lia.
Defined.

Lemma contains_empty (text : string) : Py.contains "" text = true.
Proof. destruct text; reflexivity. Qed.

Lemma filter_all {A} (p : A -> bool) (l : list A) :
  (forall x, p x = true) -> filter p l = l.
Proof.
  intros Hp. induction l as [|x l IH]; simpl; [reflexivity|].
  now rewrite Hp, IH.
Qed.

(** X18.  The keyword filter of the sector strategy lets everything
    through for a holding without a company name: the empty name is one of
    the keywords and is contained in every text.  So when the two Yahoo
    feeds hold fewer than two articles together and the sector has a feed,
    the whole sector feed is gathered. *)
Theorem nameless_holding_gathers_the_whole_sector_feed
  (feed : string -> list article) (s : stock) (t sector_url : string) :
  Py.get_or (name s) "" = "" ->
  List.length (feed (YAHOO_RSS_URL (t ++ YAHOO_NSE_SUFFIX))
               ++ feed (YAHOO_RSS_URL t)) < 2 ->
  Py.lookup (Py.get_or (sector s) "") INDIAN_SECTOR_RSS = Some sector_url ->
  gather_indian feed s t
  = feed (YAHOO_RSS_URL (t ++ YAHOO_NSE_SUFFIX)) ++ feed (YAHOO_RSS_URL t)
    ++ feed sector_url.
Proof.
  intros Hname Hlen Hsector. unfold gather_indian.
  rewrite Hname, Hsector. rewrite length_app in Hlen.
  destruct (Nat.ltb_spec
              (List.length (feed (YAHOO_RSS_URL (t ++ YAHOO_NSE_SUFFIX)))) 2)
    as [_|Hge]; [|lia].
  destruct (Nat.ltb_spec
              (List.length (feed (YAHOO_RSS_URL (t ++ YAHOO_NSE_SUFFIX))
                            ++ feed (YAHOO_RSS_URL t))) 2)
    as [_|Hge]; [|rewrite length_app in Hge; lia].
  rewrite filter_all.
  - now rewrite app_assoc.
  - intros a. unfold sector_keywords. cbn [app existsb Py.lower].
    now rewrite contains_empty.
Qed.

Lemma nameless_holding_gathers_the_whole_sector_feed_witness :
  let s := {| ticker := Some "WIPRO"; yahoo_ticker := Some "WIPRO";
              name := None; market := Some "IN"; sector := Some "IT";
              gain_pct := None; profit_inr := None;
              invested_inr := None |} in
  let feed := fun url =>
    if String.eqb url
         "https://economictimes.indiatimes.com/tech/information-tech/rssfeeds/13357270.cms"
    then three_feed url else [] in
  Py.get_or (name s) "" = ""
  /\ gather_indian feed s "WIPRO" = three_feed "".
Proof.
  intros s feed. split; [reflexivity|].
  rewrite (nameless_holding_gathers_the_whole_sector_feed feed s "WIPRO"
             "https://economictimes.indiatimes.com/tech/information-tech/rssfeeds/13357270.cms");
    try reflexivity.
  simpl. lia.
Defined.

(** X19.  For a portfolio whose holdings all have a ticker and a market,
    the fetch over the portfolio does not fail, whatever the feeds do.  The
    news map has an entry exactly for the tickers of the holdings of the
    markets IN and US, so a holding of any other market is left out; and
    every entry has at most 5 articles. *)
Theorem portfolio_fetch_covers_the_served_holdings
  (fetch_rss_feed : string -> list article)
  (fetch_article_body : string -> string) (clock : nat -> nat -> datetime)
  (portfolio : list stock) (days_back : Z) (fetch_bodies : bool) :
  Forall (fun s => ticker s <> None /\ market s <> None) portfolio ->
  exists results,
    fetch_news_for_portfolio fetch_rss_feed fetch_article_body clock
      portfolio days_back fetch_bodies = Returned results
    /\ (forall t,
          In t (map fst results) <->
          exists s, In s portfolio /\ ticker s = Some t /\ served s)
    /\ Forall short_list results.
Proof.
  intros Hall.
  assert (Hm : Forall (fun s => market s <> None) portfolio).
  { eapply Forall_impl; [|exact Hall]. now intros s [_ H]. }
  assert (Ht : forall l, (forall s, In s l -> In s portfolio) ->
                         Forall (fun s => ticker s <> None) l).
  { intros l Hl. apply Forall_forall. intros s Hs.
    rewrite Forall_forall in Hall. now apply (Hall s (Hl s Hs)). }
  unfold fetch_news_for_portfolio.
  destruct (of_market_spec "IN" portfolio Hm) as (indian & -> & Hin).
  destruct (of_market_spec "US" portfolio Hm) as (us & -> & Hus).
  destruct (fetch_all_spec fetch_article_body
              (fun i s => fetch_news_for_us_stock fetch_rss_feed (clock i) s
                            days_back)
              fetch_bodies) with (stocks := us) (i := 0)
              (results := @nil (string * entry))
    as (r1 & -> & Hs1 & Hk1).
  { intros i s l E.
    pose proof (us_fetch_returns_recent_feed_articles_helper
                  fetch_rss_feed (clock i) s days_back l E). assumption. }
  { apply Ht. intros s Hs. now apply Hus in Hs. }
  { constructor. }
  destruct (fetch_all_spec fetch_article_body
              (fun i s => fetch_news_for_indian_stock fetch_rss_feed
                            (clock i) s days_back)
              fetch_bodies) with (stocks := indian) (i := List.length us)
              (results := r1)
    as (r2 & -> & Hs2 & Hk2).
  { intros i s l E. now apply indian_fetch_spec in E. }
  { apply Ht. intros s Hs. now apply Hin in Hs. }
  { exact Hs1. }
  exists r2. split; [reflexivity|]. split; [|exact Hs2].
  intros t. rewrite Hk2, Hk1. simpl. split.
  - intros [[[]|(s & Hs & Hts)]|(s & Hs & Hts)].
    + apply Hus in Hs as [Hs Hmk]. exists s. repeat split; auto.
      now right.
    + apply Hin in Hs as [Hs Hmk]. exists s. repeat split; auto.
      now left.
  - intros (s & Hs & Hts & [Hmk|Hmk]).
    + right. exists s. split; [|exact Hts]. apply Hin. now split.
    + left. right. exists s. split; [|exact Hts]. apply Hus. now split.
Qed.

Lemma portfolio_fetch_covers_the_served_holdings_witness :
  let portfolio :=
    [infy; holding "AAPL" "US" None; holding "SAP" "DE" None] in
  Forall (fun s => ticker s <> None /\ market s <> None) portfolio
  /\ exists results,
       fetch_news_for_portfolio three_feed no_body (fun _ => fixed_clock)
         portfolio 0%Z true = Returned results
       /\ (forall t,
             In t (map fst results) <->
             exists s, In s portfolio /\ ticker s = Some t /\ served s)
       /\ Forall short_list results.
Proof.
  intros portfolio.
  assert (Hall : Forall (fun s => ticker s <> None /\ market s <> None)
                   portfolio).
  { repeat constructor; discriminate. }
  split; [exact Hall|].
  apply (portfolio_fetch_covers_the_served_holdings three_feed no_body
           (fun _ => fixed_clock) portfolio 0%Z true Hall).
Defined.

(** The holding of the market DE is not in the news map. *)
Example unserved_holding_is_left_out :
  fetch_news_for_portfolio three_feed no_body (fun _ => fixed_clock)
    [infy; holding "AAPL" "US" None; holding "SAP" "DE" None] 0%Z false
  = Returned
      [("AAPL", {| e_stock := holding "AAPL" "US" None;
                   e_articles := [titled "Infosys wins deal" None;
                                  titled "INFOSYS WINS DEAL" None] |});
       ("NSE:INFY", {| e_stock := infy;
                       e_articles := [titled "Infosys wins deal" None] |})].
Proof. vm_compute. reflexivity. Qed.

End FetcherProperties.

(* ================================================================== *)
(** * More on the retry and fallback controller *)
(* ================================================================== *)

Module ControllerMoreFacts.
Import Model Settings Spec Samples Vocabulary MoreSamples GeminiAnalyzer.
Import ControllerFacts.

Lemma total_sleep_app (a b : list event) :
  total_sleep (a ++ b) = (total_sleep a + total_sleep b)%Z.
Proof.
  induction a as [|ev a IH]; simpl; [reflexivity|].
  destruct ev; rewrite IH; lia.
Qed.

Lemma switches_app (a b : list event) :
  switches (a ++ b) = switches a + switches b.
Proof.
  induction a as [|ev a IH]; simpl; [reflexivity|].
  destruct ev; rewrite IH; lia.
Qed.

(** What sleeping adds to the trace, exactly. *)
Lemma sleep_all_exact (l : list Z) :
  forall st,
    sleep_all l st
    = (Ret tt, {| active_model_name := active_model_name st;
                  requests := requests st;
                  trace := trace st
                           ++ map (fun r => Slept (Z.min 5 r)) l |}).
Proof.
  induction l as [|r l IH]; intros st.
  - simpl. unfold ret. now rewrite app_nil_r, gstate_eta.
  - simpl. unfold bind, sleep, log. rewrite IH. simpl.
    now rewrite <- app_assoc.
Qed.

Lemma slept_no_switch (l : list Z) :
  switches (map (fun r => Slept (Z.min 5 r)) l) = 0.
Proof. induction l; simpl; auto. Qed.

Lemma countdown_go_total (fuel : nat) :
  forall i,
    (i <= Z.of_nat fuel)%Z ->
    total_sleep (map (fun r => Slept (Z.min 5 r)) (Py.countdown_go fuel i 5))
    = Z.max 0 i.
Proof.
  induction fuel as [|f IH]; intros i Hi; simpl.
  - lia.
  - destruct (Z.ltb_spec 0 i); simpl; [|lia].
    rewrite IH by lia. lia.
Qed.

Lemma countdown_total (d : Z) :
  total_sleep (map (fun r => Slept (Z.min 5 r)) (Py.countdown d 5))
  = Z.max 0 d.
Proof.
  unfold Py.countdown. destruct (Z.le_gt_cases 0 d).
  - apply countdown_go_total. lia.
  - replace (Z.to_nat d) with 0 by lia. simpl. lia.
Qed.

Lemma countdown_go_chunks (fuel : nat) :
  forall i, Forall (fun r => (0 < Z.min 5 r <= 5)%Z)
              (Py.countdown_go fuel i 5).
Proof.
  induction fuel as [|f IH]; intros i; simpl; [constructor|].
  destruct (Z.ltb_spec 0 i); constructor; [lia|apply IH].
Qed.

(** ** The suggested delay *)

Lemma int_of_digits_nonneg (s : string) :
  forall acc, (0 <= acc)%Z -> (0 <= Py.int_of_digits acc s)%Z.
Proof.
  induction s as [|c s IH]; intros acc Hacc; cbn [Py.int_of_digits];
    [exact Hacc|].
  apply IH. unfold Py.digit_val. lia.
Qed.

Lemma digits_at_nonneg (s : string) (v : Z) :
  digits_at s = Some v -> (0 <= v)%Z.
Proof.
  unfold digits_at. destruct (Py.is_empty _); [discriminate|].
  intros E. inversion E. apply int_of_digits_nonneg. lia.
Qed.

Lemma re_search_nonneg (pattern : string -> option Z) :
  (forall s v, pattern s = Some v -> (0 <= v)%Z) ->
  forall s v, re_search pattern s = Some v -> (0 <= v)%Z.
Proof.
  intros Hp. induction s as [|c s IH]; intros v; simpl.
  - destruct (pattern "") eqn:E; [|discriminate].
    intros E'. inversion E'; subst. eapply Hp; eassumption.
  - destruct (pattern (String c s)) eqn:E.
    + intros E'. inversion E'; subst. eapply Hp; eassumption.
    + apply IH.
Qed.

Lemma match_retry_delay_nonneg (s : string) (v : Z) :
  match_retry_delay s = Some v -> (0 <= v)%Z.
Proof.
  unfold match_retry_delay.
  destruct (strip_prefix "retry_delay" s); [|discriminate].
  destruct (strip_prefix "{" _); [|discriminate].
  destruct (strip_prefix "seconds:" _); [|discriminate].
  apply digits_at_nonneg.
Qed.

Lemma match_please_retry_nonneg (s : string) (v : Z) :
  match_please_retry s = Some v -> (0 <= v)%Z.
Proof.
  unfold match_please_retry.
  destruct (strip_prefix "Please retry in " s); [|discriminate].
  apply digits_at_nonneg.
Qed.

Lemma retry_delay_at_least_2 (error_str : string) :
  (2 <= get_retry_delay_from_error error_str)%Z.
Proof.
  unfold get_retry_delay_from_error.
  destruct (re_search match_retry_delay error_str) as [v|] eqn:E1.
  - apply (re_search_nonneg _ match_retry_delay_nonneg) in E1. lia.
  - destruct (re_search match_please_retry error_str) as [v|] eqn:E2.
    + apply (re_search_nonneg _ match_please_retry_nonneg) in E2. lia.
    + lia.
Qed.

(** ** The text of the daily quota *)

Lemma prefix_app_contains (a b : string) :
  forall s, prefix (a ++ b) s = true -> Py.contains b s = true.
Proof.
  induction a as [|c a IH]; intros s H.
  - change (prefix b s = true) in H.
    destruct s; cbn [Py.contains]; now rewrite H.
  - destruct s as [|c' s]; [discriminate|].
    simpl in H. destruct (ascii_dec c c'); [|discriminate].
    cbn [Py.contains]. rewrite (IH s H). apply orb_true_r.
Qed.

Lemma contains_app_contains (a b : string) :
  forall s, Py.contains (a ++ b) s = true -> Py.contains b s = true.
Proof.
  induction s as [|c s IH]; intros H.
  - cbn [Py.contains] in H. rewrite orb_false_r in H.
    now apply (prefix_app_contains a).
  - cbn [Py.contains] in H. apply orb_prop in H as [H|H].
    + now apply (prefix_app_contains a).
    + cbn [Py.contains]. rewrite (IH H). apply orb_true_r.
Qed.

Lemma no_per_day (error_str : string) :
  Py.contains "PerDay" error_str = false ->
  Py.contains "PerDay" error_str
  || Py.contains "GenerateRequestsPerDay" error_str = false.
Proof.
  intros H. rewrite H. simpl.
  destruct (Py.contains "GenerateRequestsPerDay" error_str) eqn:E;
    [|reflexivity].
  apply (contains_app_contains "GenerateRequests" "PerDay") in E.
  congruence.
Qed.

End ControllerMoreFacts.

Module ControllerMoreLemmas.
Import Model Settings Spec Samples Vocabulary MoreSamples GeminiAnalyzer.
Import ControllerFacts ControllerMoreFacts.

(** With the key set, the loop returns, and what it returns is the
    stripped text of an answer to the prompt, or the empty text with
    failure. *)
Lemma retry_loop_total (e : env) (prompt : string) :
  GEMINI_API_KEY e = true ->
  forall attempts st,
    exists text success st',
      retry_loop e prompt attempts st = (Ret (text, success), st')
      /\ requests st <= requests st'
      /\ (success = false -> text = "")
      /\ (success = true ->
          exists n model raw,
            requests st <= n < requests st'
            /\ generate_content e n model prompt = Response raw
            /\ text = Py.strip raw).
Proof.
  intros Hkey. induction attempts as [|attempt rest IH]; intros st.
  - exists "", false, st. repeat split; auto; try discriminate.
  - cbn [retry_loop]. unfold bind at 1, request.
    destruct (active_model_name st) as [model|] eqn:Hm.
    2:{ replace (Py.contains "429" attribute_error) with false
          by reflexivity.
        exists "", false, st. repeat split; auto; try discriminate. }
    set (st1 := {| active_model_name := Some model;
                   requests := requests st + 1;
                   trace := trace st ++ [Requested model prompt] |}).
    assert (Hfail : exists text success st',
               (Ret ("", false), st1) = (Ret (text, success), st')
               /\ requests st <= requests st'
               /\ (success = false -> text = "")
               /\ (success = true ->
                   exists n model raw,
                     requests st <= n < requests st'
                     /\ generate_content e n model prompt = Response raw
                     /\ text = Py.strip raw)).
    { exists "", false, st1. simpl.
      repeat split; auto; try lia; try discriminate. }
    assert (Hnext : forall st2,
               requests st2 = requests st + 1 ->
               exists text success st',
                 retry_loop e prompt rest st2 = (Ret (text, success), st')
                 /\ requests st <= requests st'
                 /\ (success = false -> text = "")
                 /\ (success = true ->
                     exists n model raw,
                       requests st <= n < requests st'
                       /\ generate_content e n model prompt = Response raw
                       /\ text = Py.strip raw)).
    { intros st2 H2.
      destruct (IH st2) as (text & success & st' & E & Hle & Hf & Ht).
      exists text, success, st'. repeat split; auto; try lia.
      intros Hs. destruct (Ht Hs) as (n & m & raw & Hn & G & ->).
      exists n, m, raw. repeat split; auto; lia. }
    destruct (generate_content e (requests st) model prompt)
      as [text|error_str] eqn:G.
    { exists (Py.strip text), true, st1. simpl.
      repeat split; auto; try lia; try discriminate.
      intros _. exists (requests st), model, text.
      repeat split; auto; lia. }
    destruct (Py.contains "429" error_str); [|exact Hfail].
    destruct (_ && _ && _).
    + unfold bind, init_gemini. rewrite Hkey. cbn [negb].
      apply Hnext. reflexivity.
    + destruct (attempt <? MAX_RETRIES - 1); [|exact Hfail].
      unfold bind. rewrite sleep_all_exact.
      apply Hnext. reflexivity.
Qed.

(** Past the first attempt the loop makes no tier switch and keeps the
    active model. *)
Lemma retry_loop_no_switch (e : env) (prompt : string) :
  forall attempts st r st',
    Forall (fun a => a <> 0) attempts ->
    retry_loop e prompt attempts st = (r, st') ->
    switches (trace st') = switches (trace st)
    /\ active_model_name st' = active_model_name st.
Proof.
  induction attempts as [|attempt rest IH]; intros st r st' Hall E.
  - inversion E; subst. auto.
  - inversion Hall as [|? ? Hne Hrest]; subst.
    cbn [retry_loop] in E. unfold bind at 1, request in E.
    destruct (active_model_name st) as [model|] eqn:Hm.
    2:{ replace (Py.contains "429" attribute_error) with false in E
          by reflexivity.
        inversion E; subst. auto. }
    set (st1 := {| active_model_name := Some model;
                   requests := requests st + 1;
                   trace := trace st ++ [Requested model prompt] |}) in E.
    assert (Hst1 : switches (trace st1) = switches (trace st)
                   /\ active_model_name st1 = Some model).
    { simpl. rewrite switches_app. simpl. split; [lia|reflexivity]. }
    destruct (generate_content e (requests st) model prompt)
      as [text|error_str]; [inversion E; subst; exact Hst1|].
    destruct (Py.contains "429" error_str);
      [|inversion E; subst; exact Hst1].
    replace (attempt =? 0) with false in E
      by (symmetry; now apply Nat.eqb_neq).
    rewrite andb_false_r in E. cbn [andb] in E.
    destruct (attempt <? MAX_RETRIES - 1);
      [|inversion E; subst; exact Hst1].
    unfold bind in E. rewrite sleep_all_exact in E.
    apply IH in E as (Hs & Ha); [|exact Hrest].
    rewrite Hs, Ha. simpl.
    rewrite !switches_app, slept_no_switch. simpl. split; [lia|reflexivity].
Qed.

(** One turn of the loop under the per-minute limit. *)
Lemma retry_turn_minute (e : env) (prompt : string) (attempt : nat)
  (rest : list nat) (st : gstate) (model : string) :
  per_minute_limited e ->
  active_model_name st = Some model ->
  exists error_str,
    generate_content e (requests st) model prompt = Failure error_str
    /\ retry_loop e prompt (attempt :: rest) st
       = if attempt <? MAX_RETRIES - 1
         then retry_loop e prompt rest
                {| active_model_name := Some model;
                   requests := requests st + 1;
                   trace := (trace st ++ [Requested model prompt])
                            ++ map (fun r => Slept (Z.min 5 r))
                                 (Py.countdown
                                    (get_retry_delay_from_error error_str)
                                    5) |}
         else (Ret ("", false),
               {| active_model_name := Some model;
                  requests := requests st + 1;
                  trace := trace st ++ [Requested model prompt] |}).
Proof.
  intros Hlim Hm.
  destruct (Hlim (requests st) model prompt) as (error_str & G & H429 & Hday).
  exists error_str. split; [exact G|].
  cbn [retry_loop]. unfold bind at 1, request. rewrite Hm, G, H429.
  rewrite (no_per_day _ Hday). cbn [andb].
  destruct (attempt <? MAX_RETRIES - 1); [|reflexivity].
  unfold bind. rewrite sleep_all_exact. reflexivity.
Qed.

End ControllerMoreLemmas.

(* ================================================================== *)
(** * Properties of the retry and fallback controller *)
(* ================================================================== *)

Module ControllerProperties.
Import Model Settings Spec Samples Vocabulary MoreSamples GeminiAnalyzer.
Import ControllerFacts ControllerMoreFacts ControllerMoreLemmas.

(** X20.  The wait that [get_retry_delay_from_error] reads off an error
    message is at least two seconds, whatever the message; and the
    countdown of [call_gemini_with_retry] sleeps that wait in full, in
    pieces of at most five seconds, without sending a request. *)
Theorem retry_wait_is_slept_in_full (error_str : string) (st : gstate) :
  let retry_delay := get_retry_delay_from_error error_str in
  let st' := snd (sleep_all (Py.countdown retry_delay 5) st) in
  (2 <= retry_delay)%Z
  /\ total_sleep (trace st') = (total_sleep (trace st) + retry_delay)%Z
  /\ Forall (fun remaining => (0 < Z.min 5 remaining <= 5)%Z)
       (Py.countdown retry_delay 5)
  /\ requests st' = requests st.
Proof.
  cbv zeta. pose proof (retry_delay_at_least_2 error_str) as Hd.
  rewrite sleep_all_exact. cbn [snd trace requests].
  rewrite total_sleep_app, countdown_total.
  repeat split; try lia.
  apply countdown_go_chunks.
Qed.

(** X21.  With the API key set, [call_gemini_with_retry] never raises:
    it returns after at most [MAX_RETRIES] requests.  A failure comes
    with the empty text, and a success is the stripped text of an answer
    that one of these requests got for the prompt. *)
Theorem call_returns_within_three_requests (e : env) (prompt : string)
  (tickers : list string) (st : gstate) :
  GEMINI_API_KEY e = true ->
  exists text success st',
    call_gemini_with_retry e prompt tickers st = (Ret (text, success), st')
    /\ requests st' <= requests st + MAX_RETRIES
    /\ (success = false -> text = "")
    /\ (success = true ->
        exists n model raw,
          requests st <= n < requests st'
          /\ generate_content e n model prompt = Response raw
          /\ text = Py.strip raw).
Proof.
  intros Hkey. unfold call_gemini_with_retry.
  destruct (retry_loop_total e prompt Hkey (Py.range 0 MAX_RETRIES 1) st)
    as (text & success & st' & E & _ & Hf & Ht).
  exists text, success, st'. repeat split; auto.
  apply retry_loop_bound in E as (Hb & _). exact Hb.
Qed.

Lemma call_returns_within_three_requests_witness :
  GEMINI_API_KEY minute_env = true
  /\ exists text success st',
       call_gemini_with_retry minute_env "prompt" ["INFY"] start
       = (Ret (text, success), st')
       /\ requests st' <= requests start + MAX_RETRIES
       /\ (success = false -> text = "")
       /\ (success = true ->
           exists n model raw,
             requests start <= n < requests st'
             /\ generate_content minute_env n model "prompt" = Response raw
             /\ text = Py.strip raw).
Proof.
  split; [reflexivity|].
  apply (call_returns_within_three_requests minute_env "prompt" ["INFY"]
           start).
  reflexivity.
Defined.

(** X22.  A failure that is not a rate limit (no [429] in its message) is
    not retried: the call gives up after that one request, with no wait
    and no change of model. *)
Theorem other_failure_is_not_retried (e : env) (prompt : string)
  (tickers : list string) (st : gstate) (model error_str : string) :
  active_model_name st = Some model ->
  generate_content e (requests st) model prompt = Failure error_str ->
  Py.contains "429" error_str = false ->
  call_gemini_with_retry e prompt tickers st
  = (Ret ("", false),
     {| active_model_name := Some model;
        requests := requests st + 1;
        trace := trace st ++ [Requested model prompt] |}).
Proof.
  intros Hm G H429. unfold call_gemini_with_retry.
  change (Py.range 0 MAX_RETRIES 1) with [0; 1; 2].
  remember [1; 2] as rest.
  cbn [retry_loop]. unfold bind, request. rewrite Hm, G, H429.
  reflexivity.
Qed.

Lemma other_failure_is_not_retried_witness :
  active_model_name (on_tier "gemini-2.0-flash")
  = Some "gemini-2.0-flash"
  /\ generate_content down_env (requests (on_tier "gemini-2.0-flash"))
       "gemini-2.0-flash" "prompt"
     = Failure "503 Service Unavailable"
  /\ Py.contains "429" "503 Service Unavailable" = false
  /\ call_gemini_with_retry down_env "prompt" ["INFY"]
       (on_tier "gemini-2.0-flash")
     = (Ret ("", false),
        {| active_model_name := Some "gemini-2.0-flash";
           requests := requests (on_tier "gemini-2.0-flash") + 1;
           trace := trace (on_tier "gemini-2.0-flash")
                    ++ [Requested "gemini-2.0-flash" "prompt"] |}).
Proof.
  do 3 (split; [reflexivity|]).
  apply (other_failure_is_not_retried down_env "prompt" ["INFY"]
           (on_tier "gemini-2.0-flash") "gemini-2.0-flash"
           "503 Service Unavailable");
    reflexivity.
Defined.

(** X23.  One call switches the model tier at most once, and the model
    it leaves active is the one it found or a member of
    [MODEL_FALLBACK_ORDER]. *)
Theorem at_most_one_tier_switch (e : env) (prompt : string)
  (tickers : list string) (st : gstate) :
  let st' := snd (call_gemini_with_retry e prompt tickers st) in
  switches (trace st') <= switches (trace st) + 1
  /\ (active_model_name st' = active_model_name st
      \/ exists model,
           active_model_name st' = Some model
           /\ In model MODEL_FALLBACK_ORDER).
Proof.
  cbv zeta.
  destruct (call_gemini_with_retry e prompt tickers st) as [r st'] eqn:E.
  cbn [snd]. unfold call_gemini_with_retry in E.
  change (Py.range 0 MAX_RETRIES 1) with [0; 1; 2] in E.
  assert (Hrest : Forall (fun a => a <> 0) [1; 2])
    by (repeat constructor; discriminate).
  remember [1; 2] as rest.
  cbn [retry_loop] in E. unfold bind at 1, request in E.
  destruct (active_model_name st) as [model|] eqn:Hm.
  2:{ replace (Py.contains "429" attribute_error) with false in E
        by reflexivity.
      inversion E; subst. rewrite Hm. split; [lia|now left]. }
  set (st1 := {| active_model_name := Some model;
                 requests := requests st + 1;
                 trace := trace st ++ [Requested model prompt] |}) in E.
  assert (Hst1 : switches (trace st1) <= switches (trace st) + 1
                 /\ (active_model_name st1 = Some model
                     \/ exists model',
                          active_model_name st1 = Some model'
                          /\ In model' MODEL_FALLBACK_ORDER)).
  { simpl. rewrite switches_app. simpl. split; [lia|now left]. }
  destruct (generate_content e (requests st) model prompt)
    as [text|error_str]; [inversion E; subst; exact Hst1|].
  destruct (Py.contains "429" error_str);
    [|inversion E; subst; exact Hst1].
  set (idx := next_index (active_model_name st1)) in E. clearbody idx.
  destruct (_ && _ && _) eqn:C.
  - apply andb_prop in C as (_ & Hidx). apply Nat.ltb_lt in Hidx.
    assert (Ht : exists target,
               In target MODEL_FALLBACK_ORDER
               /\ (if Py.truthy (nth_error MODEL_FALLBACK_ORDER idx)
                   then Py.get_or (nth_error MODEL_FALLBACK_ORDER idx) ""
                   else GEMINI_MODEL) = target).
    { destruct idx as [|[|[|k]]]; simpl in Hidx; try lia;
        eexists; (split; [|reflexivity]); simpl; auto. }
    destruct Ht as (target & Hin & Ht).
    unfold bind, init_gemini in E. rewrite Ht in E.
    destruct (negb (GEMINI_API_KEY e));
      [inversion E; subst; exact Hst1|].
    apply retry_loop_no_switch in E as (Hs & Ha); [|exact Hrest].
    rewrite Hs, Ha. subst st1. cbn [trace active_model_name].
    rewrite !switches_app. cbn [switches]. split; [lia|].
    right. exists target. split; [reflexivity|exact Hin].
  - change (0 <? MAX_RETRIES - 1) with true in E. cbv iota in E.
    unfold bind in E. rewrite sleep_all_exact in E.
    apply retry_loop_no_switch in E as (Hs & Ha); [|exact Hrest].
    rewrite Hs, Ha. subst st1. cbn [trace active_model_name].
    rewrite !switches_app, slept_no_switch. simpl. split; [lia|now left].
Qed.

(** X24.  Under the per-minute limit (every request fails with a [429]
    that does not name the daily quota) a call sends its three requests
    to the same model, never switches tier, sleeps the waits that the
    first two failures suggest, and reports failure. *)
Theorem per_minute_limit_waits_and_keeps_the_model (e : env)
  (prompt : string) (tickers : list string) (st : gstate)
  (model : string) :
  per_minute_limited e ->
  active_model_name st = Some model ->
  exists st' first second,
    call_gemini_with_retry e prompt tickers st = (Ret ("", false), st')
    /\ requests st' = requests st + 3
    /\ active_model_name st' = Some model
    /\ switches (trace st') = switches (trace st)
    /\ generate_content e (requests st) model prompt = Failure first
    /\ generate_content e (requests st + 1) model prompt = Failure second
    /\ total_sleep (trace st')
       = (total_sleep (trace st) + get_retry_delay_from_error first
          + get_retry_delay_from_error second)%Z.
Proof.
  intros Hlim Hm. unfold call_gemini_with_retry.
  change (Py.range 0 MAX_RETRIES 1) with [0; 1; 2].
  destruct (retry_turn_minute e prompt 0 [1; 2] st model Hlim Hm)
    as (first & G1 & ->).
  change (0 <? MAX_RETRIES - 1) with true. cbv iota.
  match goal with
  | |- context [retry_loop e prompt [1; 2] ?s] =>
      destruct (retry_turn_minute e prompt 1 [2] s model Hlim eq_refl)
        as (second & G2 & ->)
  end.
  change (1 <? MAX_RETRIES - 1) with true. cbv iota.
  match goal with
  | |- context [retry_loop e prompt [2] ?s] =>
      destruct (retry_turn_minute e prompt 2 [] s model Hlim eq_refl)
        as (third & G3 & ->)
  end.
  change (2 <? MAX_RETRIES - 1) with false. cbv iota.
  cbn [requests trace] in *.
  eexists _, first, second. split; [reflexivity|].
  cbn [requests trace active_model_name].
  pose proof (retry_delay_at_least_2 first).
  pose proof (retry_delay_at_least_2 second).
  repeat split; auto; try lia.
  - rewrite !switches_app, !slept_no_switch. simpl. lia.
  - rewrite !total_sleep_app, !countdown_total. simpl. lia.
Qed.

Lemma per_minute_limit_waits_and_keeps_the_model_witness :
  per_minute_limited minute_env
  /\ active_model_name (on_tier "gemini-2.0-flash")
     = Some "gemini-2.0-flash"
  /\ exists st' first second,
       call_gemini_with_retry minute_env "prompt" ["INFY"]
         (on_tier "gemini-2.0-flash")
       = (Ret ("", false), st')
       /\ requests st' = requests (on_tier "gemini-2.0-flash") + 3
       /\ active_model_name st' = Some "gemini-2.0-flash"
       /\ switches (trace st')
          = switches (trace (on_tier "gemini-2.0-flash"))
       /\ generate_content minute_env
            (requests (on_tier "gemini-2.0-flash"))
            "gemini-2.0-flash" "prompt" = Failure first
       /\ generate_content minute_env
            (requests (on_tier "gemini-2.0-flash") + 1)
            "gemini-2.0-flash" "prompt" = Failure second
       /\ total_sleep (trace st')
          = (total_sleep (trace (on_tier "gemini-2.0-flash"))
             + get_retry_delay_from_error first
             + get_retry_delay_from_error second)%Z.
Proof.
  assert (H : per_minute_limited minute_env).
  { intros n model prompt. exists "429 Please retry in 7s".
    repeat split. }
  split; [exact H|]. split; [reflexivity|].
  apply (per_minute_limit_waits_and_keeps_the_model minute_env "prompt"
           ["INFY"] (on_tier "gemini-2.0-flash") "gemini-2.0-flash" H).
  reflexivity.
Defined.

(** The waits of the sample service are nine seconds each. *)
Example minute_env_sleeps_eighteen_seconds :
  total_sleep
    (trace (snd (call_gemini_with_retry minute_env "prompt" ["INFY"]
                   (on_tier "gemini-2.0-flash"))))
  = 18%Z.
Proof. vm_compute. reflexivity. Qed.

End ControllerProperties.

(* ================================================================== *)
(** * Properties of the daily and weekly analysis *)
(* ================================================================== *)

Module AnalysisFacts.
Import Model Settings Spec Samples Vocabulary MoreSamples GeminiAnalyzer.
Import ControllerFacts ControllerMoreFacts ControllerMoreLemmas.
Import SchedulerFacts.

(** A call whose first request is answered. *)
Lemma call_answered (e : env) (prompt : string) (tickers : list string)
  (st : gstate) (model text : string) :
  active_model_name st = Some model ->
  generate_content e (requests st) model prompt = Response text ->
  call_gemini_with_retry e prompt tickers st
  = (Ret (Py.strip text, true),
     {| active_model_name := Some model;
        requests := requests st + 1;
        trace := trace st ++ [Requested model prompt] |}).
Proof.
  intros Hm G. unfold call_gemini_with_retry.
  change (Py.range 0 MAX_RETRIES 1) with [0; 1; 2].
  remember [1; 2] as rest.
  cbn [retry_loop]. unfold bind, request. rewrite Hm, G. reflexivity.
Qed.

(** With every request failing, a call reports failure. *)
Lemma call_all_fail (e : env) (prompt : string) (tickers : list string)
  (st : gstate) :
  GEMINI_API_KEY e = true -> always_fails e ->
  exists st',
    call_gemini_with_retry e prompt tickers st = (Ret ("", false), st').
Proof.
  intros Hkey Hfail. unfold call_gemini_with_retry.
  destruct (retry_loop_total e prompt Hkey (Py.range 0 MAX_RETRIES 1) st)
    as (text & success & st' & E & _ & Hf & Ht).
  destruct success.
  - destruct (Ht eq_refl) as (n & model & raw & _ & G & _).
    destruct (Hfail n model prompt) as (error_str & G'). congruence.
  - rewrite (Hf eq_refl) in E. now exists st'.
Qed.

Lemma analyze_all_fail (e : env) (stock_contexts tickers : list string)
  (st : gstate) :
  GEMINI_API_KEY e = true -> always_fails e ->
  exists st',
    analyze_daily_batch e stock_contexts tickers st
    = (Ret (_fallback_results tickers "API unavailable"), st').
Proof.
  intros Hkey Hfail. unfold analyze_daily_batch, bind.
  match goal with
  | |- context [call_gemini_with_retry e ?p tickers st] =>
      destruct (call_all_fail e p tickers st Hkey Hfail) as (st' & ->)
  end.
  now exists st'.
Qed.

Lemma merge_stock_ticker (d : list (string * stock)) (r : result) :
  r_ticker (merge_stock d r) = r_ticker r.
Proof.
  unfold merge_stock. destruct (r_ticker r) as [rt|] eqn:E; [|exact E].
  destruct (Py.lookup rt d); [reflexivity|exact E].
Qed.

Lemma merge_stock_placeholder (d : list (string * stock)) (r : result) :
  is_placeholder r -> is_placeholder (merge_stock d r).
Proof.
  unfold merge_stock. destruct (r_ticker r) as [rt|]; [|auto].
  destruct (Py.lookup rt d); auto.
Qed.

Lemma process_all_fail (e : env) (n_batches batch_idx : nat)
  (batch : list (string * data)) (st : gstate) :
  GEMINI_API_KEY e = true -> always_fails e ->
  exists results st',
    process_batch e n_batches batch_idx batch st = (Ret results, st')
    /\ map r_ticker results = map (fun item => Some (fst item)) batch
    /\ Forall is_placeholder results.
Proof.
  intros Hkey Hfail. unfold process_batch. unfold bind at 1.
  match goal with
  | |- context [analyze_daily_batch e ?c ?t st] =>
      destruct (analyze_all_fail e c t st Hkey Hfail) as (st' & ->)
  end.
  eexists.
  destruct (batch_idx <? n_batches - 1); unfold bind, sleep, log, ret;
    eexists; (split; [reflexivity|]).
  all: split;
    [ rewrite map_map;
      rewrite (map_ext _ _ (merge_stock_ticker _));
      rewrite fallback_tickers, map_map; reflexivity
    | apply Forall_map;
      eapply Forall_impl; [|apply fallback_placeholders];
      intros r; apply merge_stock_placeholder ].
Qed.

Lemma batch_loop_all_fail (e : env) (n_batches : nat) :
  GEMINI_API_KEY e = true -> always_fails e ->
  forall batches all_results st,
    Forall is_placeholder all_results ->
    exists results st',
      batch_loop e n_batches batches all_results st = (Ret results, st')
      /\ map r_ticker results
         = map r_ticker all_results
           ++ map (fun item => Some (fst item))
                (List.concat (map snd batches))
      /\ Forall is_placeholder results.
Proof.
  intros Hkey Hfail.
  induction batches as [|[batch_idx batch] rest IH];
    intros all_results st Hall.
  - exists all_results, st. simpl. rewrite app_nil_r. auto.
  - cbn [batch_loop]. unfold bind.
    destruct (process_all_fail e n_batches batch_idx batch st Hkey Hfail)
      as (batch_results & st1 & -> & Ht & Hp).
    destruct (IH (all_results ++ batch_results) st1) as
      (results & st' & E & Ht' & Hp').
    { apply Forall_app. now split. }
    exists results, st'. split; [exact E|]. split; [|exact Hp'].
    rewrite Ht'. simpl. rewrite !map_app, Ht, <- app_assoc. reflexivity.
Qed.

Lemma map_snd_combine_seq {A} (l : list A) :
  forall i, map snd (combine (seq i (List.length l)) l) = l.
Proof.
  induction l as [|x l IH]; intros i; simpl; [reflexivity|].
  now rewrite IH.
Qed.

(** The batches of a run are its sorted holdings, cut up. *)
Lemma run_batches {A} (l : list A) :
  exists batches,
    make_batches GEMINI_BATCH_SIZE l = Ret batches
    /\ List.concat batches = l
    /\ (l <> [] -> batches <> []).
Proof.
  unfold make_batches. simpl (GEMINI_BATCH_SIZE =? 0).
  eexists. split; [reflexivity|]. split.
  - unfold Py.range.
    rewrite (concat_slices GEMINI_BATCH_SIZE l); [reflexivity| |];
      unfold GEMINI_BATCH_SIZE; lia.
  - destruct l as [|x l]; [congruence|]. intros _. discriminate.
Qed.

(** ** The order of Python tuples *)

Lemma tuple_leb_total (a b : nat * Q) :
  tuple_leb a b = true \/ tuple_leb b a = true.
Proof.
  unfold tuple_leb.
  destruct (Nat.lt_trichotomy (fst a) (fst b)) as [H|[H|H]].
  - left. apply Nat.ltb_lt in H. now rewrite H.
  - rewrite H, Nat.eqb_refl, Nat.ltb_irrefl. simpl.
    apply Qle_bool_total.
  - right. apply Nat.ltb_lt in H. now rewrite H.
Qed.

Lemma tuple_leb_spec (a b : nat * Q) :
  tuple_leb a b = true
  <-> fst a < fst b \/ (fst a = fst b /\ (snd a <= snd b)%Q).
Proof.
  unfold tuple_leb.
  rewrite orb_true_iff, andb_true_iff, Nat.ltb_lt, Nat.eqb_eq,
    Qle_bool_iff.
  reflexivity.
Qed.

Lemma tuple_leb_trans (a b c : nat * Q) :
  tuple_leb a b = true -> tuple_leb b c = true -> tuple_leb a c = true.
Proof.
  rewrite !tuple_leb_spec.
  intros [H1|[H1 Q1]] [H2|[H2 Q2]]; try (left; lia).
  right. split; [lia|]. eapply Qle_trans; eassumption.
Qed.

End AnalysisFacts.

Module BatchFacts.
Import Model Settings Spec Samples Vocabulary MoreSamples GeminiAnalyzer.

Lemma range_go_count (stop step : nat) :
  0 < step ->
  forall fuel i,
    stop - i <= fuel ->
    stop - i <= step * List.length (Py.range_go fuel i stop step)
    /\ step * List.length (Py.range_go fuel i stop step) < stop - i + step.
Proof.
  intros Hstep. induction fuel as [|f IH]; intros i Hfuel; simpl.
  - lia.
  - destruct (Nat.ltb_spec i stop) as [Hlt|Hge]; simpl; [|lia].
    destruct (IH (i + step)) as (H1 & H2); [lia|].
    set (n := List.length (Py.range_go f (i + step) stop step)) in *.
    split; [nia|].
    destruct (Nat.le_gt_cases (i + step) stop) as [Hle|Hgt]; [nia|].
    replace (stop - (i + step)) with 0 in H2 by lia.
    assert (n = 0) by nia. subst n. nia.
Qed.

Lemma slices_full {A} (step : nat) (l : list A) :
  forall fuel i front last,
    map (fun j => Py.slice j (j + step) l)
        (Py.range_go fuel i (List.length l) step)
    = front ++ [last] ->
    Forall (fun b : list A => List.length b = step) front.
Proof.
  induction fuel as [|f IH]; intros i front last E; simpl in E.
  - now destruct front.
  - destruct (Nat.ltb_spec i (List.length l)) as [Hlt|Hge];
      [|now destruct front].
    destruct front as [|b front]; [constructor|].
    simpl in E. injection E as Hb Hrest. constructor.
    + subst b. unfold Py.slice. rewrite length_firstn, length_skipn.
      assert (i + step < List.length l); [|lia].
      destruct f as [|f']; simpl in Hrest; [now destruct front|].
      destruct (Nat.ltb_spec (i + step) (List.length l));
        [assumption|now destruct front].
    + eapply IH. exact Hrest.
Qed.

End BatchFacts.

Module AnalysisMoreProperties.
Import Model Settings Spec Samples Vocabulary MoreSamples GeminiAnalyzer.
Import Reviews.
Import ControllerFacts ControllerMoreFacts ControllerMoreLemmas.
Import SchedulerFacts AnalysisFacts BatchFacts.

(** X25.  When the first request of a batch is answered,
    [analyze_daily_batch] sends no second one and does not wait.  A blank
    answer gives the placeholders of "API unavailable"; otherwise the
    answer, rid of its code fences, goes to the JSON parser: a list is
    returned as it is, text that does not parse gives the placeholders of
    "JSON parse error", and any other JSON value raises [ValueError]. *)
Theorem answered_batch_is_parsed_once (e : env)
  (stock_contexts tickers : list string) (st : gstate)
  (model text : string) :
  active_model_name st = Some model ->
  (forall prompt,
      generate_content e (requests st) model prompt = Response text) ->
  let r := fst (analyze_daily_batch e stock_contexts tickers st) in
  let st' := snd (analyze_daily_batch e stock_contexts tickers st) in
  requests st' = requests st + 1
  /\ total_sleep (trace st') = total_sleep (trace st)
  /\ (Py.is_empty (Py.strip text) = true ->
      r = Ret (_fallback_results tickers "API unavailable"))
  /\ (Py.is_empty (Py.strip text) = false ->
      match json_loads e (cleaned text) with
      | JsonList results => r = Ret results
      | JsonOther => r = Raise (ValueError "Expected list")
      | JsonDecodeError =>
          r = Ret (_fallback_results tickers "JSON parse error")
      end).
Proof.
  intros Hm G. cbv zeta. unfold analyze_daily_batch, bind.
  match goal with
  | |- context [call_gemini_with_retry e ?p tickers st] =>
      rewrite (call_answered e p tickers st model text Hm (G p))
  end.
  cbn [negb orb]. unfold cleaned.
  destruct (Py.is_empty (Py.strip text)) eqn:Hblank.
  - unfold ret. cbn [fst snd requests trace].
    rewrite total_sleep_app. simpl.
    repeat split; try lia; try discriminate.
  - destruct (json_loads e _); unfold ret, raise;
      cbn [fst snd requests trace]; rewrite total_sleep_app; simpl;
      repeat split; try lia; try discriminate.
Qed.

Lemma answered_batch_is_parsed_once_witness :
  let text := "Sorry, I cannot help with that." in
  let st := on_tier "gemini-2.0-flash" in
  let r := fst (analyze_daily_batch garbled_env ["context"] ["INFY"] st) in
  let st' := snd (analyze_daily_batch garbled_env ["context"] ["INFY"] st) in
  active_model_name st = Some "gemini-2.0-flash"
  /\ (forall prompt,
         generate_content garbled_env (requests st) "gemini-2.0-flash"
           prompt = Response text)
  /\ requests st' = requests st + 1
  /\ total_sleep (trace st') = total_sleep (trace st)
  /\ (Py.is_empty (Py.strip text) = true ->
      r = Ret (_fallback_results ["INFY"] "API unavailable"))
  /\ (Py.is_empty (Py.strip text) = false ->
      match json_loads garbled_env (cleaned text) with
      | JsonList results => r = Ret results
      | JsonOther => r = Raise (ValueError "Expected list")
      | JsonDecodeError =>
          r = Ret (_fallback_results ["INFY"] "JSON parse error")
      end).
Proof.
  cbv zeta. split; [reflexivity|]. split; [reflexivity|].
  apply (answered_batch_is_parsed_once garbled_env ["context"] ["INFY"]
           (on_tier "gemini-2.0-flash") "gemini-2.0-flash"
           "Sorry, I cannot help with that.");
    reflexivity.
Defined.

(** X26.  An answer that parses to something other than a list is not
    caught anywhere: with such answers and at least one holding with
    news, [run_daily_analysis] raises [ValueError] and returns no result
    at all. *)
Theorem non_list_answer_aborts_the_run (e : env)
  (filtered_news : list (string * data)) (st : gstate) (text : string) :
  GEMINI_API_KEY e = true ->
  always_answers e text ->
  Py.is_empty (Py.strip text) = false ->
  json_loads e (cleaned text) = JsonOther ->
  (exists item, In item filtered_news /\ has_news item = true) ->
  fst (run_daily_analysis e filtered_news st)
  = Raise (ValueError "Expected list").
Proof.
  intros Hkey Hans Hblank Hjson (item & Hin & Hnews).
  unfold run_daily_analysis. unfold bind at 1, init_gemini.
  rewrite Hkey. cbn [negb].
  assert (Hne : sort_by_investment (filter has_news filtered_news) <> []).
  { intros Hnil.
    assert (Hp := sorted_perm Qle_bool sort_key
                    (filter has_news filtered_news)).
    fold (sort_by_investment (filter has_news filtered_news)) in Hp.
    rewrite Hnil in Hp. apply Permutation_nil in Hp.
    assert (Hi : In item (filter has_news filtered_news))
      by (apply filter_In; now split).
    rewrite Hp in Hi. exact Hi. }
  destruct (run_batches
              (sort_by_investment (filter has_news filtered_news)))
    as (batches & Hb & _ & Hbne).
  specialize (Hbne Hne).
  unfold bind at 1, lift. rewrite Hb.
  destruct batches as [|batch batches]; [congruence|].
  cbn [List.length seq combine batch_loop].
  unfold bind at 1. unfold bind at 1.
  unfold process_batch. unfold bind at 1.
  unfold analyze_daily_batch. unfold bind at 1.
  match goal with
  | |- context [call_gemini_with_retry e ?p ?t ?s] =>
      rewrite (call_answered e p t s _ text eq_refl (Hans _ _ _))
  end.
  cbn [negb orb]. rewrite Hblank.
  fold (cleaned text). rewrite Hjson. reflexivity.
Qed.

Lemma non_list_answer_aborts_the_run_witness :
  GEMINI_API_KEY object_env = true
  /\ always_answers object_env "{ }"
  /\ Py.is_empty (Py.strip "{ }") = false
  /\ json_loads object_env (cleaned "{ }") = JsonOther
  /\ (exists item,
         In item [with_news "INFY" "IN" None] /\ has_news item = true)
  /\ fst (run_daily_analysis object_env [with_news "INFY" "IN" None] start)
     = Raise (ValueError "Expected list").
Proof.
  assert (Hans : always_answers object_env "{ }")
    by (intros n model prompt; reflexivity).
  assert (Hitem : exists item,
             In item [with_news "INFY" "IN" None] /\ has_news item = true).
  { exists (with_news "INFY" "IN" None). split; [now left|reflexivity]. }
  do 4 (split; [first [reflexivity | exact Hans]|]).
  split; [exact Hitem|].
  apply (non_list_answer_aborts_the_run object_env
           [with_news "INFY" "IN" None] start "{ }");
    first [reflexivity | exact Hans | exact Hitem].
Defined.

(** X27.  When every request fails, [run_daily_analysis] still returns:
    its results are placeholders, one for each holding that has news and
    none for the others. *)
Theorem failing_service_gives_placeholders (e : env)
  (filtered_news : list (string * data)) (st : gstate) :
  GEMINI_API_KEY e = true ->
  always_fails e ->
  exists results st',
    run_daily_analysis e filtered_news st = (Ret results, st')
    /\ Permutation (map r_ticker results) (tickers_with_news filtered_news)
    /\ Forall is_placeholder results.
Proof.
  intros Hkey Hfail.
  unfold run_daily_analysis. unfold bind at 1, init_gemini.
  rewrite Hkey. cbn [negb].
  destruct (run_batches
              (sort_by_investment (filter has_news filtered_news)))
    as (batches & Hb & Hcat & _).
  unfold bind at 1, lift. rewrite Hb.
  unfold bind at 1.
  match goal with
  | |- context [batch_loop e ?n ?bs [] ?s] =>
      destruct (batch_loop_all_fail e n Hkey Hfail bs [] s
                  (Forall_nil _))
        as (all_results & st' & -> & Ht & Hp)
  end.
  rewrite map_snd_combine_seq, Hcat in Ht. simpl in Ht.
  eexists _, st'. split; [reflexivity|].
  assert (Hs := sorted_perm tuple_leb final_key all_results).
  split.
  - rewrite Hs, Ht. unfold tickers_with_news.
    apply Permutation_map.
    apply (sorted_perm Qle_bool sort_key).
  - eapply Permutation_Forall; [symmetry; exact Hs|exact Hp].
Qed.

Lemma failing_service_gives_placeholders_witness :
  let filtered_news :=
    [with_news "INFY" "IN" None; without_news "AAPL" "US" None] in
  GEMINI_API_KEY down_env = true
  /\ always_fails down_env
  /\ exists results st',
       run_daily_analysis down_env filtered_news start
       = (Ret results, st')
       /\ Permutation (map r_ticker results)
            (tickers_with_news filtered_news)
       /\ Forall is_placeholder results.
Proof.
  assert (Hfail : always_fails down_env).
  { intros n model prompt. now exists "503 Service Unavailable". }
  cbv zeta. split; [reflexivity|]. split; [exact Hfail|].
  apply (failing_service_gives_placeholders down_env
           [with_news "INFY" "IN" None; without_news "AAPL" "US" None]
           start);
    [reflexivity|exact Hfail].
Defined.

(** X28.  Whatever the service answers, the results that
    [run_daily_analysis] returns are in presentation order: HIGH before
    MEDIUM before everything else, and within a tier the larger invested
    amount first. *)
Theorem daily_results_are_in_presentation_order (e : env)
  (filtered_news : list (string * data)) (st : gstate) :
  match fst (run_daily_analysis e filtered_news st) with
  | Ret results => StronglySorted presented_before results
  | Raise _ => True
  end.
Proof.
  unfold run_daily_analysis. unfold bind at 1.
  destruct (init_gemini e None st) as [[[]|ex] st0]; [|exact I].
  unfold bind at 1, lift.
  destruct (make_batches _ _) as [batches|ex]; [|exact I].
  unfold bind at 1.
  destruct (batch_loop _ _ _ _ _) as [[all_results|ex] st1]; [|exact I].
  unfold ret. cbn [fst].
  eapply SchedulerProperties.StronglySorted_impl;
    [|apply (sorted_sorted tuple_leb final_key);
      [apply tuple_leb_total|apply tuple_leb_trans]].
  intros a b H. apply tuple_leb_spec in H. unfold final_key in H.
  cbn [fst snd] in H. unfold presented_before.
  destruct H as [H|[H1 H2]]; [now left|right].
  split; [exact H1|]. now apply Qopp_le_compat in H2;
    rewrite !Qopp_involutive in H2.
Qed.

(** X29.  The slicing of [run_daily_analysis] makes as many batches as
    the size requires, rounded up, and only the last batch can be short. *)
Theorem batches_are_full_but_the_last {A} (batch_size : nat) (l : list A) :
  0 < batch_size ->
  exists batches,
    make_batches batch_size l = Ret batches
    /\ List.length batches = (List.length l + batch_size - 1) / batch_size
    /\ forall front last,
         batches = front ++ [last] ->
         Forall (fun b => List.length b = batch_size) front.
Proof.
  intros Hpos. unfold make_batches.
  replace (batch_size =? 0) with false
    by (symmetry; apply Nat.eqb_neq; lia).
  eexists. split; [reflexivity|]. split.
  - rewrite length_map. unfold Py.range.
    destruct (range_go_count (List.length l) batch_size Hpos
                (List.length l - 0) 0 (le_n _)) as (H1 & H2).
    set (n := List.length
                (Py.range_go (List.length l - 0) 0 (List.length l)
                   batch_size)) in *.
    apply Nat.div_unique
      with (r := List.length l + batch_size - 1 - batch_size * n); nia.
  - intros front last E. unfold Py.range in E.
    eapply slices_full. exact E.
Qed.

Lemma batches_are_full_but_the_last_witness :
  0 < 5
  /\ exists batches,
       make_batches 5 (seq 1 12) = Ret batches
       /\ List.length batches = (List.length (seq 1 12) + 5 - 1) / 5
       /\ forall front last,
            batches = front ++ [last] ->
            Forall (fun b => List.length b = 5) front.
Proof.
  split; [lia|]. apply (batches_are_full_but_the_last 5 (seq 1 12)). lia.
Defined.

(** X30.  With the API key set, [run_weekly_analysis] never raises and
    sends at most [MAX_RETRIES] requests.  When every request fails the
    review is the fixed text "Weekly analysis unavailable."; when the
    service answers, the review is the stripped answer, even a blank
    one. *)
Theorem weekly_review_degrades_to_a_fixed_text (e : env)
  (weekly_log_data : string) (st : gstate) :
  GEMINI_API_KEY e = true ->
  exists review st',
    run_weekly_analysis e weekly_log_data st = (Ret review, st')
    /\ requests st' <= requests st + MAX_RETRIES
    /\ (always_fails e -> review = "Weekly analysis unavailable.")
    /\ (forall text, always_answers e text -> review = Py.strip text).
Proof.
  intros Hkey. unfold run_weekly_analysis. unfold bind at 1, init_gemini.
  rewrite Hkey. cbn [negb]. unfold bind.
  set (st0 := {| active_model_name := _; requests := requests st;
                 trace := _ |}).
  set (prompt := weekly_prompt weekly_log_data).
  destruct (retry_loop_total e prompt Hkey (Py.range 0 MAX_RETRIES 1) st0)
    as (text & success & st' & E & _ & _ & _).
  unfold call_gemini_with_retry at 1. rewrite E.
  eexists _, st'. split; [reflexivity|].
  split; [|split].
  - apply retry_loop_bound in E as (Hb & _). exact Hb.
  - intros Hfail.
    destruct (call_all_fail e prompt ["weekly"] st0 Hkey Hfail)
      as (st2 & E2).
    unfold call_gemini_with_retry in E2. rewrite E in E2.
    inversion E2; subst. reflexivity.
  - intros answer Hans.
    pose proof (call_answered e prompt ["weekly"] st0 _ answer eq_refl
                  (Hans _ _ _)) as E2.
    unfold call_gemini_with_retry in E2. rewrite E in E2.
    inversion E2; subst. reflexivity.
Qed.

Lemma weekly_review_degrades_to_a_fixed_text_witness :
  GEMINI_API_KEY down_env = true
  /\ exists review st',
       run_weekly_analysis down_env "Mon: INFY up" start
       = (Ret review, st')
       /\ requests st' <= requests start + MAX_RETRIES
       /\ (always_fails down_env -> review = "Weekly analysis unavailable.")
       /\ (forall text,
              always_answers down_env text -> review = Py.strip text).
Proof.
  split; [reflexivity|].
  apply (weekly_review_degrades_to_a_fixed_text down_env "Mon: INFY up"
           start).
  reflexivity.
Defined.

End AnalysisMoreProperties.
